(** * hnat: the spreadsheet reader and the batch-parameter table extractor

    A shallow embedding of

    - [xl/workbook.py]: [ValueFromString], [Workbook.__init__],
      [Workbook.loadSheetData] and the three package loaders;
    - [processing/habitat_network_algorithm.py]: [CellRef],
      [ParameterSet.parameter], [ParameterSet.column],
      [HabitatNetworkAlgorithm.columnValues] and
      [HabitatNetworkAlgorithm._loadBatchParameters].

    Python values are embedded as data, raised exceptions as an error
    result, [dict]s as insertion-ordered association lists and text as
    lists of Unicode code points. *)

From Stdlib Require Import String Ascii Decimal SpecFloat.
From Stdlib Require Import Bool ZArith NArith Lia List.
Import ListNotations.

Set Implicit Arguments.

(* ================================================================== *)
(** * Python text *)
(* ================================================================== *)

(** A Python [str] is a sequence of code points. *)
Definition pystr := list N.

(** Literals of the source are written [str "..."]. *)
Definition str (s : string) : pystr :=
  map N_of_ascii (list_ascii_of_string s).

Fixpoint str_eqb (a b : pystr) : bool :=
  match a, b with
  | [], [] => true
  | x :: a', y :: b' => N.eqb x y && str_eqb a' b'
  | _, _ => false
  end.

Fixpoint digits_of_uint (u : Decimal.uint) : pystr :=
  match u with
  | Nil => []
  | D0 u => 48%N :: digits_of_uint u
  | D1 u => 49%N :: digits_of_uint u
  | D2 u => 50%N :: digits_of_uint u
  | D3 u => 51%N :: digits_of_uint u
  | D4 u => 52%N :: digits_of_uint u
  | D5 u => 53%N :: digits_of_uint u
  | D6 u => 54%N :: digits_of_uint u
  | D7 u => 55%N :: digits_of_uint u
  | D8 u => 56%N :: digits_of_uint u
  | D9 u => 57%N :: digits_of_uint u
  end.

(** [str(n)] for an [int]. *)
Definition str_of_Z (z : Z) : pystr :=
  match Z.to_int z with
  | Decimal.Pos u => digits_of_uint u
  | Decimal.Neg u => 45%N :: digits_of_uint u
  end.

(** [sep.join(l)]. *)
Fixpoint join (sep : pystr) (l : list pystr) : pystr :=
  match l with
  | [] => []
  | [s] => s
  | s :: rest => s ++ sep ++ join sep rest
  end.

(** [s.find(c)] for a one-character needle: the first index, or -1. *)
Fixpoint find_char (c : N) (s : pystr) : Z :=
  match s with
  | [] => (-1)%Z
  | x :: s' =>
      if N.eqb x c then 0%Z
      else let r := find_char c s' in
           if (r <? 0)%Z then (-1)%Z else (r + 1)%Z
  end.

(** [s.rfind(c)] for a one-character needle: the last index, or -1. *)
Fixpoint rfind_char (c : N) (s : pystr) : Z :=
  match s with
  | [] => (-1)%Z
  | x :: s' =>
      let r := rfind_char c s' in
      if (0 <=? r)%Z then (r + 1)%Z
      else if N.eqb x c then 0%Z else (-1)%Z
  end.

(* ================================================================== *)
(** * Exceptions and results *)
(* ================================================================== *)

(** The exception classes the modelled code can raise; the built-in
    classes are told apart by class only.  [Exception] is declared
    below, once cell values are: it carries its message. *)
Inductive builtin_exn : Type :=
| KeyError
| IndexError
| ValueError
| TypeError
| AttributeError
| UnboundLocalError
| BadZipFile
| ParseError.

(* ================================================================== *)
(** * Cell values *)
(* ================================================================== *)

(** Binary64 values, as data. *)
Definition float := spec_float.

(** What a grid cell holds: [None], an [int], a [float] or a [str]. *)
Inductive value : Type :=
| VNone
| VInt (n : Z)
| VFloat (f : float)
| VStr (s : pystr).

Definition float_is_zero (f : float) : bool :=
  match f with
  | S754_zero _ => true
  | _ => false
  end.

(** [bool(v)]. *)
Definition truthy (v : value) : bool :=
  match v with
  | VNone => false
  | VInt n => negb (n =? 0)%Z
  | VFloat f => negb (float_is_zero f)
  | VStr s => match s with [] => false | _ => true end
  end.

(** Exact comparison of a finite float [(-1)^s * m * 2^e] with an integer. *)
Definition float_eq_Z (f : float) (n : Z) : bool :=
  match f with
  | S754_zero _ => (n =? 0)%Z
  | S754_finite s m e =>
      let a := if s then Z.neg m else Z.pos m in
      if (0 <=? e)%Z then (Z.shiftl a e =? n)%Z
      else (a =? Z.shiftl n (- e))%Z
  | _ => false
  end.

(** [a == b] on cell values.  Every cell holds an object of its own, so
    the identity shortcut of container lookups never makes a NaN equal
    to itself here. *)
Definition py_eq (a b : value) : bool :=
  match a, b with
  | VNone, VNone => true
  | VInt x, VInt y => (x =? y)%Z
  | VInt x, VFloat f | VFloat f, VInt x => float_eq_Z f x
  | VFloat f, VFloat g => SFeqb f g
  | VStr s, VStr t => str_eqb s t
  | _, _ => false
  end.

(* ================================================================== *)
(** * Raised exceptions *)
(* ================================================================== *)

(** [Exception fmt args] is [Exception(fmt % args)]: the format string
    of the source with the values its [%s] fields are filled with, a
    [str] argument standing for itself. *)
Inductive exn : Type :=
| Exception (fmt : pystr) (args : list value)
| Builtin (e : builtin_exn).

Coercion Builtin : builtin_exn >-> exn.

Inductive result (A : Type) : Type :=
| Ok (a : A)
| Raise (e : exn).

Arguments Ok {A} a.
Arguments Raise {A} e.

Definition bind {A B : Type} (r : result A) (k : A -> result B) : result B :=
  match r with
  | Ok a => k a
  | Raise e => Raise e
  end.

Declare Scope py_scope.
Delimit Scope py_scope with py.
Notation "x <- c ;; k" := (bind c (fun x => k))
  (at level 61, c at next level, right associativity) : py_scope.
Notation "' p <- c ;; k" := (bind c (fun x => let 'p := x in k))
  (at level 61, p pattern, c at next level, right associativity) : py_scope.
Open Scope py_scope.

(** A [for] loop over a list that threads an accumulator and stops at
    the first exception. *)
Fixpoint foldM {A S : Type} (f : S -> A -> result S) (s : S) (l : list A)
  : result S :=
  match l with
  | [] => Ok s
  | a :: l' => s' <- f s a ;; foldM f s' l'
  end.

Fixpoint mapM {A B : Type} (f : A -> result B) (l : list A) : result (list B) :=
  match l with
  | [] => Ok []
  | a :: l' => b <- f a ;; bs <- mapM f l' ;; Ok (b :: bs)
  end.

(** [chr(n)]: defined on [range(0x110000)] only. *)
Definition chr (n : Z) : result pystr :=
  if ((0 <=? n) && (n <? 1114112))%Z then Ok [Z.to_N n] else Raise ValueError.

Definition ord (c : N) : Z := Z.of_N c.

(* ================================================================== *)
(** * Python sequences *)
(* ================================================================== *)

(** [l[i]] with Python's negative indices; [IndexError] out of range. *)
Definition getitem {A : Type} (l : list A) (i : Z) : result A :=
  let n := Z.of_nat (length l) in
  let j := if (i <? 0)%Z then (i + n)%Z else i in
  if ((j <? 0) || (n <=? j))%Z then Raise IndexError
  else match nth_error l (Z.to_nat j) with
       | Some a => Ok a
       | None => Raise IndexError
       end.

(** Replacing the element at a position that exists. *)
Fixpoint replace_nth {A : Type} (l : list A) (k : nat) (a : A) : list A :=
  match l, k with
  | [], _ => []
  | _ :: l', O => a :: l'
  | x :: l', S k' => x :: replace_nth l' k' a
  end.

(** [l[i] = a] with Python's negative indices; [IndexError] out of range. *)
Definition setitem {A : Type} (l : list A) (i : Z) (a : A) : result (list A) :=
  let n := Z.of_nat (length l) in
  let j := if (i <? 0)%Z then (i + n)%Z else i in
  if ((j <? 0) || (n <=? j))%Z then Raise IndexError
  else Ok (replace_nth l (Z.to_nat j) a).

(** [l[i]] for an index that comes from [range], [enumerate] or [len]
    and so is never negative. *)
Definition item {A : Type} (l : list A) (i : nat) : result A :=
  match nth_error l i with
  | Some a => Ok a
  | None => Raise IndexError
  end.

(** [[a] * n]: empty for [n <= 0]. *)
Definition repeatZ {A : Type} (a : A) (n : Z) : list A := repeat a (Z.to_nat n).

(** [s[i:]] for [i >= 0]. *)
Definition slice_from {A : Type} (l : list A) (i : Z) : list A :=
  skipn (Z.to_nat i) l.

(** [max(l)] over integers; [ValueError] on the empty list. *)
Definition py_max (l : list Z) : result Z :=
  match l with
  | [] => Raise ValueError
  | x :: l' => Ok (fold_left Z.max l' x)
  end.

(* ================================================================== *)
(** * Dictionaries *)
(* ================================================================== *)

(** A [dict] keeps insertion order; assigning to a key that is present
    keeps the key and its position and replaces the value. *)
Section Dict.
Variables K V : Type.
Variable keq : K -> K -> bool.

Definition dict := list (K * V).

Fixpoint dict_get (d : dict) (k : K) : option V :=
  match d with
  | [] => None
  | (k', v) :: d' => if keq k' k then Some v else dict_get d' k
  end.

Fixpoint dict_set (d : dict) (k : K) (v : V) : dict :=
  match d with
  | [] => [(k, v)]
  | (k', v') :: d' =>
      if keq k' k then (k', v) :: d' else (k', v') :: dict_set d' k v
  end.

(** [d[k]]: [KeyError] when absent. *)
Definition dict_item (d : dict) (k : K) : result V :=
  match dict_get d k with
  | Some v => Ok v
  | None => Raise KeyError
  end.
End Dict.

(* ================================================================== *)
(** * XML documents and the zip package *)
(* ================================================================== *)

(** An [xml.etree.ElementTree] element: tag, attributes, text and the
    child elements in document order. *)
#[local] Unset Elimination Schemes.
Inductive element : Type :=
| Element (tag : pystr) (attrib : list (pystr * pystr))
          (text : option pystr) (children : list element).
#[local] Set Elimination Schemes.

Definition tag (e : element) : pystr :=
  match e with Element t _ _ _ => t end.
Definition attrib (e : element) : dict pystr pystr :=
  match e with Element _ a _ _ => a end.
Definition text (e : element) : option pystr :=
  match e with Element _ _ x _ => x end.
Definition children (e : element) : list element :=
  match e with Element _ _ _ c => c end.

(** [e.get(k)] and [e.attrib.get(k)]. *)
Definition attrib_get (e : element) (k : pystr) : option pystr :=
  dict_get str_eqb (attrib e) k.

(** [e.attrib[k]]. *)
Definition attrib_item (e : element) (k : pystr) : result pystr :=
  dict_item str_eqb (attrib e) k.

(** [e.findall(t)] for a plain tag: the direct children with that tag. *)
Definition findall (e : element) (t : pystr) : list element :=
  filter (fun c => str_eqb (tag c) t) (children e).

(** [e.find(t)]: the first of them, or [None]. *)
Definition find (e : element) (t : pystr) : option element :=
  List.find (fun c => str_eqb (tag c) t) (children e).

(** A member of the package as [ET.parse] sees it: a document with its
    root element, or bytes that do not parse. *)
Inductive member : Type :=
| Xml (root : element)
| NotXml.

(** The members of an opened [zipfile.ZipFile], by name. *)
Definition archive := dict pystr member.

(** What [zipfile.ZipFile(path, 'r')] finds at a path: [None] when the
    file cannot be opened as a zip archive. *)
Definition filesystem := pystr -> option archive.

Definition option_str_eqb (a b : option pystr) : bool :=
  match a, b with
  | None, None => true
  | Some x, Some y => str_eqb x y
  | _, _ => false
  end.

(* ================================================================== *)
(** * xl/workbook.py *)
(* ================================================================== *)

Record SheetDef : Type := mkSheetDef {
  name : option pystr;
  rid : option pystr
}.

Record Workbook : Type := mkWorkbook {
  _archive : archive;
  _rels : dict (option pystr) (option pystr);
  _sheetDefs : list SheetDef;
  _sharedStrings : list (option pystr)
}.

Definition ns_main : pystr :=
  str "http://schemas.openxmlformats.org/spreadsheetml/2006/main".
Definition ns_r : pystr :=
  str "http://schemas.openxmlformats.org/officeDocument/2006/relationships".

(** ['{%s}local' % ns]. *)
Definition qname (ns local : pystr) : pystr :=
  str "{" ++ ns ++ str "}" ++ local.

Definition row_tag : pystr := qname ns_main (str "row").
Definition c_tag : pystr := qname ns_main (str "c").
Definition v_tag : pystr := qname ns_main (str "v").
Definition sheetData_tag : pystr := qname ns_main (str "sheetData").
Definition si_tag : pystr := qname ns_main (str "si").
Definition t_tag : pystr := qname ns_main (str "t").

(** [Workbook._loadXml]: [archive.open] raises [KeyError] for a name
    that is not in the archive, [ET.parse] a parse error. *)
Definition _loadXml (a : archive) (path : pystr) : result element :=
  match dict_get str_eqb a path with
  | None => Raise KeyError
  | Some NotXml => Raise ParseError
  | Some (Xml root) => Ok root
  end.

(** [Workbook._stripNameSpace]. *)
Definition _stripNameSpace (t : pystr) : pystr :=
  let i := rfind_char 125%N t in
  if (i <? 0)%Z then t else slice_from t (i + 1).

(** [Workbook._loadRels]. *)
Definition _loadRels (a : archive)
  : result (dict (option pystr) (option pystr)) :=
  root <- _loadXml a (str "xl/_rels/workbook.xml.rels") ;;
  Ok (fold_left
        (fun rels child =>
           if str_eqb (str "Relationship") (_stripNameSpace (tag child))
           then dict_set option_str_eqb rels
                  (attrib_get child (str "Id")) (attrib_get child (str "Target"))
           else rels)
        (children root) []).

(** [Workbook._loadSheetDefs]. *)
Definition _loadSheetDefs (a : archive) : result (list SheetDef) :=
  root <- _loadXml a (str "xl/workbook.xml") ;;
  Ok (fold_left
        (fun sheet_defs child =>
           if str_eqb (str "sheets") (_stripNameSpace (tag child))
           then fold_left
                  (fun sheet_defs child2 =>
                     if str_eqb (str "sheet") (_stripNameSpace (tag child2))
                     then sheet_defs ++
                          [mkSheetDef (attrib_get child2 (str "name"))
                                      (attrib_get child2 (qname ns_r (str "id")))]
                     else sheet_defs)
                  (children child) sheet_defs
           else sheet_defs)
        (children root) []).

(** [Workbook._loadSharedStrings]. *)
Definition _loadSharedStrings (a : archive) : result (list (option pystr)) :=
  root <- _loadXml a (str "xl/sharedStrings.xml") ;;
  Ok (fold_left
        (fun shared_strings si =>
           match find si t_tag with
           | Some t => shared_strings ++ [text t]
           | None => shared_strings
           end)
        (findall root si_tag) []).

(** [Workbook.__init__]. *)
Definition Workbook_init (fs : filesystem) (path : pystr) : result Workbook :=
  match fs path with
  | None => Raise BadZipFile
  | Some a =>
      rels <- _loadRels a ;;
      sheetDefs <- _loadSheetDefs a ;;
      sharedStrings <- _loadSharedStrings a ;;
      Ok (mkWorkbook a rels sheetDefs sharedStrings)
  end.

Definition OpenWorkbook (fs : filesystem) (path : pystr) : result Workbook :=
  Workbook_init fs path.

(** [Workbook.sheetCount] and [Workbook.sheetName]. *)
Definition sheetCount (wb : Workbook) : Z := Z.of_nat (length (_sheetDefs wb)).

Definition sheetName (wb : Workbook) (index : Z) : result (option pystr) :=
  d <- getitem (_sheetDefs wb) index ;; Ok (name d).

(** [Workbook._sheetPath]: ['xl/' + None] is a [TypeError]. *)
Definition _sheetPath (wb : Workbook) (index : Z) : result pystr :=
  d <- getitem (_sheetDefs wb) index ;;
  target <- dict_item option_str_eqb (_rels wb) (rid d) ;;
  match target with
  | Some p => Ok (str "xl/" ++ p)
  | None => Raise TypeError
  end.

(** A grid: rows of cell values. *)
Definition grid := list (list value).

Section Reader.
(** Python's [int(s)] and [float(s)] on text: [None] stands for the
    [ValueError] of text that does not parse. *)
Variable int_of_str : pystr -> option Z.
Variable float_of_str : pystr -> option float.

(** [int(x)] where [x] may be [None]. *)
Definition py_int (x : option pystr) : result Z :=
  match x with
  | None => Raise TypeError
  | Some s => match int_of_str s with
              | Some n => Ok n
              | None => Raise ValueError
              end
  end.

(** [float(x)] where [x] may be [None]. *)
Definition py_float (x : option pystr) : result float :=
  match x with
  | None => Raise TypeError
  | Some s => match float_of_str s with
              | Some f => Ok f
              | None => Raise ValueError
              end
  end.

(** [ValueFromString]: two bare [try]/[except] blocks, then [s] itself. *)
Definition ValueFromString (s : option pystr) : value :=
  match py_int s with
  | Ok n => VInt n
  | Raise _ =>
      match py_float s with
      | Ok f => VFloat f
      | Raise _ =>
          match s with
          | Some t => VStr t
          | None => VNone
          end
      end
  end.

(** A shared string whose [<t>] has no text is [None]. *)
Definition value_of_shared (s : option pystr) : value :=
  match s with
  | Some t => VStr t
  | None => VNone
  end.

(** The body of the loop over the [c] elements of one row. *)
Definition load_cell (sharedStrings : list (option pystr))
           (row : list value) (c_node : element) : result (list value) :=
  ref <- attrib_item c_node (str "r") ;;
  c0 <- getitem ref 0 ;;
  let col := (ord c0 - ord 65%N)%Z in
  let t := attrib_get c_node (str "t") in
  match find c_node v_tag with
  | Some v_node =>
      if option_str_eqb t (Some (str "s"))
      then i <- py_int (text v_node) ;;
           s <- getitem sharedStrings i ;;
           setitem row col (value_of_shared s)
      else setitem row col (ValueFromString (text v_node))
  | None => Ok row
  end.

(** The body of the loop over the [row] elements: the declared row
    number and the cells of the row. *)
Definition load_row (sharedStrings : list (option pystr))
           (row_node : element) : result (Z * list value) :=
  spans <- attrib_item row_node (str "spans") ;;
  length <- py_int (Some (slice_from spans (find_char 58%N spans + 1))) ;;
  let row := repeatZ VNone length in
  row <- foldM (load_cell sharedStrings) row (findall row_node c_tag) ;;
  r <- py_int (attrib_get row_node (str "r")) ;;
  Ok (r, row).

(** The placement loop: [rows[r[0] - 1] = r[1]] for each raw row. *)
Definition place_rows (rows : grid) (raw_rows : list (Z * list value))
  : result grid :=
  foldM (fun rows r => setitem rows (fst r - 1) (snd r)) rows raw_rows.

(** [Workbook.loadSheetData].  The rows of [[[]] * row_count] are one
    shared empty list; nothing writes into it afterwards, so the grid
    is modelled by value. *)
Definition loadSheetData (wb : Workbook) (index : Z) : result grid :=
  path <- _sheetPath wb index ;;
  root <- _loadXml (_archive wb) path ;;
  match find root sheetData_tag with
  | None => Raise AttributeError
  | Some sheetData_node =>
      raw_rows <- mapM (load_row (_sharedStrings wb))
                       (findall sheetData_node row_tag) ;;
      row_count <- py_max (map fst raw_rows) ;;
      place_rows (repeatZ [] row_count) raw_rows
  end.
End Reader.

(* ================================================================== *)
(** * processing/habitat_network_algorithm.py *)
(* ================================================================== *)

(** [CellRef]: [chr] raises [ValueError] past the last code point. *)
Definition CellRef (x y : nat) : result pystr :=
  c <- chr (ord 65%N + Z.of_nat x) ;;
  Ok (c ++ str_of_Z (Z.of_nat y + 1)).

(** The [name_or_nameList] arguments and the entries of [PARAMS] and
    [COLUMNS]: one name, or a list of names. *)
Inductive name_or_nameList : Type :=
| Name (n : pystr)
| NameList (l : list pystr).

(** [x if isinstance(x, list) else [x]]. *)
Definition names_of (x : name_or_nameList) : list pystr :=
  match x with
  | Name n => [n]
  | NameList l => l
  end.

Definition BIOTOPE_CODE_HDR : pystr := str "BiotopeCode".

Definition NAME_PARAM : pystr := str "Network name".
Definition DISPERSAL_PARAM : pystr := str "Average dispersal distance (metres)".
Definition NETWORK_THRESHOLD_PARAM : list pystr :=
  [str "Network threshold"; str "Minimum dispersal probability"].
Definition PARAMS : list name_or_nameList :=
  [Name NAME_PARAM; Name DISPERSAL_PARAM; NameList NETWORK_THRESHOLD_PARAM].

Definition QUALITY_COLUMN : pystr := str "Quality".
Definition SOURCE_COLUMN : list pystr := [str "Source"; str "Reproduction"].
Definition FRICTION_COLUMN : pystr := str "Friction".
Definition COLUMNS : list name_or_nameList :=
  [Name QUALITY_COLUMN; NameList SOURCE_COLUMN; Name FRICTION_COLUMN].

Record ParameterSet : Type := mkParameterSet {
  parameters : dict value value;
  columns : dict value (list value)
}.

Record BatchParameters : Type := mkBatchParameters {
  biotopeCodes : list value;
  parameterSets : list ParameterSet
}.

(** The [raise] after the loop of [parameter] and [column]: [name] is
    the loop variable, bound to the last name tried (unbound when there
    was none), and [name[0]] its first character. *)
Definition raise_missing {A : Type} (fmt : pystr) (name : option pystr)
  : result A :=
  match name with
  | None => Raise UnboundLocalError
  | Some n =>
      c <- getitem n 0 ;;
      Raise (Exception fmt [VStr [c]])
  end.

(** [ParameterSet.parameter]: the loop, with the binding of [name]. *)
Fixpoint parameter_loop (d : dict value value) (names : list pystr)
         (name : option pystr) : result value :=
  match names with
  | [] => raise_missing (str "Missing parameter '%s'.") name
  | n :: rest =>
      match dict_get py_eq d (VStr n) with
      | Some VNone | None => parameter_loop d rest (Some n)
      | Some v => Ok v
      end
  end.

Definition parameter (self : ParameterSet) (x : name_or_nameList)
  : result value :=
  parameter_loop (parameters self) (names_of x) None.

(** [ParameterSet.column]. *)
Fixpoint column_loop (d : dict value (list value)) (names : list pystr)
         (name : option pystr) : result (list value) :=
  match names with
  | [] => raise_missing (str "Missing parameter set column '%s'.") name
  | n :: rest =>
      match dict_get py_eq d (VStr n) with
      | Some c => Ok c
      | None => column_loop d rest (Some n)
      end
  end.

Definition column (self : ParameterSet) (x : name_or_nameList)
  : result (list value) :=
  column_loop (columns self) (names_of x) None.

(** [row[i] if i < len(row) else None]. *)
Definition cell (row : list value) (i : nat) : value := nth i row VNone.

(** [x in row]. *)
Definition contains (row : list value) (x : value) : bool :=
  existsb (fun e => py_eq e x) row.

(** The position of the first element equal to [x]. *)
Fixpoint index_from (row : list value) (x : value) (i : nat) : option nat :=
  match row with
  | [] => None
  | e :: row' => if py_eq e x then Some i else index_from row' x (S i)
  end.

(** [row.index(x)]: [ValueError] when absent. *)
Definition index_of (row : list value) (x : value) : result nat :=
  match index_from row x 0 with
  | Some i => Ok i
  | None => Raise ValueError
  end.

(** [not i] for an index variable that starts as [None]: [None] and 0
    are both falsy. *)
Definition index_truthy (i : option nat) : bool :=
  match i with
  | Some (S _) => true
  | _ => false
  end.

(** [0 != v]. *)
Definition ne_zero (v : value) : bool := negb (py_eq (VInt 0) v).

(** The body of the loop of [columnValues]. *)
Definition columnValues_body (rows : grid) (column_index first_row : nat)
           (values : list value) (i : nat) : result (list value) :=
  row <- item rows (first_row + i) ;;
  if (length row <=? column_index)
     || (negb (truthy (cell row column_index))
         && ne_zero (cell row column_index))
  then ref <- CellRef column_index (first_row + i) ;;
       Raise (Exception (str "Value expected in cell %s") [VStr ref])
  else Ok (values ++ [cell row column_index]).

(** [HabitatNetworkAlgorithm.columnValues]. *)
Definition columnValues (rows : grid) (column_index first_row row_count : nat)
  : result (list value) :=
  foldM (columnValues_body rows column_index first_row) [] (seq 0 row_count).

(** The first loop of [_loadBatchParameters]: the first row that
    contains the biotope-code header. *)
Fixpoint find_header_row (rows : grid) (i : nat) : option nat :=
  match rows with
  | [] => None
  | row :: rest =>
      if contains row (VStr BIOTOPE_CODE_HDR) then Some i
      else find_header_row rest (S i)
  end.

(** The second loop: [headerColumnIndex] is kept across rows; the outer
    loop stops only on a truthy index. *)
Fixpoint find_header_column (rows : grid) (row_indices : list nat)
         (headerColumnIndex : option nat) : result (option nat) :=
  match row_indices with
  | [] => Ok headerColumnIndex
  | row_index :: rest =>
      row <- item rows row_index ;;
      let headerColumnIndex :=
        match index_from row (VStr NAME_PARAM) 0 with
        | Some column_index => Some column_index
        | None => headerColumnIndex
        end in
      if index_truthy headerColumnIndex then Ok headerColumnIndex
      else find_header_column rows rest headerColumnIndex
  end.

(** The third loop: the label in the header column of every row above
    the header row, when truthy, is mapped to its row. *)
Definition build_header_to_row_map (rows : grid)
           (headerRowIndex headerColumnIndex : nat)
  : result (dict value nat) :=
  foldM (fun header_to_row_map row_index =>
           row <- item rows row_index ;;
           if headerColumnIndex <=? length row
           then header_name <- item row headerColumnIndex ;;
                if truthy header_name
                then Ok (dict_set py_eq header_to_row_map header_name row_index)
                else Ok header_to_row_map
           else Ok header_to_row_map)
        [] (seq 0 headerRowIndex).

(** The lookup loop shared by the two validations: the value of the
    first name that is a key. *)
Fixpoint first_present {V : Type} (d : dict value V) (names : list pystr)
  : option V :=
  match names with
  | [] => None
  | n :: rest =>
      match dict_get py_eq d (VStr n) with
      | Some v => Some v
      | None => first_present d rest
      end
  end.

(** The double quote, ['", "'.join(names)] and a format string with
    its one field in double quotes. *)
Definition dq : pystr := [34%N].

Definition quoted_list (names : list pystr) : pystr :=
  join (dq ++ str ", " ++ dq) names.

Definition fmt_quoted (before after : pystr) : pystr :=
  before ++ dq ++ str "%s" ++ dq ++ after.

(** ['Column header "%s" not found.'] and its siblings. *)
Definition column_header_not_found : pystr :=
  fmt_quoted (str "Column header ") (str " not found.").
Definition row_header_not_found : pystr :=
  fmt_quoted (str "Row header ") (str " not found.").
Definition no_row_header_found : pystr :=
  fmt_quoted (str "None of the following row headers were found: ") [].
Definition column_not_found : pystr :=
  str "Column " ++ dq ++ str "%s" ++ dq ++ str " not found for network "
  ++ dq ++ str "%s" ++ dq ++ str ".".
Definition no_column_found : pystr :=
  str "None of the following columns were found for network "
  ++ dq ++ str "%s" ++ dq ++ str ": " ++ dq ++ str "%s" ++ dq.

(** The check of one entry of [PARAMS] against the row-header map. *)
Definition check_row_header (header_to_row_map : dict value nat)
           (row_header_or_headers : name_or_nameList) : result unit :=
  let row_headers := names_of row_header_or_headers in
  match first_present header_to_row_map row_headers with
  | Some _ => Ok tt
  | None =>
      if length row_headers =? 1
      then h <- item row_headers 0 ;;
           Raise (Exception row_header_not_found [VStr h])
      else Raise (Exception no_row_header_found
                            [VStr (quoted_list row_headers)])
  end.

Section Groups.
Variable rows : grid.
Variable headerRow : list value.
Variable headerRowIndex : nat.
Variable header_to_row_map : dict value nat.
Variable name_row : list value.
Variable biotopeCodes : list value.

(** The [for param, row_index in header_to_row_map.items()] loop at
    one column. *)
Definition read_parameters (current_column_index : nat)
  : result (dict value value) :=
  foldM (fun parameters (kv : value * nat) =>
           let (param, row_index) := kv in
           row <- item rows row_index ;;
           let value := cell row current_column_index in
           if negb (truthy value)
           then ref <- CellRef current_column_index row_index ;;
                Raise (Exception (str "Expected %s value in cell %s")
                                 [param; VStr ref])
           else Ok (dict_set py_eq parameters param value))
        [] header_to_row_map.

(** The inner [while]: one column per turn, until the header row
    ends or is blank, or the name row ends or names the next group. *)
Fixpoint read_columns (fuel : nat) (current_column_index : nat)
         (columns : dict value (list value))
  : option (result (dict value (list value) * nat)) :=
  match fuel with
  | O => None
  | S fuel' =>
      if (current_column_index <? length headerRow)
         && truthy (cell headerRow current_column_index)
      then
        match columnValues rows current_column_index
                           (headerRowIndex + 1) (length biotopeCodes) with
        | Raise e => Some (Raise e)
        | Ok values =>
            let columns :=
              dict_set py_eq columns (cell headerRow current_column_index)
                       values in
            let current_column_index := current_column_index + 1 in
            if (length name_row <=? current_column_index)
               || truthy (cell name_row current_column_index)
            then Some (Ok (columns, current_column_index))
            else read_columns fuel' current_column_index columns
        end
      else Some (Ok (columns, current_column_index))
  end.

(** The check of one entry of [COLUMNS] against the columns read. *)
Definition check_column (parameters : dict value value)
           (columns : dict value (list value))
           (column_name_or_names : name_or_nameList) : result unit :=
  let column_names := names_of column_name_or_names in
  match first_present columns column_names with
  | Some _ => Ok tt
  | None =>
      if length column_names =? 1
      then c <- item column_names 0 ;;
           n <- dict_item py_eq parameters (VStr NAME_PARAM) ;;
           Raise (Exception column_not_found [VStr c; n])
      else n <- dict_item py_eq parameters (VStr NAME_PARAM) ;;
           Raise (Exception no_column_found
                            [n; VStr (quoted_list column_names)])
  end.

(** The outer [while]: one configuration group per turn. *)
Fixpoint read_parameter_sets (fuel : nat) (current_column_index : nat)
         (parameterSets : list ParameterSet)
  : option (result (list ParameterSet)) :=
  match fuel with
  | O => None
  | S fuel' =>
      if (current_column_index <? length name_row)
         && (current_column_index <? length headerRow)
         && truthy (cell headerRow current_column_index)
      then
        match read_parameters current_column_index with
        | Raise e => Some (Raise e)
        | Ok parameters =>
            match read_columns (S (length headerRow))
                               current_column_index [] with
            | None => None
            | Some (Raise e) => Some (Raise e)
            | Some (Ok (columns, current_column_index)) =>
                match foldM (fun _ c => check_column parameters columns c)
                            tt COLUMNS with
                | Raise e => Some (Raise e)
                | Ok _ =>
                    read_parameter_sets fuel' current_column_index
                      (parameterSets ++ [mkParameterSet parameters columns])
                end
            end
        end
      else Some (Ok parameterSets)
  end.
End Groups.

(** Everything [_loadBatchParameters] computes from the grid before it
    reads the groups. *)
Record table : Type := mkTable {
  headerRowIndex : nat;
  headerRow : list value;
  headerColumnIndex : nat;
  header_to_row_map : dict value nat;
  table_codes : list value;
  network_name_row : list value
}.

(** [_loadBatchParameters] up to the row-header validation. *)
Definition locate_table (rows : grid) : result table :=
  match find_header_row rows 0 with
  | None | Some O =>
      Raise (Exception column_header_not_found [VStr BIOTOPE_CODE_HDR])
  | Some headerRowIndex =>
      headerRow <- item rows headerRowIndex ;;
      headerColumnIndex <-
        find_header_column rows (seq 0 headerRowIndex) None ;;
      match headerColumnIndex with
      | None | Some O =>
          Raise (Exception row_header_not_found [VStr NAME_PARAM])
      | Some headerColumnIndex =>
          header_to_row_map <-
            build_header_to_row_map rows headerRowIndex headerColumnIndex ;;
          code_column <- index_of headerRow (VStr BIOTOPE_CODE_HDR) ;;
          biotopeCodes <-
            columnValues rows code_column (headerRowIndex + 1)
                         (length rows - headerRowIndex - 1) ;;
          _ <- foldM (fun _ p => check_row_header header_to_row_map p)
                     tt PARAMS ;;
          name_row_index <-
            dict_item py_eq header_to_row_map (VStr NAME_PARAM) ;;
          network_name_row <- item rows name_row_index ;;
          Ok (mkTable headerRowIndex headerRow headerColumnIndex
                      header_to_row_map biotopeCodes network_name_row)
      end
  end.

(** [_loadBatchParameters], from the grid of the first sheet on.  The
    inner [for] binds [name_row] to the row [network_name_row] already
    holds, and runs at least once because the map has the name label.
    [None] is a loop that has not finished within the fuel given: the
    loops advance by a column a turn, and the header row bounds them. *)
Definition _loadBatchParameters_rows (rows : grid)
  : option (result BatchParameters) :=
  match locate_table rows with
  | Raise e => Some (Raise e)
  | Ok t =>
      match read_parameter_sets rows (headerRow t) (headerRowIndex t)
              (header_to_row_map t) (network_name_row t) (table_codes t)
              (S (length (headerRow t))) (headerColumnIndex t + 1) [] with
      | None => None
      | Some (Raise e) => Some (Raise e)
      | Some (Ok parameterSets) =>
          Some (Ok (mkBatchParameters (table_codes t) parameterSets))
      end
  end.

(** [_loadBatchParameters]: the first sheet of the workbook at [path],
    then the table in its grid. *)
Definition _loadBatchParameters (int_of_str : pystr -> option Z)
           (float_of_str : pystr -> option float)
           (fs : filesystem) (path : pystr)
  : option (result BatchParameters) :=
  match
    workbook <- OpenWorkbook fs path ;;
    _ <- sheetName workbook 0 ;;
    loadSheetData int_of_str float_of_str workbook 0
  with
  | Raise e => Some (Raise e)
  | Ok rows => _loadBatchParameters_rows rows
  end.

(* ================================================================== *)
(** * [int] and [float] on text *)
(* ================================================================== *)

(** An instance of the two built-ins the reader is stated over, for
    text whose digits are the ASCII digits: surrounding white space, a
    sign, digits with single underscores between them; for [float] also
    a fraction, an exponent, [inf], [infinity] and [nan], and the value
    rounded to the nearest binary64, ties to even. *)

(** [str.isspace] on one code point. *)
Definition is_space (c : N) : bool :=
  ((9 <=? c) && (c <=? 13) || (28 <=? c) && (c <=? 32)
   || (c =? 133) || (c =? 160) || (c =? 5760)
   || (8192 <=? c) && (c <=? 8202) || (c =? 8232) || (c =? 8233)
   || (c =? 8239) || (c =? 8287) || (c =? 12288))%N.

Fixpoint lstrip (s : pystr) : pystr :=
  match s with
  | c :: s' => if is_space c then lstrip s' else s
  | [] => []
  end.

Definition strip (s : pystr) : pystr := rev (lstrip (rev (lstrip s))).

Definition digit_value (c : N) : option Z :=
  if ((48 <=? c) && (c <=? 57))%N then Some (Z.of_N c - 48)%Z else None.

(** The digits after the first of a digit part: the value so far, the
    number of digits so far, and what follows the digit part. *)
Fixpoint digitpart_rest (s : pystr) (acc : Z) (n : Z) : Z * Z * pystr :=
  match s with
  | [] => (acc, n, [])
  | c :: s' =>
      match digit_value c with
      | Some d => digitpart_rest s' (10 * acc + d)%Z (n + 1)%Z
      | None =>
          if (c =? 95)%N
          then match s' with
               | c2 :: s'' =>
                   match digit_value c2 with
                   | Some d => digitpart_rest s'' (10 * acc + d)%Z (n + 1)%Z
                   | None => (acc, n, s)
                   end
               | [] => (acc, n, s)
               end
          else (acc, n, s)
      end
  end.

(** A digit part: a digit, then digits with single underscores allowed
    between them. *)
Definition digitpart (s : pystr) : option (Z * Z * pystr) :=
  match s with
  | c :: s' =>
      match digit_value c with
      | Some d => Some (digitpart_rest s' d 1%Z)
      | None => None
      end
  | [] => None
  end.

(** An optional sign: whether it is a minus, and what follows. *)
Definition sign (s : pystr) : bool * pystr :=
  match s with
  | 45%N :: s' => (true, s')
  | 43%N :: s' => (false, s')
  | _ => (false, s)
  end.

(** [int(s)] in base 10. *)
Definition ascii_int_of_str (s : pystr) : option Z :=
  let (neg, s) := sign (strip s) in
  match digitpart s with
  | Some (v, _, []) => Some (if neg then (- v)%Z else v)
  | _ => None
  end.

(** The binary64 nearest to [m * 10^e], for [m >= 0]. *)
Definition float_of_decimal (neg : bool) (m e : Z) : float :=
  match m with
  | Zpos p =>
      if (0 <=? e)%Z
      then binary_round 53 1024 neg (Z.to_pos (Zpos p * 10 ^ e)) 0
      else let '(q, e', l) :=
             SFdiv_core_binary 53 1024 (Zpos p) 0 (10 ^ (- e))%Z 0 in
           binary_round_aux 53 1024 neg q e' l
  | _ => S754_zero neg
  end.

Definition lower (c : N) : N :=
  if ((65 <=? c) && (c <=? 90))%N then (c + 32)%N else c.

(** The number after the sign: integer digits, an optional point with
    optional fraction digits, an optional exponent.  Returns the digits
    as an integer and the power of ten that scales it. *)
Definition decimal_number (s : pystr) : option (Z * Z) :=
  let '(ip, s1) :=
    match digitpart s with
    | Some (v, _, r) => (Some v, r)
    | None => (None, s)
    end in
  let '(fp, s2) :=
    match s1 with
    | 46%N :: r =>
        match digitpart r with
        | Some (v, n, r') => (Some (v, n), r')
        | None => (None, r)
        end
    | _ => (None, s1)
    end in
  let mantissa :=
    match ip, fp with
    | Some i, Some (f, n) => Some ((i * 10 ^ n + f)%Z, (- n)%Z)
    | Some i, None => Some (i, 0%Z)
    | None, Some (f, n) => Some (f, (- n)%Z)
    | None, None => None
    end in
  match mantissa with
  | None => None
  | Some (m, e) =>
      match s2 with
      | [] => Some (m, e)
      | c :: r =>
          if ((c =? 101) || (c =? 69))%N
          then let (eneg, r') := sign r in
               match digitpart r' with
               | Some (x, _, []) => Some (m, if eneg then (e - x)%Z else (e + x)%Z)
               | _ => None
               end
          else None
      end
  end.

(** [float(s)]. *)
Definition ascii_float_of_str (s : pystr) : option float :=
  let (neg, s) := sign (strip s) in
  let w := map lower s in
  if str_eqb w (str "inf") || str_eqb w (str "infinity")
  then Some (S754_infinity neg)
  else if str_eqb w (str "nan") then Some S754_nan
  else match decimal_number s with
       | Some (m, e) => Some (float_of_decimal neg m e)
       | None => None
       end.

(* ================================================================== *)
(** * Example packages and grids *)
(* ================================================================== *)

Open Scope string_scope.

(** An element of the spreadsheet namespace, written with literals. *)
Definition el (local : string) (attrs : list (string * string))
           (txt : option string) (kids : list element) : element :=
  Element (qname ns_main (str local))
          (map (fun kv => (str (fst kv), str (snd kv))) attrs)
          (option_map str txt) kids.

(** [<c r=ref><v>txt</v></c>], and the same with [t="s"]. *)
Definition c_inline (ref txt : string) : element :=
  el "c" [("r", ref)] None [el "v" [] (Some txt) []].
Definition c_shared (ref txt : string) : element :=
  el "c" [("r", ref); ("t", "s")] None [el "v" [] (Some txt) []].

(** [<row r=r spans=spans>cells</row>]. *)
Definition row_el (r spans : string) (cells : list element) : element :=
  el "row" [("r", r); ("spans", spans)] None cells.

Definition worksheet (rws : list element) : element :=
  el "worksheet" [] None [el "sheetData" [] None rws].

Definition rels_xml : element :=
  Element (str "{http://schemas.openxmlformats.org/package/2006/relationships}Relationships")
          [] None
          [Element (str "{http://schemas.openxmlformats.org/package/2006/relationships}Relationship")
                   [(str "Id", str "rId1");
                    (str "Target", str "worksheets/sheet1.xml")] None []].

Definition workbook_xml : element :=
  el "workbook" [] None
     [el "sheets" [] None
         [Element (qname ns_main (str "sheet"))
                  [(str "name", str "Sheet1");
                   (qname ns_r (str "id"), str "rId1")] None []]].

Definition sharedStrings_xml : element :=
  el "sst" [] None
     [el "si" [] None [el "t" [] (Some "Quality") []];
      el "si" [] None [el "t" [] (Some "Source") []]].

(** A package with one sheet. *)
Definition package (sheet : element) : archive :=
  [(str "xl/workbook.xml", Xml workbook_xml);
   (str "xl/_rels/workbook.xml.rels", Xml rels_xml);
   (str "xl/sharedStrings.xml", Xml sharedStrings_xml);
   (str "xl/worksheets/sheet1.xml", Xml sheet)].

(** The same package without its shared-strings part. *)
Definition package_without_sharedStrings (sheet : element) : archive :=
  [(str "xl/workbook.xml", Xml workbook_xml);
   (str "xl/_rels/workbook.xml.rels", Xml rels_xml);
   (str "xl/worksheets/sheet1.xml", Xml sheet)].

(** A file system with one file. *)
Definition one_file (p : pystr) (a : archive) : filesystem :=
  fun q => if str_eqb q p then Some a else None.

Definition book_path : pystr := str "parameters.xlsx".

(** The workbook object of a one-sheet package. *)
Definition workbook_of (sheet : element) : Workbook :=
  mkWorkbook (package sheet)
             [(Some (str "rId1"), Some (str "worksheets/sheet1.xml"))]
             [mkSheetDef (Some (str "Sheet1")) (Some (str "rId1"))]
             [Some (str "Quality"); Some (str "Source")].

(** Rows 3 and 1 declared in that order, row 2 skipped; [B1] has no
    value child, [A3] is a shared string. *)
Definition cell_B1 : element := el "c" [("r", "B1"); ("t", "s")] None [].

Definition row_1 : element :=
  row_el "1" "1:3" [c_inline "A1" "42"; cell_B1; c_inline "C1" "abc"].

Definition row_3 : element :=
  row_el "3" "1:2" [c_shared "A3" "1"; c_inline "B3" "3.5"].

Definition sheet_out_of_order : element := worksheet [row_3; row_1].

Definition sheet_without_rows : element := worksheet [].


(** The table of one configuration named Corridor, as a worksheet: the
    row-header labels in column B of rows 1 to 3, row 4 skipped, the
    column headers in row 5 and four biotope codes below. *)
Definition sheet_corridor : element :=
  worksheet
    [row_el "1" "1:5" [c_inline "B1" "Network name"; c_inline "C1" "Corridor"];
     row_el "2" "1:3" [c_inline "B2" "Average dispersal distance (metres)";
                       c_inline "C2" "500"];
     row_el "3" "1:3" [c_inline "B3" "Network threshold"; c_inline "C3" "0.05"];
     row_el "5" "1:5" [c_inline "A5" "Biotope"; c_inline "B5" "BiotopeCode";
                       c_shared "C5" "0"; c_shared "D5" "1";
                       c_inline "E5" "Friction"];
     row_el "6" "1:5" [c_inline "A6" "Forest"; c_inline "B6" "1";
                       c_inline "C6" "1"; c_inline "D6" "1"; c_inline "E6" "1.0"];
     row_el "7" "1:5" [c_inline "A7" "Meadow"; c_inline "B7" "2";
                       c_inline "C7" "2"; c_inline "D7" "0"; c_inline "E7" "5.0"];
     row_el "8" "1:5" [c_inline "A8" "Water"; c_inline "B8" "0";
                       c_inline "C8" "0"; c_inline "D8" "0"; c_inline "E8" "0"];
     row_el "9" "1:5" [c_inline "A9" "Park"; c_inline "B9" "4";
                       c_inline "C9" "3"; c_inline "D9" "1"; c_inline "E9" "2.0"]].

(** A string cell. *)
Definition Str (s : string) : value := VStr (str s).

(** The floats of the example: 0.05, 1.0, 5.0 and 2.0. *)
Definition float_0_05 : float := S754_finite false 7205759403792794 (-57).
Definition float_1 : float := S754_finite false 4503599627370496 (-52).
Definition float_5 : float := S754_finite false 5629499534213120 (-50).
Definition float_2 : float := S754_finite false 4503599627370496 (-51).

(** 3.5 as a binary64: [7 * 2^50 * 2^-51]. *)
Definition float_3_5 : float := S754_finite false 7881299347898368 (-51).

(** The grid [loadSheetData] returns for [sheet_corridor]. *)
Definition grid_corridor : grid :=
  [[VNone; Str "Network name"; Str "Corridor"; VNone; VNone];
   [VNone; Str "Average dispersal distance (metres)"; VInt 500];
   [VNone; Str "Network threshold"; VFloat float_0_05];
   [];
   [Str "Biotope"; Str "BiotopeCode"; Str "Quality"; Str "Source"; Str "Friction"];
   [Str "Forest"; VInt 1; VInt 1; VInt 1; VFloat float_1];
   [Str "Meadow"; VInt 2; VInt 2; VInt 0; VFloat float_5];
   [Str "Water"; VInt 0; VInt 0; VInt 0; VInt 0];
   [Str "Park"; VInt 4; VInt 3; VInt 1; VFloat float_2]].

(** What the extraction returns for it. *)
Definition parameters_corridor : BatchParameters :=
  mkBatchParameters
    [VInt 1; VInt 2; VInt 0; VInt 4]
    [mkParameterSet
       [(Str "Network name", Str "Corridor");
        (Str "Average dispersal distance (metres)", VInt 500);
        (Str "Network threshold", VFloat float_0_05)]
       [(Str "Quality", [VInt 1; VInt 2; VInt 0; VInt 3]);
        (Str "Source", [VInt 1; VInt 0; VInt 0; VInt 1]);
        (Str "Friction", [VFloat float_1; VFloat float_5; VInt 0; VFloat float_2])]].

(** The parts of the two-group tables below: the three scalar rows,
    the header row and two rows of data, columns A and B first. *)
Definition group_A_header : list value := [Str "Quality"; Str "Source"; Str "Friction"].
Definition group_B_header : list value :=
  [Str "Quality"; Str "Reproduction"; Str "Friction"].

(** Two groups side by side: the name of the second group is in the
    column after the last data column of the first. *)
Definition grid_adjacent : grid :=
  [[VNone; Str "Network name"; Str "A"; VNone; VNone; Str "B"; VNone; VNone];
   [VNone; Str "Average dispersal distance (metres)"; VInt 500; VNone; VNone;
    VInt 700];
   [VNone; Str "Network threshold"; VInt 1; VNone; VNone; VInt 2];
   ([Str "Biotope"; Str "BiotopeCode"] ++ group_A_header ++ group_B_header)%list;
   [Str "Forest"; VInt 1; VInt 1; VInt 1; VInt 1; VInt 3; VInt 1; VInt 9];
   [Str "Water"; VInt 0; VInt 2; VInt 0; VInt 5; VInt 4; VInt 0; VInt 8]].



(** The parameter sets of the two groups. *)
Definition set_A : ParameterSet :=
  mkParameterSet
    [(Str "Network name", Str "A");
     (Str "Average dispersal distance (metres)", VInt 500);
     (Str "Network threshold", VInt 1)]
    [(Str "Quality", [VInt 1; VInt 2]);
     (Str "Source", [VInt 1; VInt 0]);
     (Str "Friction", [VInt 1; VInt 5])].

Definition set_B : ParameterSet :=
  mkParameterSet
    [(Str "Network name", Str "B");
     (Str "Average dispersal distance (metres)", VInt 700);
     (Str "Network threshold", VInt 2)]
    [(Str "Quality", [VInt 3; VInt 4]);
     (Str "Reproduction", [VInt 1; VInt 0]);
     (Str "Friction", [VInt 9; VInt 8])].

(** A table whose header row is the first row of the grid. *)
Definition grid_header_in_row_1 : grid :=
  [[Str "BiotopeCode"; Str "Quality"; Str "Source"; Str "Friction"];
   [VInt 1; VInt 1; VInt 1; VInt 1]].

(** The Corridor table with its row-header labels in column A. *)
Definition grid_labels_in_column_A : grid :=
  [[Str "Network name"; Str "Corridor"; VNone; VNone];
   [Str "Average dispersal distance (metres)"; VInt 500];
   [Str "Network threshold"; VInt 1];
   [Str "BiotopeCode"; Str "Quality"; Str "Source"; Str "Friction"];
   [VInt 1; VInt 1; VInt 1; VInt 1]].

(** The same table one column to the right: labels in column B. *)
Definition grid_labels_in_column_B : grid :=
  map (fun row => VNone :: row) grid_labels_in_column_A.

(** A grid with a blank cell in the quality column, at [C7]. *)
Definition grid_blank_quality : grid :=
  [[VNone; Str "Network name"; Str "Corridor"; VNone; VNone];
   [VNone; Str "Average dispersal distance (metres)"; VInt 500];
   [VNone; Str "Network threshold"; VFloat float_0_05];
   [];
   [Str "Biotope"; Str "BiotopeCode"; Str "Quality"; Str "Source"; Str "Friction"];
   [Str "Forest"; VInt 1; VInt 1; VInt 1; VFloat float_1];
   [Str "Meadow"; VInt 2; VNone; VInt 0; VFloat float_5];
   [Str "Water"; VInt 0; VInt 0; VInt 0; VInt 0]].

Close Scope string_scope.

(* ================================================================== *)
(** * More example data *)
(* ================================================================== *)

Open Scope string_scope.

(** Shared strings whose second item is rich text: its text is in a
    run, not in a [t] child of the item. *)
Definition sharedStrings_rich_xml : element :=
  el "sst" [] None
     [el "si" [] None [el "t" [] (Some "Quality") []];
      el "si" [] None [el "r" [] None [el "t" [] (Some "Source") []]];
      el "si" [] None [el "t" [] (Some "Friction") []]].

(** Relationships in which [rId1] is declared twice. *)
Definition rels_twice_xml : element :=
  Element (str "Relationships") [] None
          [Element (str "Relationship")
                   [(str "Id", str "rId1"); (str "Target", str "worksheets/old.xml")]
                   None [];
           Element (str "Other")
                   [(str "Id", str "rId1"); (str "Target", str "ignored.xml")]
                   None [];
           Element (str "{urn:x}Relationship")
                   [(str "Id", str "rId1");
                    (str "Target", str "worksheets/sheet1.xml")]
                   None []].

(** The Corridor table under a title row that has one cell only. *)
Definition grid_with_title : grid :=
  [[Str "Parameters for 2024"];
   [VNone; Str "Network name"; Str "Corridor"; VNone; VNone];
   [VNone; Str "Average dispersal distance (metres)"; VInt 500];
   [VNone; Str "Network threshold"; VInt 1];
   [Str "Biotope"; Str "BiotopeCode"; Str "Quality"; Str "Source"; Str "Friction"];
   [Str "Forest"; VInt 1; VInt 1; VInt 1; VInt 1]].

(** The Corridor table with a threshold of zero. *)
Definition grid_zero_threshold : grid :=
  [[VNone; Str "Network name"; Str "Corridor"; VNone; VNone];
   [VNone; Str "Average dispersal distance (metres)"; VInt 500];
   [VNone; Str "Network threshold"; VInt 0];
   [Str "Biotope"; Str "BiotopeCode"; Str "Quality"; Str "Source"; Str "Friction"];
   [Str "Forest"; VInt 1; VInt 1; VInt 1; VInt 1]].

Close Scope string_scope.

Open Scope string_scope.

(** A table with codes and no configuration group: nothing stands to
    the right of the header column. *)
Definition grid_no_groups : grid :=
  [[VNone; Str "Network name"];
   [VNone; Str "Average dispersal distance (metres)"];
   [VNone; Str "Network threshold"];
   [Str "Biotope"; Str "BiotopeCode"];
   [Str "Forest"; VInt 1];
   [Str "Water"; VInt 0]].

(** The Corridor table with one more labelled row, left without a
    value. *)
Definition grid_with_note : grid :=
  [[VNone; Str "Network name"; Str "Corridor"; VNone; VNone];
   [VNone; Str "Average dispersal distance (metres)"; VInt 500];
   [VNone; Str "Network threshold"; VInt 1];
   [VNone; Str "Comment"];
   [Str "Biotope"; Str "BiotopeCode"; Str "Quality"; Str "Source"; Str "Friction"];
   [Str "Forest"; VInt 1; VInt 1; VInt 1; VInt 1]].

(** A table whose last row ends before the quality column. *)
Definition grid_short_row : grid :=
  [[Str "Biotope"; Str "BiotopeCode"; Str "Quality"; Str "Source"; Str "Friction"];
   [Str "Forest"; VInt 1; VInt 1; VInt 1; VFloat float_1];
   [Str "Park"; VInt 4]].

Close Scope string_scope.

(** A cell element with a reference and an inline value:
    [<c r=ref><v>s</v></c>]. *)
Definition inline_cell (ref s : pystr) : element :=
  Element c_tag [(str "r", ref)] None [Element v_tag [] (Some s) []].

Open Scope string_scope.

(** A sheet whose rows are numbered 2 and 0, in that order. *)
Definition sheet_row_zero : element :=
  worksheet
    [row_el "2" "1:1" [c_inline "A2" "two"];
     row_el "0" "1:1" [c_inline "A0" "zero"]].

(** A sheet whose only row is numbered 0. *)
Definition sheet_only_row_zero : element :=
  worksheet [row_el "0" "1:1" [c_inline "A0" "zero"]].

Close Scope string_scope.

(* ================================================================== *)
(** * More of processing/habitat_network_algorithm.py *)
(* ================================================================== *)

(** [range(n)] for an [int]: empty when [n] is not positive. *)
Definition range (n : Z) : list Z := map Z.of_nat (seq 0 (Z.to_nat n)).

(** [HabitatNetworkAlgorithm._getColumnValues], without the message it
    pushes to [feedback]. *)
Definition _getColumnValues (rows : grid) (column_name : value)
           (header_row_index : Z) : result (list value) :=
  header <- getitem rows header_row_index ;;
  match index_from header column_name 0 with
  | None => Raise (Exception (str "Column '%s' not found") [column_name])
  | Some column_index =>
      mapM (fun i =>
              row <- getitem rows (i + header_row_index + 1) ;;
              item row column_index)
           (range (Z.of_nat (length rows) - header_row_index - 1))
  end.

(** What the formula builders below come to: a value, one of the
    exceptions above, or the [OverflowError] of turning an infinite
    float into an integer or too large an integer into a float. *)
Inductive outcome (A : Type) : Type :=
| Done (a : A)
| Fails (e : builtin_exn)
| Overflows.

Arguments Done {A} a.
Arguments Fails {A} e.
Arguments Overflows {A}.

Definition and_then {A B : Type} (o : outcome A) (k : A -> outcome B)
  : outcome B :=
  match o with
  | Done a => k a
  | Fails e => Fails e
  | Overflows => Overflows
  end.

Notation "x <~ c ;; k" := (and_then c (fun x => k))
  (at level 61, c at next level, right associativity) : py_scope.

(** [l[i]] for an index from [range]. *)
Definition at_index {A : Type} (l : list A) (i : nat) : outcome A :=
  match nth_error l i with
  | Some a => Done a
  | None => Fails IndexError
  end.

(** [[elem(i) for i in range(n) if cond(i)]]: the condition, then the
    element, index by index. *)
Fixpoint comprehension {A : Type} (cond : nat -> outcome bool)
         (elem : nat -> outcome A) (indices : list nat) : outcome (list A) :=
  match indices with
  | [] => Done []
  | i :: rest =>
      b <~ cond i ;;
      if b : bool
      then x <~ elem i ;; xs <~ comprehension cond elem rest ;; Done (x :: xs)
      else comprehension cond elem rest
  end.

(** [[f(x) for x in l]]. *)
Fixpoint for_each {A B : Type} (f : A -> outcome B) (l : list A)
  : outcome (list B) :=
  match l with
  | [] => Done []
  | a :: rest => b <~ f a ;; bs <~ for_each f rest ;; Done (b :: bs)
  end.

(** [int(f)] for a float: the integer part, toward zero. *)
Definition int_of_float (f : float) : outcome Z :=
  match f with
  | S754_zero _ => Done 0%Z
  | S754_finite s m e =>
      let a := Z.shiftl (Z.pos m) e in
      Done (if s then (- a)%Z else a)
  | S754_infinity _ => Overflows
  | S754_nan => Fails ValueError
  end.

(** The most digits an [int] may have when it is written in decimal:
    what [sys.get_int_max_str_digits()] is unless it was set. *)
Definition int_max_str_digits : Z := 4300.

(** The digits of [n], its sign apart, are within that limit. *)
Definition within_limit (n : Z) : bool :=
  (Z.of_nat (length (str_of_Z (Z.abs n))) <=? int_max_str_digits)%Z.

(** An [int] written in decimal by a format: [ValueError] past the
    limit. *)
Definition format_int (n : Z) : outcome pystr :=
  if within_limit n then Done (str_of_Z n) else Fails ValueError.

(** ['%d' % v]. *)
Definition format_d (v : value) : outcome pystr :=
  match v with
  | VInt n => format_int n
  | VFloat f => n <~ int_of_float f ;; format_int n
  | VStr _ | VNone => Fails TypeError
  end.

(** [float(n)] for an [int]. *)
Definition float_of_int (n : Z) : outcome float :=
  match binary_normalize 53 1024 n 0 false with
  | S754_infinity _ => Overflows
  | f => Done f
  end.

(** Six digits, zeros first. *)
Definition six_digits (n : Z) : pystr :=
  skipn 1 (str_of_Z (1000000 + n)).

(** The millionths nearest to [m * 2^e], ties to the even one. *)
Definition millionths (m : positive) (e : Z) : Z :=
  if (0 <=? e)%Z then Z.shiftl (Z.pos m * 1000000) e
  else
    let den := Z.shiftl 1 (- e) in
    let q := (Z.pos m * 1000000 / den)%Z in
    let r := (Z.pos m * 1000000 mod den)%Z in
    match (2 * r ?= den)%Z with
    | Lt => q
    | Gt => (q + 1)%Z
    | Eq => if Z.even q then q else (q + 1)%Z
    end.

(** ['%f' % f] for a float. *)
Definition format_f_float (f : float) : pystr :=
  match f with
  | S754_nan => str "nan"
  | S754_infinity s => if s then str "-inf" else str "inf"
  | S754_zero s => if s then str "-0.000000" else str "0.000000"
  | S754_finite s m e =>
      let n := millionths m e in
      (if s then str "-" else [])
      ++ str_of_Z (n / 1000000) ++ str "." ++ six_digits (n mod 1000000)
  end.

(** ['%f' % v]. *)
Definition format_f (v : value) : outcome pystr :=
  match v with
  | VInt n => f <~ float_of_int n ;; Done (format_f_float f)
  | VFloat f => Done (format_f_float f)
  | VStr _ | VNone => Fails TypeError
  end.

(** [v > 0]. *)
Definition gt_zero (v : value) : outcome bool :=
  match v with
  | VInt n => Done (0 <? n)%Z
  | VFloat f => Done (SFltb (S754_zero false) f)
  | VStr _ | VNone => Fails TypeError
  end.

(** The first list of [_createSourceRaster]: the codes of the rows
    whose source value equals 1. *)
Definition reproduction_biotope_codes (biotope_codes reproduction_values
                                       : list value) : outcome (list value) :=
  comprehension (fun i => v <~ at_index reproduction_values i ;;
                          Done (py_eq v (VInt 1)))
                (fun i => at_index biotope_codes i)
                (seq 0 (length reproduction_values)).

(** The [formula] of [_createSourceRaster]; the message pushed to
    [feedback] between its two lists is left out. *)
Definition source_formula (biotope_codes reproduction_values : list value)
  : outcome pystr :=
  codes <~ reproduction_biotope_codes biotope_codes reproduction_values ;;
  conditions <~
    for_each (fun code => d <~ format_d code ;; Done (str "A==" ++ d)) codes ;;
  Done (str "((" ++ join (str ")+(") conditions ++ str "))*1").

(** The list joined in [_createQualityRaster]: a term for every row
    whose quality is above zero.  Both cells of the tuple are read
    before either is formatted. *)
Definition quality_terms (biotope_codes quality_values : list value)
  : outcome (list pystr) :=
  comprehension (fun i => v <~ at_index quality_values i ;; gt_zero v)
                (fun i =>
                   code <~ at_index biotope_codes i ;;
                   v <~ at_index quality_values i ;;
                   c <~ format_d code ;;
                   q <~ format_d v ;;
                   Done (str "(A==" ++ c ++ str ")*" ++ q))
                (seq 0 (length quality_values)).

(** The [formula] of [_createQualityRaster]. *)
Definition quality_formula (biotope_codes quality_values : list value)
  : outcome pystr :=
  terms <~ quality_terms biotope_codes quality_values ;;
  Done (join (str "+") terms).

(** The list joined in [_createFrictionRaster]. *)
Definition friction_terms (biotope_codes friction_values : list value)
  : outcome (list pystr) :=
  comprehension (fun i => v <~ at_index friction_values i ;; gt_zero v)
                (fun i =>
                   code <~ at_index biotope_codes i ;;
                   v <~ at_index friction_values i ;;
                   c <~ format_d code ;;
                   q <~ format_f v ;;
                   Done (str "(A==" ++ c ++ str ")*" ++ q))
                (seq 0 (length friction_values)).

(** The [formula] of [_createFrictionRaster]. *)
Definition friction_formula (biotope_codes friction_values : list value)
  : outcome pystr :=
  terms <~ friction_terms biotope_codes friction_values ;;
  Done (join (str "+") terms).


(* ================================================================== *)
(** * Vocabulary of the properties *)
(* ================================================================== *)

(** A member of the archive that is there and parses. *)
Definition has_xml (a : archive) (p : pystr) : Prop :=
  exists root, dict_get str_eqb a p = Some (Xml root).

(** The index an assignment or a lookup resolves to, when there is one. *)
Definition resolve (n : nat) (i : Z) : option nat :=
  let j := if (i <? 0)%Z then (i + Z.of_nat n)%Z else i in
  if ((j <? 0) || (Z.of_nat n <=? j))%Z then None else Some (Z.to_nat j).

(** The row that the last row element declaring the number [n] holds. *)
Fixpoint last_declared (raw_rows : list (Z * list value)) (n : Z)
  : option (list value) :=
  match raw_rows with
  | [] => None
  | r :: rest =>
      match last_declared rest n with
      | Some row => Some row
      | None => if (fst r =? n)%Z then Some (snd r) else None
      end
  end.

(** The slot of a row of [n] cells that a cell element with a value
    child is stored to, when its reference resolves to one. *)
Definition written_slot (n : nat) (c_node : element) : option nat :=
  match find c_node v_tag, attrib_get c_node (str "r") with
  | Some _, Some (c0 :: _) => resolve n (ord c0 - ord 65%N)
  | _, _ => None
  end.

(** A value that [columnValues] accepts: anything but [None] and the
    empty string. *)
Definition non_empty (v : value) : bool :=
  match v with
  | VNone => false
  | VStr [] => false
  | _ => true
  end.

(** A cell that is in its row and holds an accepted value. *)
Definition cell_present (row : list value) (column_index : nat) : bool :=
  (column_index <? length row) && non_empty (cell row column_index).

(** The row at an index of the grid, empty past its end. *)
Definition row_at (rows : grid) (i : nat) : list value := nth i rows [].

(** The cells of one column over a range of rows. *)
Definition column_cells (rows : grid) (column_index first_row row_count : nat)
  : list value :=
  map (fun i => cell (row_at rows (first_row + i)) column_index)
      (seq 0 row_count).

(** Every column of every set is as long as the list of codes. *)
Definition columns_sized (bp : BatchParameters) : Prop :=
  Forall (fun ps =>
            Forall (fun kv => length (snd kv) = length (biotopeCodes bp))
                   (columns ps))
         (parameterSets bp).

(** The two accepted labels of the threshold row, as the row-header
    check lists them. *)
Definition threshold_labels_listed : pystr :=
  str "Network threshold" ++ dq ++ str ", " ++ dq
  ++ str "Minimum dispersal probability".

(** The table of a grid, empty when the grid has none. *)
Definition table_of (rows : grid) : table :=
  match locate_table rows with
  | Ok t => t
  | Raise _ => mkTable 0 [] 0 [] [] []
  end.

Section Layout.
Variable rows : grid.
Variable t : table.

Local Abbreviation first_data_row := (headerRowIndex t + 1).
Local Abbreviation code_count := (length (table_codes t)).





(** Column [c] has a label in the header row. *)
Definition labelled (c : nat) : bool :=
  (c <? length (headerRow t)) && truthy (cell (headerRow t) c).







(** Column [b] is past the name row or the header row, or has no label
    in the header row. *)
Definition table_ends (b : nat) : bool :=
  (length (network_name_row t) <=? b)
  || (length (headerRow t) <=? b)
  || negb (truthy (cell (headerRow t) b)).

End Layout.

(** The strings that one [si] element adds to the shared strings. *)
Definition si_strings (si : element) : list (option pystr) :=
  match find si t_tag with
  | Some t => [text t]
  | None => []
  end.

(** A child of the relationships part that [_loadRels] records: its
    tag without the namespace is [Relationship]. *)
Definition is_relationship (child : element) : bool :=
  str_eqb (str "Relationship") (_stripNameSpace (tag child)).

(** The target of the last relationship element with the given id. *)
Fixpoint last_relationship (l : list element) (id : option pystr)
  : option (option pystr) :=
  match l with
  | [] => None
  | child :: rest =>
      match last_relationship rest id with
      | Some target => Some target
      | None =>
          if is_relationship child
             && option_str_eqb (attrib_get child (str "Id")) id
          then Some (attrib_get child (str "Target"))
          else None
      end
  end.

(** The row that the last raw row stored at index [k] of a grid of [n]
    rows holds: a raw row numbered [r] is stored at the index that
    [r - 1] resolves to. *)
Fixpoint last_stored (raw_rows : list (Z * list value)) (n k : nat)
  : option (list value) :=
  match raw_rows with
  | [] => None
  | r :: rest =>
      match last_stored rest n k with
      | Some row => Some row
      | None =>
          match resolve n (fst r - 1) with
          | Some j => if j =? k then Some (snd r) else None
          | None => None
          end
      end
  end.

(** A parameter set whose lookups by the canonical names succeed. *)
Definition answers_lookups (codes : list value) (ps : ParameterSet) : Prop :=
  (forall p, In p PARAMS ->
             exists v, parameter ps p = Ok v /\ truthy v = true)
  /\ (forall c, In c COLUMNS ->
                exists col, column ps c = Ok col /\ length col = length codes)
  /\ exists v, dict_item py_eq (parameters ps) (VStr NAME_PARAM) = Ok v.


(** The codes of the rows whose source value equals 1. *)
Definition source_codes (codes : list Z) (values : list value) : list Z :=
  map fst (filter (fun cv => py_eq (snd cv) (VInt 1)) (combine codes values)).

(** The rows of a table of integers whose second entry is above zero. *)
Definition positive_rows (codes values : list Z) : list (Z * Z) :=
  filter (fun cv => (0 <? snd cv)%Z) (combine codes values).

(** The rows of a table of floats whose second entry is above zero. *)
Definition positive_float_rows (codes : list Z) (values : list float)
  : list (Z * float) :=
  filter (fun cv => SFltb (S754_zero false) (snd cv)) (combine codes values).

(** A cell that holds a number. *)
Definition number (v : value) : bool :=
  match v with
  | VInt _ | VFloat _ => true
  | VStr _ | VNone => false
  end.


(* ================================================================== *)
(** * Properties of the reader *)
(* ================================================================== *)

Lemma str_eqb_refl (s : pystr) : str_eqb s s = true.
Proof.
  induction s as [|c s IH]; simpl; [reflexivity|].
  now rewrite N.eqb_refl, IH.
Qed.

Lemma str_eqb_eq (s t : pystr) : str_eqb s t = true <-> s = t.
Proof.
  split; [|intros ->; apply str_eqb_refl].
  revert t; induction s as [|c s IH]; intros [|d t]; simpl; try easy.
  intros H. apply andb_true_iff in H as [H1 H2].
  apply N.eqb_eq in H1. apply IH in H2. now subst.
Qed.

Example float_3_5_exact :
  float_3_5 = SFdiv 53 1024 (binary_normalize 53 1024 7 0 false)
                            (binary_normalize 53 1024 2 0 false).
Proof. reflexivity. Qed.

(** C5. [ValueFromString] on text gives the integer when [int] parses
    it, else the float when [float] parses it, else the text itself, in
    that order, and that is the value [loadSheetData] stores for a
    cell whose type marker is not [s]; with the ASCII instance of the
    two built-ins, ["42"] is the integer 42, ["3.5"] the float 3.5 and
    ["abc"] the string ["abc"]. *)
Theorem ValueFromString_first_parse_wins :
  (forall (int_of_str : pystr -> option Z)
          (float_of_str : pystr -> option float) (s : pystr),
      ValueFromString int_of_str float_of_str (Some s) =
        match int_of_str s with
        | Some n => VInt n
        | None =>
            match float_of_str s with
            | Some f => VFloat f
            | None => VStr s
            end
        end)
  /\ (forall (int_of_str : pystr -> option Z)
             (float_of_str : pystr -> option float)
             (sharedStrings : list (option pystr)) (row : list value)
             (c_node v_node : element) (c0 : N) (ref s : pystr),
         attrib_get c_node (str "r") = Some (c0 :: ref) ->
         find c_node v_tag = Some v_node ->
         text v_node = Some s ->
         option_str_eqb (attrib_get c_node (str "t")) (Some (str "s")) = false ->
         load_cell int_of_str float_of_str sharedStrings row c_node
         = setitem row (ord c0 - ord 65%N)
                   (ValueFromString int_of_str float_of_str (Some s)))
  /\ ValueFromString ascii_int_of_str ascii_float_of_str (Some (str "42"))
     = VInt 42
  /\ ValueFromString ascii_int_of_str ascii_float_of_str (Some (str "3.5"))
     = VFloat float_3_5
  /\ ValueFromString ascii_int_of_str ascii_float_of_str (Some (str "abc"))
     = VStr (str "abc").
Proof.
  split; [|split]; [| |repeat split; reflexivity].
  - intros int_of_str float_of_str s. unfold ValueFromString, py_int, py_float.
    destruct (int_of_str s); [reflexivity|].
    destruct (float_of_str s); reflexivity.
  - intros int_of_str float_of_str sharedStrings row c_node v_node c0 ref s
           Hr Hv Ht Hs.
    unfold load_cell, attrib_item, dict_item. unfold attrib_get in Hr.
    rewrite Hr. cbn [bind]. change (getitem (c0 :: ref) 0) with (Ok (A := N) c0).
    cbn [bind]. now rewrite Hv, Hs, Ht.
Qed.

(** The cells [A1], [B3] and [C1] of the example sheet: an integer, a
    float and a string, stored at the column of their reference. *)
Lemma ValueFromString_first_parse_wins_witness :
  load_cell ascii_int_of_str ascii_float_of_str [] [VNone; VNone; VNone]
            (c_inline "A1" "42")
  = Ok [VInt 42; VNone; VNone]
  /\ load_cell ascii_int_of_str ascii_float_of_str [] [VNone; VNone; VNone]
               (c_inline "B3" "3.5")
     = Ok [VNone; VFloat float_3_5; VNone]
  /\ load_cell ascii_int_of_str ascii_float_of_str [] [VNone; VNone; VNone]
               (c_inline "C1" "abc")
     = Ok [VNone; VNone; VStr (str "abc")].
Proof.
  split; [|split].
  - exact (proj1 (proj2 ValueFromString_first_parse_wins)
                 ascii_int_of_str ascii_float_of_str [] [VNone; VNone; VNone]
                 (c_inline "A1" "42") (el "v" [] (Some "42"%string) [])
                 65%N (str "1") (str "42") eq_refl eq_refl eq_refl eq_refl).
  - exact (proj1 (proj2 ValueFromString_first_parse_wins)
                 ascii_int_of_str ascii_float_of_str [] [VNone; VNone; VNone]
                 (c_inline "B3" "3.5") (el "v" [] (Some "3.5"%string) [])
                 66%N (str "3") (str "3.5") eq_refl eq_refl eq_refl eq_refl).
  - exact (proj1 (proj2 ValueFromString_first_parse_wins)
                 ascii_int_of_str ascii_float_of_str [] [VNone; VNone; VNone]
                 (c_inline "C1" "abc") (el "v" [] (Some "abc"%string) [])
                 67%N (str "1") (str "abc") eq_refl eq_refl eq_refl eq_refl).
Defined.

Lemma _loadXml_Ok (a : archive) (p : pystr) :
  (exists root, _loadXml a p = Ok root) <-> has_xml a p.
Proof.
  unfold _loadXml, has_xml.
  destruct (dict_get str_eqb a p) as [[root|]|]; split; intros [r H];
    try discriminate; eauto.
Qed.

Lemma _loadXml_missing (a : archive) (p : pystr) :
  dict_get str_eqb a p = None -> _loadXml a p = Raise KeyError.
Proof. unfold _loadXml. now intros ->. Qed.

Lemma _loadRels_Ok (a : archive) :
  (exists rels, _loadRels a = Ok rels)
  <-> has_xml a (str "xl/_rels/workbook.xml.rels").
Proof.
  rewrite <- _loadXml_Ok. unfold _loadRels.
  destruct (_loadXml a (str "xl/_rels/workbook.xml.rels")); simpl;
    split; intros [x H]; try discriminate; eauto.
Qed.

Lemma _loadSheetDefs_Ok (a : archive) :
  (exists defs, _loadSheetDefs a = Ok defs) <-> has_xml a (str "xl/workbook.xml").
Proof.
  rewrite <- _loadXml_Ok. unfold _loadSheetDefs.
  destruct (_loadXml a (str "xl/workbook.xml")); simpl;
    split; intros [x H]; try discriminate; eauto.
Qed.

Lemma _loadSharedStrings_Ok (a : archive) :
  (exists l, _loadSharedStrings a = Ok l)
  <-> has_xml a (str "xl/sharedStrings.xml").
Proof.
  rewrite <- _loadXml_Ok. unfold _loadSharedStrings.
  destruct (_loadXml a (str "xl/sharedStrings.xml")); simpl;
    split; intros [x H]; try discriminate; eauto.
Qed.

(** C4, as the code has it. Opening succeeds exactly when the file
    opens as a zip archive and each of [xl/_rels/workbook.xml.rels],
    [xl/workbook.xml] and [xl/sharedStrings.xml] is a member that
    parses; an archive whose other two parts parse and that has no
    [xl/sharedStrings.xml] member is refused with a [KeyError]. *)
Theorem OpenWorkbook_needs_sharedStrings (fs : filesystem) (path : pystr) :
  ((exists wb, OpenWorkbook fs path = Ok wb)
   <-> exists a, fs path = Some a
                 /\ has_xml a (str "xl/_rels/workbook.xml.rels")
                 /\ has_xml a (str "xl/workbook.xml")
                 /\ has_xml a (str "xl/sharedStrings.xml"))
  /\ (forall a, fs path = Some a ->
                has_xml a (str "xl/_rels/workbook.xml.rels") ->
                has_xml a (str "xl/workbook.xml") ->
                dict_get str_eqb a (str "xl/sharedStrings.xml") = None ->
                OpenWorkbook fs path = Raise KeyError).
Proof.
  unfold OpenWorkbook, Workbook_init. split.
  - split.
    + intros [wb H]. destruct (fs path) as [a|]; [|discriminate].
      exists a. split; [reflexivity|].
      rewrite <- _loadRels_Ok, <- _loadSheetDefs_Ok, <- _loadSharedStrings_Ok.
      destruct (_loadRels a); [|discriminate].
      destruct (_loadSheetDefs a); [|discriminate].
      destruct (_loadSharedStrings a); [|discriminate].
      repeat split; eexists; reflexivity.
    + intros (a & -> & H1 & H2 & H3).
      apply _loadRels_Ok in H1 as [rels ->].
      apply _loadSheetDefs_Ok in H2 as [defs ->].
      apply _loadSharedStrings_Ok in H3 as [l ->]. simpl. eauto.
  - intros a -> H1 H2 H3.
    apply _loadRels_Ok in H1 as [rels ->].
    apply _loadSheetDefs_Ok in H2 as [defs ->]. simpl.
    unfold _loadSharedStrings. now rewrite (_loadXml_missing _ _ H3).
Qed.

Lemma OpenWorkbook_needs_sharedStrings_witness :
  OpenWorkbook
    (one_file book_path (package_without_sharedStrings sheet_out_of_order))
    book_path
  = Raise KeyError.
Proof.
  apply (proj2 (OpenWorkbook_needs_sharedStrings _ _)
                (package_without_sharedStrings sheet_out_of_order));
    try reflexivity; eexists; reflexivity.
Defined.

(** C4 fails as stated: a package with parsable [xl/workbook.xml] and
    [xl/_rels/workbook.xml.rels] and no [xl/sharedStrings.xml] is not
    opened with zero shared strings; opening it raises. *)
Lemma OpenWorkbook_without_sharedStrings_fails :
  has_xml (package_without_sharedStrings sheet_out_of_order)
          (str "xl/workbook.xml")
  /\ has_xml (package_without_sharedStrings sheet_out_of_order)
             (str "xl/_rels/workbook.xml.rels")
  /\ dict_get str_eqb (package_without_sharedStrings sheet_out_of_order)
                      (str "xl/sharedStrings.xml") = None
  /\ ~ (exists wb,
          OpenWorkbook
            (one_file book_path
                      (package_without_sharedStrings sheet_out_of_order))
            book_path = Ok wb
          /\ _sharedStrings wb = []).
Proof.
  repeat split; try (eexists; reflexivity).
  intros [wb [H _]]. vm_compute in H. discriminate.
Qed.

(** The package with all three parts does open, to the workbook the
    examples below read. *)
Example OpenWorkbook_package :
  OpenWorkbook (one_file book_path (package sheet_out_of_order)) book_path
  = Ok (workbook_of sheet_out_of_order).
Proof. reflexivity. Qed.

(** C8. A worksheet whose sheet-data element has no row elements makes
    [loadSheetData] raise ([max] of an empty list) instead of returning
    a grid. *)
Theorem loadSheetData_without_rows
        (int_of_str : pystr -> option Z) (float_of_str : pystr -> option float)
        (wb : Workbook) (index : Z) (path : pystr) (root sd : element) :
  _sheetPath wb index = Ok path ->
  _loadXml (_archive wb) path = Ok root ->
  find root sheetData_tag = Some sd ->
  findall sd row_tag = [] ->
  loadSheetData int_of_str float_of_str wb index = Raise ValueError.
Proof.
  intros Hp Hx Hf Hr. unfold loadSheetData.
  rewrite Hp; simpl. rewrite Hx; simpl. rewrite Hf, Hr. reflexivity.
Qed.

Lemma loadSheetData_without_rows_witness :
  loadSheetData ascii_int_of_str ascii_float_of_str
                (workbook_of sheet_without_rows) 0
  = Raise ValueError.
Proof.
  apply (loadSheetData_without_rows ascii_int_of_str ascii_float_of_str
           (workbook_of sheet_without_rows) 0
           (path := str "xl/worksheets/sheet1.xml")
           (root := sheet_without_rows)
           (sd := el "sheetData" [] None []));
    reflexivity.
Defined.

(* ------------------------------------------------------------------ *)
(** ** Indexing and assignment *)
(* ------------------------------------------------------------------ *)

Lemma replace_nth_length {A : Type} (l : list A) (k : nat) (a : A) :
  length (replace_nth l k a) = length l.
Proof.
  revert k; induction l as [|x l IH]; intros [|k]; simpl; auto.
Qed.

Lemma nth_error_replace_nth {A : Type} (l : list A) (k j : nat) (a : A) :
  k < length l ->
  nth_error (replace_nth l k a) j = if j =? k then Some a else nth_error l j.
Proof.
  revert k j; induction l as [|x l IH]; intros k j Hk; simpl in Hk; [lia|].
  destruct k as [|k], j as [|j]; simpl; try reflexivity.
  apply IH. lia.
Qed.

Lemma resolve_lt (n : nat) (i : Z) (k : nat) : resolve n i = Some k -> k < n.
Proof.
  unfold resolve. destruct (i <? 0)%Z eqn:Hi;
    match goal with |- context [if ?b then None else _] => destruct b eqn:Hb end;
    intros [= <-]; apply orb_false_iff in Hb as [H1 H2]; lia.
Qed.

Lemma setitem_resolve {A : Type} (l : list A) (i : Z) (a : A) :
  setitem l i a = match resolve (length l) i with
                  | Some k => Ok (replace_nth l k a)
                  | None => Raise IndexError
                  end.
Proof.
  unfold setitem, resolve.
  destruct (i <? 0)%Z;
    match goal with |- context [if ?b then _ else _] => destruct b end;
    reflexivity.
Qed.

Lemma getitem_resolve {A : Type} (l : list A) (i : Z) :
  getitem l i = match resolve (length l) i with
                | Some k => match nth_error l k with
                            | Some a => Ok a
                            | None => Raise IndexError
                            end
                | None => Raise IndexError
                end.
Proof.
  unfold getitem, resolve.
  destruct (i <? 0)%Z;
    match goal with |- context [if ?b then _ else _] => destruct b end;
    reflexivity.
Qed.

Lemma resolve_one_based (n : nat) (r : Z) :
  (1 <= r <= Z.of_nat n)%Z -> resolve n (r - 1) = Some (Z.to_nat (r - 1)).
Proof.
  intros H. unfold resolve.
  destruct (r - 1 <? 0)%Z eqn:E; [lia|].
  destruct ((r - 1 <? 0) || (Z.of_nat n <=? r - 1))%Z eqn:E2; [|reflexivity].
  apply orb_true_iff in E2 as [E2|E2]; lia.
Qed.

Lemma setitem_length {A : Type} (l l' : list A) (i : Z) (a : A) :
  setitem l i a = Ok l' -> length l' = length l.
Proof.
  rewrite setitem_resolve. destruct (resolve (length l) i); [|discriminate].
  intros [= <-]. apply replace_nth_length.
Qed.

Lemma setitem_other {A : Type} (l l' : list A) (i : Z) (a : A) (k : nat) :
  setitem l i a = Ok l' -> resolve (length l) i <> Some k ->
  nth_error l' k = nth_error l k.
Proof.
  rewrite setitem_resolve. destruct (resolve (length l) i) as [j|] eqn:E;
    [|discriminate].
  intros [= <-] Hk. rewrite nth_error_replace_nth by (eapply resolve_lt; eauto).
  destruct (k =? j) eqn:Ekj; [|reflexivity].
  apply Nat.eqb_eq in Ekj. congruence.
Qed.

Lemma mapM_In {A B : Type} (f : A -> result B) (l : list A) (bs : list B) (x : A) :
  mapM f l = Ok bs -> In x l -> exists y, f x = Ok y /\ In y bs.
Proof.
  revert bs; induction l as [|a l IH]; intros bs H Hin; [destruct Hin|].
  simpl in H. destruct (f a) as [b|] eqn:Ea; [|discriminate]. simpl in H.
  destruct (mapM f l) as [bs'|] eqn:El; [|discriminate]. simpl in H.
  injection H as <-. destruct Hin as [->|Hin].
  - exists b. split; [assumption|now left].
  - destruct (IH _ eq_refl Hin) as (y & Hy & Hin'). exists y. split; [|right]; auto.
Qed.

(* ------------------------------------------------------------------ *)
(** ** Placement of the rows *)
(* ------------------------------------------------------------------ *)

Lemma fold_max_bounds (l : list Z) (x : Z) :
  (x <= fold_left Z.max l x)%Z
  /\ (forall y, In y l -> (y <= fold_left Z.max l x)%Z)
  /\ In (fold_left Z.max l x) (x :: l).
Proof.
  revert x; induction l as [|a l IH]; intros x; simpl.
  - repeat split; [lia|tauto|now left].
  - destruct (IH (Z.max x a)) as (H1 & H2 & H3). repeat split.
    + lia.
    + intros y [->|Hy]; [lia|auto].
    + destruct H3 as [H3|H3]; [|auto].
      rewrite <- H3. destruct (Z.max_spec x a) as [[_ ->]|[_ ->]]; auto.
Qed.

Lemma py_max_spec (l : list Z) (m : Z) :
  py_max l = Ok m -> In m l /\ forall y, In y l -> (y <= m)%Z.
Proof.
  destruct l as [|x l]; [discriminate|]. simpl. intros [= <-].
  destruct (fold_max_bounds l x) as (H1 & H2 & H3). split; [assumption|].
  intros y [->|Hy]; auto.
Qed.

Lemma py_max_nonempty (l : list Z) : l <> [] -> exists m, py_max l = Ok m.
Proof. destruct l; [congruence|]. simpl. eauto. Qed.

Lemma last_declared_None (raw_rows : list (Z * list value)) (n : Z) :
  last_declared raw_rows n = None <-> ~ In n (map fst raw_rows).
Proof.
  induction raw_rows as [|r rest IH]; simpl; [tauto|].
  destruct (last_declared rest n).
  - split; [discriminate|]. intros H. exfalso. apply H. right.
    destruct (in_dec Z.eq_dec n (map fst rest)) as [Hin|Hin]; [assumption|].
    apply IH in Hin. discriminate.
  - destruct (Z.eqb_spec (fst r) n) as [E|E].
    + split; [discriminate|]. intros H. exfalso. apply H. now left.
    + split; [|reflexivity]. intros _ [H|H]; [contradiction|].
      now apply (proj1 IH eq_refl).
Qed.

Lemma last_declared_NoDup (raw_rows : list (Z * list value)) (n : Z)
      (row : list value) :
  NoDup (map fst raw_rows) -> In (n, row) raw_rows ->
  last_declared raw_rows n = Some row.
Proof.
  induction raw_rows as [|r rest IH]; simpl; intros Hnd Hin; [destruct Hin|].
  inversion Hnd as [|? ? Hnot Hnd']; subst. destruct Hin as [->|Hin].
  - simpl in *. apply last_declared_None in Hnot. rewrite Hnot.
    now rewrite Z.eqb_refl.
  - now rewrite (IH Hnd' Hin).
Qed.

Lemma last_declared_In (raw_rows : list (Z * list value)) (n : Z)
      (row : list value) :
  last_declared raw_rows n = Some row -> In (n, row) raw_rows.
Proof.
  induction raw_rows as [|r rest IH]; simpl; [discriminate|].
  destruct (last_declared rest n) as [row'|].
  - intros [= ->]. right. now apply IH.
  - destruct (Z.eqb_spec (fst r) n) as [E|E]; [|discriminate].
    intros [= <-]. left. destruct r; simpl in *. now subst.
Qed.

(** The placement loop succeeds when every declared number is within
    the grid, and leaves at each index the last row declared for it,
    or what was there. *)
Lemma place_rows_spec (raw_rows : list (Z * list value)) (rows : grid) :
  (forall r, In r raw_rows -> (1 <= fst r <= Z.of_nat (length rows))%Z) ->
  exists rows',
    place_rows rows raw_rows = Ok rows'
    /\ length rows' = length rows
    /\ forall k, k < length rows ->
         nth_error rows' k =
           match last_declared raw_rows (Z.of_nat k + 1) with
           | Some row => Some row
           | None => nth_error rows k
           end.
Proof.
  unfold place_rows. revert rows.
  induction raw_rows as [|r rest IH]; intros rows Hb; simpl.
  - exists rows. auto.
  - assert (Hr : (1 <= fst r <= Z.of_nat (length rows))%Z) by (apply Hb; now left).
    rewrite setitem_resolve, (resolve_one_based _ Hr). simpl.
    set (rows1 := replace_nth rows (Z.to_nat (fst r - 1)) (snd r)).
    assert (Hlen : length rows1 = length rows) by apply replace_nth_length.
    destruct (IH rows1) as (rows' & Hp & Hl & Hn).
    { intros r' Hin. rewrite Hlen. apply Hb. now right. }
    exists rows'. split; [assumption|]. split; [congruence|].
    intros k Hk. rewrite Hn by lia.
    destruct (last_declared rest (Z.of_nat k + 1)); [reflexivity|].
    unfold rows1. rewrite nth_error_replace_nth by lia.
    destruct (Z.eqb_spec (fst r) (Z.of_nat k + 1)) as [E|E].
    + replace (Z.to_nat (fst r - 1)) with k by lia. now rewrite Nat.eqb_refl.
    + destruct (Nat.eqb_spec k (Z.to_nat (fst r - 1))); [lia|reflexivity].
Qed.

Lemma nth_error_repeat {A : Type} (a : A) (n k : nat) :
  k < n -> nth_error (repeat a n) k = Some a.
Proof.
  revert k; induction n as [|n IH]; intros [|k] H; simpl; try lia; auto.
  apply IH. lia.
Qed.

(** C6. When the row elements of the sheet are read without error and
    declare numbers from 1 up, [loadSheetData] returns a grid as long
    as the largest declared number; index [n - 1] holds the row of the
    last row element that declares [n], wherever that element stands
    in the document, so with distinct numbers every declared row is at
    its own index; and an undeclared number leaves the empty row, which
    has no cell present. *)
Theorem loadSheetData_places_rows
        (int_of_str : pystr -> option Z) (float_of_str : pystr -> option float)
        (wb : Workbook) (index : Z) (path : pystr) (root sd : element)
        (raw_rows : list (Z * list value)) :
  _sheetPath wb index = Ok path ->
  _loadXml (_archive wb) path = Ok root ->
  find root sheetData_tag = Some sd ->
  mapM (load_row int_of_str float_of_str (_sharedStrings wb))
       (findall sd row_tag) = Ok raw_rows ->
  raw_rows <> [] ->
  (forall r, In r raw_rows -> (1 <= fst r)%Z) ->
  exists (rows : grid) (row_count : Z),
    loadSheetData int_of_str float_of_str wb index = Ok rows
    /\ In row_count (map fst raw_rows)
    /\ (forall r, In r raw_rows -> (fst r <= row_count)%Z)
    /\ Z.of_nat (length rows) = row_count
    /\ (forall n, (1 <= n <= row_count)%Z ->
          getitem rows (n - 1) =
            Ok (match last_declared raw_rows n with
                | Some row => row
                | None => []
                end))
    /\ (NoDup (map fst raw_rows) ->
        forall n row, In (n, row) raw_rows -> getitem rows (n - 1) = Ok row)
    /\ (forall n, (1 <= n <= row_count)%Z -> ~ In n (map fst raw_rows) ->
          getitem rows (n - 1) = Ok []).
Proof.
  intros Hp Hx Hf Hm Hne H1.
  destruct (py_max_nonempty (l := map fst raw_rows)) as [row_count Hmax].
  { destruct raw_rows; [congruence|discriminate]. }
  destruct (py_max_spec _ Hmax) as [Hin Hle].
  assert (Hpos : (1 <= row_count)%Z).
  { apply in_map_iff in Hin as (r & <- & Hr). now apply H1. }
  destruct (place_rows_spec raw_rows (repeatZ [] row_count))
    as (rows & Hplace & Hlen & Hnth).
  { intros r Hr. unfold repeatZ. rewrite repeat_length.
    split; [now apply H1|]. rewrite Z2Nat.id by lia.
    apply Hle. now apply in_map. }
  unfold repeatZ in Hlen, Hnth. rewrite repeat_length in Hlen, Hnth.
  assert (Hget : forall n, (1 <= n <= row_count)%Z ->
            getitem rows (n - 1) =
              Ok (match last_declared raw_rows n with
                  | Some row => row
                  | None => []
                  end)).
  { intros n Hn. rewrite getitem_resolve, Hlen.
    rewrite resolve_one_based by lia.
    rewrite Hnth by lia. replace (Z.of_nat (Z.to_nat (n - 1)) + 1)%Z with n by lia.
    destruct (last_declared raw_rows n); [reflexivity|].
    rewrite nth_error_repeat by lia. reflexivity. }
  exists rows, row_count. repeat split.
  - unfold loadSheetData. rewrite Hp; simpl. rewrite Hx; simpl.
    rewrite Hf, Hm; simpl. rewrite Hmax; simpl. exact Hplace.
  - exact Hin.
  - intros r Hr. apply Hle. now apply in_map.
  - lia.
  - exact Hget.
  - intros Hnd n row Hr. rewrite Hget.
    + now rewrite (last_declared_NoDup _ _ _ Hnd Hr).
    + split; [apply (H1 _ Hr)|]. apply Hle. apply in_map_iff.
      exists (n, row). auto.
  - intros n Hn Hnot. rewrite (Hget _ Hn).
    apply last_declared_None in Hnot. now rewrite Hnot.
Qed.

(** Rows 3 and 1 in that order: row 1 is at index 0, row 3 at index 2,
    and the skipped row 2 is the empty row. *)
Lemma loadSheetData_places_rows_witness :
  exists rows row_count,
    loadSheetData ascii_int_of_str ascii_float_of_str
                  (workbook_of sheet_out_of_order) 0 = Ok rows
    /\ row_count = 3%Z
    /\ Z.of_nat (length rows) = row_count
    /\ getitem rows 0 = Ok [VInt 42; VNone; VStr (str "abc")]
    /\ getitem rows 1 = Ok []
    /\ getitem rows 2 = Ok [VStr (str "Source"); VFloat float_3_5].
Proof.
  destruct (loadSheetData_places_rows ascii_int_of_str ascii_float_of_str
              (workbook_of sheet_out_of_order) 0
              (path := str "xl/worksheets/sheet1.xml")
              (root := sheet_out_of_order)
              (sd := match find sheet_out_of_order sheetData_tag with
                     | Some sd => sd
                     | None => sheet_out_of_order
                     end)
              (raw_rows := [(3%Z, [VStr (str "Source"); VFloat float_3_5]);
                            (1%Z, [VInt 42; VNone; VStr (str "abc")])])
              eq_refl eq_refl eq_refl eq_refl)
    as (rows & row_count & Hload & Hin & Hle & Hlen & Hget & _ & _).
  - discriminate.
  - intros r [<-|[<-|[]]]; simpl; lia.
  - assert (Hc : row_count = 3%Z).
    { destruct Hin as [<-|[Hin|[]]]; [reflexivity|].
      specialize (Hle _ (or_introl eq_refl)). simpl in *. lia. }
    exists rows, row_count. subst row_count.
    repeat split; try assumption.
    + exact (Hget 1%Z ltac:(lia)).
    + exact (Hget 2%Z ltac:(lia)).
    + exact (Hget 3%Z ltac:(lia)).
Defined.

(* ------------------------------------------------------------------ *)
(** ** Cells without a value *)
(* ------------------------------------------------------------------ *)

Lemma bind_Ok {A B : Type} (c : result A) (k : A -> result B) (b : B) :
  bind c k = Ok b -> exists a, c = Ok a /\ k a = Ok b.
Proof. destruct c as [a|e]; simpl; [eauto|discriminate]. Qed.

Section CellSteps.
Variable int_of_str : pystr -> option Z.
Variable float_of_str : pystr -> option float.
Variable sharedStrings : list (option pystr).

Let load_cell' := load_cell int_of_str float_of_str sharedStrings.

Lemma load_cell_without_value (row row' : list value) (c_node : element) :
  find c_node v_tag = None ->
  load_cell' row c_node = Ok row' -> row' = row.
Proof.
  intros Hv. unfold load_cell', load_cell.
  destruct (attrib_item c_node (str "r")) as [ref|]; [|discriminate]. simpl.
  destruct (getitem ref 0); [|discriminate]. simpl.
  rewrite Hv. now intros [= <-].
Qed.

Lemma load_cell_frame (row row' : list value) (c_node : element) :
  load_cell' row c_node = Ok row' ->
  length row' = length row
  /\ forall k, written_slot (length row) c_node <> Some k ->
               nth_error row' k = nth_error row k.
Proof.
  unfold load_cell', load_cell, written_slot, attrib_item, attrib_get, dict_item.
  destruct (dict_get str_eqb (attrib c_node) (str "r")) as [ref|];
    [|discriminate]. simpl.
  destruct ref as [|c0 ref]; [discriminate|].
  change (getitem (c0 :: ref) 0) with (Ok (A := N) c0). simpl.
  destruct (find c_node v_tag) as [v_node|]; [|now intros [= <-]].
  match goal with
  | |- (if ?b then _ else _) = _ -> _ => destruct b
  end.
  - destruct (py_int int_of_str (text v_node)) as [i|]; [|discriminate]. simpl.
    destruct (getitem sharedStrings i) as [s|]; [|discriminate]. simpl.
    intros H. split; [eapply setitem_length; eauto|].
    intros k Hk. eapply setitem_other; eauto.
  - intros H. split; [eapply setitem_length; eauto|].
    intros k Hk. eapply setitem_other; eauto.
Qed.

Lemma load_cells_frame (cells : list element) (row row' : list value) :
  foldM load_cell' row cells = Ok row' ->
  length row' = length row
  /\ forall k, (forall c, In c cells -> written_slot (length row) c <> Some k) ->
               nth_error row' k = nth_error row k.
Proof.
  revert row; induction cells as [|c cells IH]; intros row; simpl.
  - intros [= <-]. auto.
  - destruct (load_cell' row c) as [row1|] eqn:E; [|discriminate]. simpl.
    intros H. apply load_cell_frame in E as [Hl1 Hf1].
    apply IH in H as [Hl Hf]. split; [congruence|].
    intros k Hk. rewrite Hf.
    + apply Hf1. apply Hk. now left.
    + intros c' Hc'. rewrite Hl1. apply Hk. now right.
Qed.

Lemma load_row_unwritten (row_node : element) (r : Z) (row : list value)
      (k : nat) :
  load_row int_of_str float_of_str sharedStrings row_node = Ok (r, row) ->
  k < length row ->
  (forall c, In c (findall row_node c_tag) ->
             written_slot (length row) c <> Some k) ->
  nth_error row k = Some VNone.
Proof.
  unfold load_row. intros H Hk Hw.
  apply bind_Ok in H as (spans & _ & H).
  apply bind_Ok in H as (len & _ & H).
  apply bind_Ok in H as (row1 & E & H).
  apply bind_Ok in H as (r1 & _ & H).
  injection H as <- <-.
  apply load_cells_frame in E as [Hl Hf].
  rewrite Hf by (intros c Hc; rewrite <- Hl; auto).
  unfold repeatZ in *. rewrite repeat_length in Hl.
  apply nth_error_repeat. lia.
Qed.
End CellSteps.

(** C10. Reading a cell element that has no value child leaves the row
    as it was, whatever its type marker; so in the row read from a row
    element, and in the grid at the index that row is placed at, the
    slot such a cell refers to is still absent, unless another cell
    element of the row that does have a value is stored to it. *)
Theorem cell_without_value_stays_absent
        (int_of_str : pystr -> option Z) (float_of_str : pystr -> option float)
        (sharedStrings : list (option pystr)) :
  (forall (row row' : list value) (c_node : element),
      find c_node v_tag = None ->
      load_cell int_of_str float_of_str sharedStrings row c_node = Ok row' ->
      row' = row)
  /\ (forall (row_node c_node : element) (r : Z) (row : list value)
             (c0 : N) (ref : pystr) (k : nat),
         load_row int_of_str float_of_str sharedStrings row_node = Ok (r, row) ->
         In c_node (findall row_node c_tag) ->
         find c_node v_tag = None ->
         attrib_get c_node (str "r") = Some (c0 :: ref) ->
         resolve (length row) (ord c0 - ord 65%N) = Some k ->
         (forall c, In c (findall row_node c_tag) ->
                    written_slot (length row) c <> Some k) ->
         nth_error row k = Some VNone
         /\ forall (rows : grid) (raw_rows : list (Z * list value)),
              place_rows (repeatZ [] (Z.of_nat (length rows))) raw_rows
              = Ok rows ->
              (forall x, In x raw_rows -> (1 <= fst x <= Z.of_nat (length rows))%Z) ->
              last_declared raw_rows r = Some row ->
              exists row', getitem rows (r - 1) = Ok row'
                           /\ nth_error row' k = Some VNone).
Proof.
  split.
  - intros row row' c_node. apply load_cell_without_value.
  - intros row_node c_node r row c0 ref k Hrow Hin Hv Hr Hk Hw.
    assert (Hnone : nth_error row k = Some VNone).
    { eapply load_row_unwritten; eauto. eapply resolve_lt; eauto. }
    split; [assumption|].
    intros rows raw_rows Hplace Hb Hlast.
    destruct (place_rows_spec raw_rows (repeatZ [] (Z.of_nat (length rows))))
      as (rows' & Hp' & Hl' & Hn').
    { unfold repeatZ. rewrite repeat_length, Nat2Z.id. exact Hb. }
    rewrite Hplace in Hp'. injection Hp' as <-.
    unfold repeatZ in Hl', Hn'. rewrite repeat_length, Nat2Z.id in Hl', Hn'.
    assert (Hr1 : (1 <= r <= Z.of_nat (length rows))%Z).
    { apply (Hb (r, row)). now apply last_declared_In. }
    exists row. split; [|assumption].
    rewrite getitem_resolve, resolve_one_based by lia.
    rewrite Hn' by lia.
    replace (Z.of_nat (Z.to_nat (r - 1)) + 1)%Z with r by lia.
    now rewrite Hlast.
Qed.

(** [B1] of the example sheet has the shared-string marker and no
    value: slot 1 of row 1 is absent, in the row and in the grid. *)
Lemma cell_without_value_stays_absent_witness :
  nth_error [VInt 42; VNone; VStr (str "abc")] 1 = Some VNone
  /\ exists row',
       getitem [[VInt 42; VNone; VStr (str "abc")]; [];
                [VStr (str "Source"); VFloat float_3_5]] (1 - 1) = Ok row'
       /\ nth_error row' 1 = Some VNone.
Proof.
  destruct (proj2 (cell_without_value_stays_absent
                     ascii_int_of_str ascii_float_of_str
                     [Some (str "Quality"); Some (str "Source")])
                  row_1 cell_B1 1%Z [VInt 42; VNone; VStr (str "abc")]
                  66%N (str "1") 1 eq_refl)
    as [Hrow Hgrid].
  - right. left. reflexivity.
  - reflexivity.
  - reflexivity.
  - reflexivity.
  - intros c [<-|[<-|[<-|[]]]]; discriminate.
  - split; [exact Hrow|].
    apply (Hgrid [[VInt 42; VNone; VStr (str "abc")]; [];
                  [VStr (str "Source"); VFloat float_3_5]]
                 [(3%Z, [VStr (str "Source"); VFloat float_3_5]);
                  (1%Z, [VInt 42; VNone; VStr (str "abc")])]).
    + reflexivity.
    + intros x [<-|[<-|[]]]; simpl; lia.
    + reflexivity.
Defined.

(* ================================================================== *)
(** * Properties of the table extractor *)
(* ================================================================== *)

(* ------------------------------------------------------------------ *)
(** ** Column values *)
(* ------------------------------------------------------------------ *)

Lemma rejected_iff_empty (v : value) :
  negb (truthy v) && ne_zero v = negb (non_empty v).
Proof.
  destruct v as [|n|f|s]; try reflexivity.
  - unfold ne_zero; simpl. destruct (Z.eqb_spec n 0) as [->|Hn]; reflexivity.
  - destruct f; reflexivity.
  - destruct s; reflexivity.
Qed.

Lemma raises_iff_absent (row : list value) (column_index : nat) :
  (length row <=? column_index)
  || (negb (truthy (cell row column_index)) && ne_zero (cell row column_index))
  = negb (cell_present row column_index).
Proof.
  unfold cell_present. rewrite rejected_iff_empty, negb_andb.
  f_equal. apply Nat.leb_antisym.
Qed.

Lemma item_row_at (rows : grid) (i : nat) :
  i < length rows -> item rows i = Ok (row_at rows i).
Proof.
  intros H. unfold item, row_at.
  destruct (nth_error rows i) as [row|] eqn:E.
  - now rewrite (nth_error_nth _ _ _ E).
  - apply nth_error_None in E. lia.
Qed.

Lemma foldM_app {A S : Type} (f : S -> A -> result S) (s : S) (l1 l2 : list A) :
  foldM f s (l1 ++ l2) = (s' <- foldM f s l1 ;; foldM f s' l2).
Proof.
  revert s; induction l1 as [|a l1 IH]; intros s; simpl; [reflexivity|].
  destruct (f s a); simpl; auto.
Qed.

Lemma columnValues_body_present (rows : grid) (c first i : nat)
      (values : list value) :
  first + i < length rows ->
  cell_present (row_at rows (first + i)) c = true ->
  columnValues_body rows c first values i
  = Ok (values ++ [cell (row_at rows (first + i)) c]).
Proof.
  intros Hi Hp. unfold columnValues_body.
  rewrite (item_row_at _ Hi). cbn [bind].
  now rewrite raises_iff_absent, Hp.
Qed.

Lemma columnValues_body_absent (rows : grid) (c first i : nat)
      (values : list value) :
  first + i < length rows ->
  cell_present (row_at rows (first + i)) c = false ->
  columnValues_body rows c first values i
  = (ref <- CellRef c (first + i) ;;
     Raise (Exception (str "Value expected in cell %s") [VStr ref])).
Proof.
  intros Hi Hp. unfold columnValues_body.
  rewrite (item_row_at _ Hi). cbn [bind].
  now rewrite raises_iff_absent, Hp.
Qed.

Lemma columnValues_loop_present (rows : grid) (c first : nat)
      (start n : nat) (values : list value) :
  first + start + n <= length rows ->
  (forall i, start <= i < start + n ->
             cell_present (row_at rows (first + i)) c = true) ->
  foldM (columnValues_body rows c first) values (seq start n)
  = Ok (values ++ map (fun i => cell (row_at rows (first + i)) c) (seq start n)).
Proof.
  revert start values; induction n as [|n IH]; intros start values Hlen Hp; simpl.
  - now rewrite app_nil_r.
  - rewrite columnValues_body_present by (try apply Hp; lia). cbn [bind].
    rewrite IH by (try (intros i Hi; apply Hp); lia).
    now rewrite <- app_assoc.
Qed.

Lemma columnValues_present (rows : grid) (c first n : nat) :
  first + n <= length rows ->
  (forall i, i < n -> cell_present (row_at rows (first + i)) c = true) ->
  columnValues rows c first n = Ok (column_cells rows c first n).
Proof.
  intros Hlen Hp. unfold columnValues.
  rewrite columnValues_loop_present; [reflexivity|lia|].
  intros i Hi. apply Hp. lia.
Qed.

Lemma columnValues_loop_absent (rows : grid) (c first : nat)
      (start n i : nat) (values : list value) :
  first + start + n <= length rows ->
  start <= i < start + n ->
  (forall j, start <= j < i ->
             cell_present (row_at rows (first + j)) c = true) ->
  cell_present (row_at rows (first + i)) c = false ->
  foldM (columnValues_body rows c first) values (seq start n)
  = (ref <- CellRef c (first + i) ;;
     Raise (Exception (str "Value expected in cell %s") [VStr ref])).
Proof.
  revert start values; induction n as [|n IH]; intros start values Hlen Hi Hb Hh;
    [lia|]. simpl.
  destruct (Nat.eq_dec start i) as [->|Hne].
  - rewrite columnValues_body_absent by (try assumption; lia).
    destruct (CellRef c (first + i)); reflexivity.
  - rewrite columnValues_body_present by (try apply Hb; lia). cbn [bind].
    apply IH; try lia; try assumption.
    intros j Hj. apply Hb. lia.
Qed.

Lemma columnValues_absent (rows : grid) (c first n i : nat) :
  first + n <= length rows ->
  i < n ->
  (forall j, j < i -> cell_present (row_at rows (first + j)) c = true) ->
  cell_present (row_at rows (first + i)) c = false ->
  columnValues rows c first n
  = (ref <- CellRef c (first + i) ;;
     Raise (Exception (str "Value expected in cell %s") [VStr ref])).
Proof.
  intros Hlen Hi Hbefore Hhere. unfold columnValues.
  apply columnValues_loop_absent; try assumption; try lia.
  intros j Hj. apply Hbefore. lia.
Qed.

Lemma columnValues_loop_length (rows : grid) (c first : nat) (l : list nat)
      (values values' : list value) :
  foldM (columnValues_body rows c first) values l = Ok values' ->
  length values' = length values + length l.
Proof.
  revert values; induction l as [|i l IH]; intros values; simpl.
  - intros [= <-]. lia.
  - intros H. apply bind_Ok in H as (v1 & H1 & H).
    apply IH in H. rewrite H.
    unfold columnValues_body in H1. apply bind_Ok in H1 as (row & _ & H1).
    destruct (_ || _) in H1.
    + destruct (CellRef c (first + i)); discriminate.
    + injection H1 as <-. rewrite length_app. simpl. lia.
Qed.

Lemma columnValues_length (rows : grid) (c first n : nat) (values : list value) :
  columnValues rows c first n = Ok values -> length values = n.
Proof.
  intros H. apply columnValues_loop_length in H. now rewrite length_seq in H.
Qed.

Lemma CellRef_letter (x y : nat) :
  x <= 25 ->
  CellRef x y = Ok (N.of_nat (65 + x) :: str_of_Z (Z.of_nat y + 1)).
Proof.
  intros Hx. unfold CellRef, chr, ord.
  destruct ((0 <=? Z.of_N 65 + Z.of_nat x) && (Z.of_N 65 + Z.of_nat x <? 1114112))%Z
    eqn:E.
  - cbn [bind app]. do 2 f_equal. change (Z.of_N 65) with 65%Z. lia.
  - change (Z.of_N 65) with 65%Z in E.
    apply andb_false_iff in E as [E|E];
      [apply Z.leb_gt in E|apply Z.ltb_ge in E]; lia.
Qed.

(** C7. Over a span of rows that the grid has, [columnValues] returns
    the cells of the column as they are, numeric zeros included, when
    every cell is in its row and is neither [None] nor the empty
    string; otherwise it raises for the first cell that is not, with
    the reference of that cell: the column letter, then the row number
    counted from 1. *)
Theorem columnValues_requires_values
        (rows : grid) (column_index first_row row_count : nat) :
  first_row + row_count <= length rows ->
  ((forall i, i < row_count ->
              cell_present (row_at rows (first_row + i)) column_index = true) ->
   columnValues rows column_index first_row row_count
   = Ok (column_cells rows column_index first_row row_count))
  /\ (forall i,
         i < row_count ->
         (forall j, j < i ->
                    cell_present (row_at rows (first_row + j)) column_index = true) ->
         cell_present (row_at rows (first_row + i)) column_index = false ->
         column_index <= 25 ->
         columnValues rows column_index first_row row_count
         = Raise (Exception (str "Value expected in cell %s")
                            [VStr (N.of_nat (65 + column_index)
                                   :: str_of_Z (Z.of_nat (first_row + i) + 1))]))
  /\ (forall row,
         cell_present row column_index = true
         <-> column_index < length row
             /\ cell row column_index <> VNone
             /\ cell row column_index <> VStr [])
  /\ (forall row s,
         column_index < length row ->
         cell row column_index = VInt 0
         \/ cell row column_index = VFloat (S754_zero s) ->
         cell_present row column_index = true).
Proof.
  intros Hlen. repeat split.
  - now apply columnValues_present.
  - intros i Hi Hbefore Hhere Hc.
    rewrite (columnValues_absent _ _ _ Hlen Hi Hbefore Hhere).
    now rewrite CellRef_letter.
  - unfold cell_present in H. apply andb_true_iff in H as [H _].
    now apply Nat.ltb_lt.
  - unfold cell_present in H. apply andb_true_iff in H as [_ H].
    intros E. rewrite E in H. discriminate.
  - unfold cell_present in H. apply andb_true_iff in H as [_ H].
    intros E. rewrite E in H. discriminate.
  - intros (H1 & H2 & H3). unfold cell_present.
    apply andb_true_iff. split; [now apply Nat.ltb_lt|].
    destruct (cell row column_index) as [| | |[|]]; try reflexivity; congruence.
  - intros row s Hc [E|E]; unfold cell_present; rewrite E;
      apply andb_true_iff; split; try reflexivity; now apply Nat.ltb_lt.
Qed.

(* ------------------------------------------------------------------ *)
(** ** The two [while] loops *)
(* ------------------------------------------------------------------ *)

Lemma dict_set_Forall {K V : Type} (keq : K -> K -> bool) (P : V -> Prop)
      (d : dict K V) (k : K) (v : V) :
  Forall (fun kv => P (snd kv)) d -> P v ->
  Forall (fun kv => P (snd kv)) (dict_set keq d k v).
Proof.
  intros Hd Hv. induction d as [|[k' v'] d IH]; simpl.
  - constructor; auto.
  - inversion Hd; subst. destruct (keq k' k); constructor; auto.
Qed.

Unset Implicit Arguments.

Section Loops.
Variable rows : grid.
Variable headerRow : list value.
Variable headerRowIndex : nat.
Variable header_to_row_map : dict value nat.
Variable name_row : list value.
Variable biotopeCodes : list value.

Local Abbreviation read_columns' :=
  (read_columns rows headerRow headerRowIndex name_row biotopeCodes).
Local Abbreviation read_parameter_sets' :=
  (read_parameter_sets rows headerRow headerRowIndex header_to_row_map
                       name_row biotopeCodes).

(** A column entry as long as the list of codes. *)
Let sized (kv : value * list value) : Prop :=
  length (snd kv) = length biotopeCodes.

Lemma read_columns_sized (fuel cur cur' : nat)
      (columns columns' : dict value (list value)) :
  read_columns' fuel cur columns = Some (Ok (columns', cur')) ->
  Forall sized columns -> Forall sized columns'.
Proof.
  revert cur columns; induction fuel as [|fuel IH]; intros cur columns;
    cbn [read_columns]; [discriminate|].
  destruct (_ && _); [|now intros [= <- <-]].
  destruct (columnValues _ _ _ _) as [values|] eqn:E; [|discriminate].
  apply columnValues_length in E.
  destruct (_ || _).
  - intros [= <- <-] H. now apply (dict_set_Forall py_eq (fun v => length v = _)).
  - intros H Hs. eapply IH; [exact H|].
    now apply (dict_set_Forall py_eq (fun v => length v = _)).
Qed.

Lemma read_columns_advances (fuel cur cur' : nat)
      (columns columns' : dict value (list value)) :
  read_columns' fuel cur columns = Some (Ok (columns', cur')) ->
  cur <= cur'
  /\ ((cur <? length headerRow) && truthy (cell headerRow cur) = true ->
      cur < cur').
Proof.
  revert cur columns; induction fuel as [|fuel IH]; intros cur columns;
    cbn [read_columns]; [discriminate|].
  destruct (_ && _); [|intros [= <- <-]; split; [lia|discriminate]].
  destruct (columnValues _ _ _ _) as [values|]; [|discriminate].
  destruct (_ || _).
  - intros [= <- <-]. split; intros; lia.
  - intros H. apply IH in H as [H _]. split; intros; lia.
Qed.

Lemma read_columns_finishes (fuel cur : nat)
      (columns : dict value (list value)) :
  length headerRow - cur < fuel ->
  exists r, read_columns' fuel cur columns = Some r.
Proof.
  revert cur columns; induction fuel as [|fuel IH]; intros cur columns Hf;
    [lia|]. cbn [read_columns].
  destruct (cur <? length headerRow) eqn:Hc; simpl; [|eauto].
  apply Nat.ltb_lt in Hc.
  destruct (truthy (cell headerRow cur)); [|eauto].
  destruct (columnValues _ _ _ _) as [values|]; [|eauto].
  destruct (_ || _); [eauto|].
  apply IH. lia.
Qed.

Lemma read_parameter_sets_sized (fuel cur : nat)
      (parameterSets parameterSets' : list ParameterSet) :
  read_parameter_sets' fuel cur parameterSets = Some (Ok parameterSets') ->
  Forall (fun ps => Forall sized (columns ps)) parameterSets ->
  Forall (fun ps => Forall sized (columns ps)) parameterSets'.
Proof.
  revert cur parameterSets; induction fuel as [|fuel IH];
    intros cur parameterSets; cbn [read_parameter_sets]; [discriminate|].
  destruct (_ && _); [|now intros [= <-]].
  destruct (read_parameters _ _ _) as [parameters|]; [|discriminate].
  destruct (read_columns _ _ _ _ _ _ _ _) as [[[cols cur']|]|] eqn:E;
    try discriminate.
  destruct (foldM _ _ _); [|discriminate].
  intros H Hs. eapply IH; [exact H|]. apply Forall_app. split; [assumption|].
  constructor; [|constructor]. simpl.
  eapply read_columns_sized; [exact E|constructor].
Qed.

Lemma read_parameter_sets_finishes (fuel cur : nat)
      (parameterSets : list ParameterSet) :
  length headerRow - cur < fuel ->
  exists r, read_parameter_sets' fuel cur parameterSets = Some r.
Proof.
  revert cur parameterSets; induction fuel as [|fuel IH];
    intros cur parameterSets Hf; [lia|]. cbn [read_parameter_sets].
  destruct ((cur <? length name_row) && (cur <? length headerRow)
            && truthy (cell headerRow cur)) eqn:Hc; [|eauto].
  apply andb_true_iff in Hc as [Hc Ht]. apply andb_true_iff in Hc as [_ Hc].
  destruct (read_parameters _ _ _) as [parameters|]; [|eauto].
  destruct (read_columns_finishes (S (length headerRow)) cur [])
    as [[[cols cur']|e] E]; [lia| |].
  - rewrite E.
    destruct (foldM _ _ _); [|eauto].
    apply read_columns_advances in E as [_ E].
    rewrite Hc, Ht in E. specialize (E eq_refl).
    apply Nat.ltb_lt in Hc. apply IH. lia.
  - rewrite E. eauto.
Qed.
End Loops.

Set Implicit Arguments.

(** The extraction from a grid always finishes: the fuel the model
    gives its loops is never used up. *)
Lemma _loadBatchParameters_rows_finishes (rows : grid) :
  exists r, _loadBatchParameters_rows rows = Some r.
Proof.
  unfold _loadBatchParameters_rows.
  destruct (locate_table rows) as [t|e]; [|eauto].
  destruct (read_parameter_sets_finishes rows (headerRow t) (headerRowIndex t)
              (header_to_row_map t) (network_name_row t) (table_codes t)
              (S (length (headerRow t))) (headerColumnIndex t + 1) [])
    as [[sets|e] E]; [lia| |]; rewrite E; eauto.
Qed.

Lemma _loadBatchParameters_finishes
      (int_of_str : pystr -> option Z) (float_of_str : pystr -> option float)
      (fs : filesystem) (path : pystr) :
  exists r, _loadBatchParameters int_of_str float_of_str fs path = Some r.
Proof.
  unfold _loadBatchParameters.
  destruct (bind _ _); [apply _loadBatchParameters_rows_finishes|eauto].
Qed.

Lemma _loadBatchParameters_rows_sized (rows : grid) (bp : BatchParameters) :
  _loadBatchParameters_rows rows = Some (Ok bp) -> columns_sized bp.
Proof.
  unfold _loadBatchParameters_rows, columns_sized.
  destruct (locate_table rows) as [t|e]; [|discriminate].
  destruct (read_parameter_sets _ _ _ _ _ _ _ _ _) as [[sets|]|] eqn:E;
    try discriminate.
  intros [= <-]. simpl.
  eapply read_parameter_sets_sized; [exact E|constructor].
Qed.

Lemma find_header_row_lt (rows : grid) (i k : nat) :
  find_header_row rows i = Some k -> i <= k < i + length rows.
Proof.
  revert i; induction rows as [|row rows IH]; intros i; simpl; [discriminate|].
  destruct (contains row (VStr BIOTOPE_CODE_HDR)).
  - intros [= <-]. lia.
  - intros H. apply IH in H. lia.
Qed.

(** The rows that [_loadBatchParameters] reads its columns from are the
    rows of the grid below the header row, all of them. *)
Lemma locate_table_span (rows : grid) (t : table) :
  locate_table rows = Ok t ->
  headerRowIndex t + 1 + length (table_codes t) = length rows.
Proof.
  unfold locate_table.
  destruct (find_header_row rows 0) as [[|hr]|] eqn:Ehr; try discriminate.
  apply find_header_row_lt in Ehr. intros H.
  apply bind_Ok in H as (hrow & _ & H).
  apply bind_Ok in H as ([[|hc]|] & _ & H); try discriminate.
  apply bind_Ok in H as (m & _ & H).
  apply bind_Ok in H as (code_column & _ & H).
  apply bind_Ok in H as (codes & Hcodes & H).
  apply bind_Ok in H as (u & _ & H).
  apply bind_Ok in H as (name_row_index & _ & H).
  apply bind_Ok in H as (name_row & _ & H).
  injection H as <-. simpl.
  apply columnValues_length in Hcodes. lia.
Qed.

(** C9. In the [BatchParameters] of a successful extraction, from a
    grid or from a workbook file, every entry of every set's [columns]
    is as long as the list of codes. *)
Theorem columns_as_long_as_codes
        (int_of_str : pystr -> option Z) (float_of_str : pystr -> option float)
        (fs : filesystem) (path : pystr) (bp : BatchParameters) :
  _loadBatchParameters int_of_str float_of_str fs path = Some (Ok bp) ->
  columns_sized bp
  /\ forall rows bp',
       _loadBatchParameters_rows rows = Some (Ok bp') -> columns_sized bp'.
Proof.
  intros H. split; [|apply _loadBatchParameters_rows_sized].
  unfold _loadBatchParameters in H.
  destruct (bind _ _) as [rows|]; [|discriminate].
  now apply _loadBatchParameters_rows_sized in H.
Qed.

(** The codes of the Corridor table keep their zero; in the table with
    a blank quality cell the failure names [C7]. *)
Lemma columnValues_requires_values_witness :
  columnValues grid_corridor 1 5 4 = Ok [VInt 1; VInt 2; VInt 0; VInt 4]
  /\ columnValues grid_blank_quality 2 5 3
     = Raise (Exception (str "Value expected in cell %s") [VStr (str "C7")]).
Proof.
  split.
  - apply (proj1 (columnValues_requires_values grid_corridor 1 5 4
                    ltac:(simpl; lia))).
    intros [|[|[|[|i]]]] Hi; try reflexivity. simpl in Hi. lia.
  - apply (proj1 (proj2 (columnValues_requires_values grid_blank_quality 2 5 3
                           ltac:(simpl; lia))) 1).
    + lia.
    + intros [|j] Hj; [reflexivity|lia].
    + reflexivity.
    + lia.
Defined.

(** The Corridor workbook, read from its package: three columns of
    four values for four codes. *)
Lemma columns_as_long_as_codes_witness :
  _loadBatchParameters ascii_int_of_str ascii_float_of_str
                       (one_file book_path (package sheet_corridor)) book_path
  = Some (Ok parameters_corridor)
  /\ columns_sized parameters_corridor.
Proof.
  assert (H : _loadBatchParameters ascii_int_of_str ascii_float_of_str
                (one_file book_path (package sheet_corridor)) book_path
              = Some (Ok parameters_corridor)) by (vm_compute; reflexivity).
  split; [exact H|].
  exact (proj1 (columns_as_long_as_codes _ _ _ _ H)).
Defined.

(* ------------------------------------------------------------------ *)
(** ** The header row and the header column *)
(* ------------------------------------------------------------------ *)

Lemma contains_app (l1 l2 : list value) (x : value) :
  contains (l1 ++ l2) x = contains l1 x || contains l2 x.
Proof. apply existsb_app. Qed.

Lemma contains_header (cells_before cells_after : list value) :
  contains (cells_before ++ VStr BIOTOPE_CODE_HDR :: cells_after)
           (VStr BIOTOPE_CODE_HDR) = true.
Proof.
  rewrite contains_app. apply orb_true_iff. right.
  unfold contains. cbn [existsb]. apply orb_true_iff. left.
  apply str_eqb_refl.
Qed.

(** C2, where the code departs from it. A grid whose first row holds
    the biotope-code header is refused as having no header row, and a
    table whose row-header labels are in the first column as having no
    header column; the same table one column to the right is read. *)
Theorem header_at_index_0_is_reported_missing :
  (forall (cells_before cells_after : list value) (rest : grid),
      _loadBatchParameters_rows
        ((cells_before ++ VStr BIOTOPE_CODE_HDR :: cells_after) :: rest)
      = Some (Raise (Exception column_header_not_found
                               [VStr BIOTOPE_CODE_HDR])))
  /\ find_header_row grid_header_in_row_1 0 = Some 0
  /\ _loadBatchParameters_rows grid_header_in_row_1
     = Some (Raise (Exception column_header_not_found
                              [VStr BIOTOPE_CODE_HDR]))
  /\ find_header_row grid_labels_in_column_A 0 = Some 3
  /\ find_header_column grid_labels_in_column_A (seq 0 3) None = Ok (Some 0)
  /\ _loadBatchParameters_rows grid_labels_in_column_A
     = Some (Raise (Exception row_header_not_found [VStr NAME_PARAM]))
  /\ exists bp, _loadBatchParameters_rows grid_labels_in_column_B = Some (Ok bp).
Proof.
  split; [|repeat split; try reflexivity; eexists; vm_compute; reflexivity].
  intros cells_before cells_after rest.
  unfold _loadBatchParameters_rows, locate_table. cbn [find_header_row].
  now rewrite contains_header.
Qed.

(* ------------------------------------------------------------------ *)
(** ** Lookups by a list of names *)
(* ------------------------------------------------------------------ *)

Lemma parameter_loop_empty (names : list pystr) (name : option pystr) :
  parameter_loop [] names name
  = raise_missing (str "Missing parameter '%s'.")
                  (match rev names with n :: _ => Some n | [] => name end).
Proof.
  revert name; induction names as [|n names IH]; intros name; simpl;
    [reflexivity|].
  rewrite IH. destruct (rev names) eqn:E; reflexivity.
Qed.

Lemma column_loop_empty (names : list pystr) (name : option pystr) :
  column_loop [] names name
  = raise_missing (str "Missing parameter set column '%s'.")
                  (match rev names with n :: _ => Some n | [] => name end).
Proof.
  revert name; induction names as [|n names IH]; intros name; simpl;
    [reflexivity|].
  rewrite IH. destruct (rev names) eqn:E; reflexivity.
Qed.

(** C3, where the code departs from it. When no name matches,
    [ParameterSet.parameter] and [ParameterSet.column] report one
    character, the first of the last name tried: [M] for the threshold
    and [R] for the source column, and [N] instead of the whole name of
    the single-name concept; the row-header check of
    [_loadBatchParameters] does name the single label and list the two
    synonyms.  A lookup that finds a name returns the value of the
    first name present. *)
Theorem missing_name_is_reported_by_one_character :
  (forall (names : list pystr) (c : N) (rest : pystr),
      parameter (mkParameterSet [] []) (NameList (names ++ [c :: rest]))
      = Raise (Exception (str "Missing parameter '%s'.") [VStr [c]]))
  /\ (forall (names : list pystr) (c : N) (rest : pystr),
         column (mkParameterSet [] []) (NameList (names ++ [c :: rest]))
         = Raise (Exception (str "Missing parameter set column '%s'.")
                            [VStr [c]]))
  /\ parameter (mkParameterSet [] []) (NameList NETWORK_THRESHOLD_PARAM)
     = Raise (Exception (str "Missing parameter '%s'.") [VStr (str "M")])
  /\ column (mkParameterSet [] []) (NameList SOURCE_COLUMN)
     = Raise (Exception (str "Missing parameter set column '%s'.")
                        [VStr (str "R")])
  /\ parameter (mkParameterSet [] []) (Name NAME_PARAM)
     = Raise (Exception (str "Missing parameter '%s'.") [VStr (str "N")])
  /\ check_row_header [] (Name NAME_PARAM)
     = Raise (Exception row_header_not_found [VStr NAME_PARAM])
  /\ check_row_header [] (NameList NETWORK_THRESHOLD_PARAM)
     = Raise (Exception no_row_header_found [VStr threshold_labels_listed])
  /\ column set_B (NameList SOURCE_COLUMN) = Ok [VInt 1; VInt 0]
  /\ parameter (mkParameterSet
                  [(VStr (str "Minimum dispersal probability"), VInt 2);
                   (VStr (str "Network threshold"), VInt 1)] [])
               (NameList NETWORK_THRESHOLD_PARAM)
     = Ok (VInt 1).
Proof.
  split; [|split]; [| |repeat split; reflexivity].
  - intros names c rest. unfold parameter. cbn [parameters names_of].
    rewrite parameter_loop_empty, rev_app_distr. reflexivity.
  - intros names c rest. unfold column. cbn [columns names_of].
    rewrite column_loop_empty, rev_app_distr. reflexivity.
Qed.

(* ------------------------------------------------------------------ *)
(** ** Configuration groups *)
(* ------------------------------------------------------------------ *)

Unset Implicit Arguments.

Section LayoutFacts.
Variable rows : grid.
Variable t : table.

Local Abbreviation first_data_row := (headerRowIndex t + 1).
Local Abbreviation code_count := (length (table_codes t)).
Local Abbreviation read_columns' :=
  (read_columns rows (headerRow t) (headerRowIndex t) (network_name_row t)
                (table_codes t)).
Local Abbreviation read_parameter_sets' :=
  (read_parameter_sets rows (headerRow t) (headerRowIndex t)
                       (header_to_row_map t) (network_name_row t)
                       (table_codes t)).








Lemma read_parameter_sets_end (fuel c : nat) (sets : list ParameterSet) :
  table_ends t c = true ->
  read_parameter_sets' (S fuel) c sets = Some (Ok sets).
Proof.
  unfold table_ends. intros H. cbn [read_parameter_sets].
  destruct (c <? length (network_name_row t)) eqn:E1; [|reflexivity].
  destruct (c <? length (headerRow t)) eqn:E2; [|reflexivity].
  destruct (truthy (cell (headerRow t) c)) eqn:E3; [|reflexivity].
  apply Nat.ltb_lt in E1, E2. cbn [negb] in H. rewrite orb_false_r in H.
  apply orb_true_iff in H as [H|H]; apply Nat.leb_le in H; lia.
Qed.

End LayoutFacts.




(* ================================================================== *)
(** * Further properties of the reader *)
(* ================================================================== *)

(* ------------------------------------------------------------------ *)
(** ** Tags and namespaces *)
(* ------------------------------------------------------------------ *)

Lemma rfind_char_absent (c : N) (s : pystr) :
  ~ In c s -> rfind_char c s = (-1)%Z.
Proof.
  induction s as [|x s IH]; intros H; simpl; [reflexivity|].
  rewrite IH by (intros Hin; apply H; now right). simpl.
  destruct (N.eqb_spec x c) as [->|_]; [|reflexivity].
  exfalso. apply H. now left.
Qed.

Lemma rfind_char_nonneg (c : N) (s : pystr) :
  (-1 <= rfind_char c s)%Z.
Proof.
  induction s as [|x s IH]; simpl; [lia|].
  destruct (0 <=? rfind_char c s)%Z eqn:E; [apply Z.leb_le in E; lia|].
  destruct (N.eqb x c); lia.
Qed.

Lemma rfind_char_last (c : N) (a b : pystr) :
  ~ In c b -> rfind_char c (a ++ c :: b) = Z.of_nat (length a).
Proof.
  intros Hb. induction a as [|x a IH]; simpl.
  - rewrite (rfind_char_absent _ _ Hb). simpl. now rewrite N.eqb_refl.
  - rewrite IH. destruct (0 <=? Z.of_nat (length a))%Z eqn:E; [lia|].
    apply Z.leb_gt in E. lia.
Qed.

Lemma rfind_char_split (c : N) (s : pystr) :
  In c s ->
  exists a b, s = a ++ c :: b /\ ~ In c b.
Proof.
  induction s as [|x s IH]; intros Hin; [destruct Hin|].
  destruct (in_dec N.eq_dec c s) as [Hs|Hs].
  - destruct (IH Hs) as (a & b & -> & Hb). exists (x :: a), b. auto.
  - destruct Hin as [->|Hin]; [|contradiction]. exists [], s. auto.
Qed.

Lemma slice_from_app {A : Type} (a b : list A) :
  slice_from (a ++ b) (Z.of_nat (length a)) = b.
Proof.
  unfold slice_from. rewrite Nat2Z.id.
  induction a as [|x a IH]; simpl; auto.
Qed.

Lemma _stripNameSpace_split (a b : pystr) :
  ~ In 125%N b -> _stripNameSpace (a ++ 125%N :: b) = b.
Proof.
  intros Hb. unfold _stripNameSpace. rewrite (rfind_char_last _ _ _ Hb).
  destruct (Z.of_nat (length a) <? 0)%Z eqn:E; [apply Z.ltb_lt in E; lia|].
  replace (a ++ 125%N :: b) with ((a ++ [125%N]) ++ b)
    by (now rewrite <- app_assoc).
  replace (Z.of_nat (length a) + 1)%Z with (Z.of_nat (length (a ++ [125%N])))
    by (rewrite length_app; simpl; lia).
  apply slice_from_app.
Qed.

(** X1. Stripping the namespace undoes [qname]: from ['{ns}local'] it
    returns [local], whatever the namespace, when [local] has no
    closing brace; a tag without a closing brace is returned as it is;
    and what is returned never holds a closing brace. *)
Theorem _stripNameSpace_qname (ns local : pystr) :
  ~ In 125%N local ->
  _stripNameSpace (qname ns local) = local
  /\ _stripNameSpace local = local
  /\ forall t, ~ In 125%N (_stripNameSpace t).
Proof.
  intros Hl. split; [|split].
  - unfold qname. change (str "{" ++ ns ++ str "}" ++ local)
      with ((123%N :: ns) ++ 125%N :: local).
    now apply _stripNameSpace_split.
  - unfold _stripNameSpace. now rewrite (rfind_char_absent _ _ Hl).
  - intros t. destruct (in_dec N.eq_dec 125%N t) as [Hin|Hin].
    + destruct (rfind_char_split _ _ Hin) as (a & b & -> & Hb).
      now rewrite (_stripNameSpace_split _ _ Hb).
    + unfold _stripNameSpace. now rewrite (rfind_char_absent _ _ Hin).
Qed.

Lemma _stripNameSpace_qname_witness :
  _stripNameSpace row_tag = str "row"
  /\ _stripNameSpace (str "row") = str "row"
  /\ forall t, ~ In 125%N (_stripNameSpace t).
Proof.
  apply (_stripNameSpace_qname ns_main (str "row")).
  intros H. vm_compute in H. repeat destruct H as [H|H]; try discriminate H.
  exact H.
Defined.

(* ------------------------------------------------------------------ *)
(** ** Shared strings *)
(* ------------------------------------------------------------------ *)

Lemma fold_left_si_strings (l : list element) (acc : list (option pystr)) :
  fold_left (fun shared_strings si =>
               match find si t_tag with
               | Some t => shared_strings ++ [text t]
               | None => shared_strings
               end) l acc
  = acc ++ flat_map si_strings l.
Proof.
  revert acc; induction l as [|si l IH]; intros acc; simpl.
  - now rewrite app_nil_r.
  - rewrite IH. unfold si_strings at 2.
    destruct (find si t_tag); simpl; [now rewrite <- app_assoc|reflexivity].
Qed.

Lemma flat_map_singletons {A B : Type} (f : A -> list B) (g : A -> B)
      (l : list A) :
  (forall x, In x l -> f x = [g x]) -> flat_map f l = map g l.
Proof.
  induction l as [|x l IH]; intros H; simpl; [reflexivity|].
  rewrite (H x) by now left. simpl. f_equal. apply IH.
  intros y Hy. apply H. now right.
Qed.

(** X2. The shared strings are the texts of the [t] children of the
    [si] elements that have one, in document order.  When a [si]
    element has no [t] child of its own, nothing is recorded for it and
    the strings of the elements after it move down by one index; when
    every element has one, there is a string per element. *)
Theorem _loadSharedStrings_skips_si_without_t (a : archive) (root : element) :
  _loadXml a (str "xl/sharedStrings.xml") = Ok root ->
  _loadSharedStrings a = Ok (flat_map si_strings (findall root si_tag))
  /\ (forall before si after,
         findall root si_tag = before ++ si :: after ->
         find si t_tag = None ->
         _loadSharedStrings a
         = Ok (flat_map si_strings before ++ flat_map si_strings after))
  /\ ((forall si, In si (findall root si_tag) -> find si t_tag <> None) ->
      exists strings,
        _loadSharedStrings a = Ok strings
        /\ length strings = length (findall root si_tag)).
Proof.
  intros Hx.
  assert (H : _loadSharedStrings a
              = Ok (flat_map si_strings (findall root si_tag))).
  { unfold _loadSharedStrings. rewrite Hx. cbn [bind].
    now rewrite fold_left_si_strings. }
  split; [exact H|]. split.
  - intros before si after Hs Hsi. rewrite H, Hs, flat_map_app. simpl.
    unfold si_strings at 2. now rewrite Hsi.
  - intros Hall. eexists. split; [exact H|].
    rewrite (flat_map_singletons si_strings
               (fun si => match find si t_tag with
                          | Some t => text t
                          | None => None
                          end)).
    + apply length_map.
    + intros si Hin. unfold si_strings. specialize (Hall si Hin).
      destruct (find si t_tag); [reflexivity|congruence].
Qed.

Lemma _loadSharedStrings_skips_si_without_t_witness :
  _loadSharedStrings [(str "xl/sharedStrings.xml", Xml sharedStrings_rich_xml)]
  = Ok [Some (str "Quality"); Some (str "Friction")].
Proof.
  exact (proj1 (_loadSharedStrings_skips_si_without_t
                  [(str "xl/sharedStrings.xml", Xml sharedStrings_rich_xml)]
                  sharedStrings_rich_xml eq_refl)).
Defined.

(* ------------------------------------------------------------------ *)
(** ** Relationships *)
(* ------------------------------------------------------------------ *)

Lemma option_str_eqb_eq (a b : option pystr) :
  option_str_eqb a b = true <-> a = b.
Proof.
  destruct a as [x|], b as [y|]; simpl; try (split; congruence).
  rewrite str_eqb_eq. split; congruence.
Qed.

(** Lookup after assignment, for keys compared by an equality test. *)
Lemma dict_get_set {K V : Type} (keq : K -> K -> bool) :
  (forall x y, keq x y = true <-> x = y) ->
  forall (d : dict K V) (k k' : K) (v : V),
    dict_get keq (dict_set keq d k v) k'
    = if keq k k' then Some v else dict_get keq d k'.
Proof.
  intros Hk d k k' v. induction d as [|[k1 v1] d IH]; simpl; [reflexivity|].
  destruct (keq k1 k) eqn:E1; simpl.
  - apply Hk in E1. subst k1. destruct (keq k k'); reflexivity.
  - destruct (keq k1 k') eqn:E2; [|exact IH].
    apply Hk in E2. subst k1. destruct (keq k k') eqn:E3; [|reflexivity].
    apply Hk in E3. subst k'. rewrite (proj2 (Hk k k) eq_refl) in E1.
    discriminate.
Qed.

Lemma _loadRels_fold (l : list element) (id : option pystr)
      (rels : dict (option pystr) (option pystr)) :
  dict_get option_str_eqb
    (fold_left
       (fun rels child =>
          if str_eqb (str "Relationship") (_stripNameSpace (tag child))
          then dict_set option_str_eqb rels
                 (attrib_get child (str "Id")) (attrib_get child (str "Target"))
          else rels) l rels) id
  = match last_relationship l id with
    | Some target => Some target
    | None => dict_get option_str_eqb rels id
    end.
Proof.
  revert rels; induction l as [|child l IH]; intros rels;
    cbn [fold_left last_relationship]; [reflexivity|].
  rewrite IH. destruct (last_relationship l id); [reflexivity|].
  unfold is_relationship.
  destruct (str_eqb (str "Relationship") (_stripNameSpace (tag child)));
    cbn [andb]; [|reflexivity].
  rewrite (dict_get_set option_str_eqb option_str_eqb_eq).
  destruct (option_str_eqb (attrib_get child (str "Id")) id); reflexivity.
Qed.

(** X3. In the relationship map, an id is mapped to the target of the
    last element with that id whose tag, without its namespace, is
    [Relationship]; elements with another tag are not recorded, and an
    id that no such element has is not a key. *)
Theorem _loadRels_last_wins (a : archive) (root : element)
        (rels : dict (option pystr) (option pystr)) :
  _loadXml a (str "xl/_rels/workbook.xml.rels") = Ok root ->
  _loadRels a = Ok rels ->
  forall id,
    dict_get option_str_eqb rels id = last_relationship (children root) id.
Proof.
  intros Hx H id. unfold _loadRels in H. rewrite Hx in H. cbn [bind] in H.
  injection H as <-. rewrite _loadRels_fold.
  destruct (last_relationship (children root) id); reflexivity.
Qed.

Lemma _loadRels_last_wins_witness :
  _loadRels [(str "xl/_rels/workbook.xml.rels", Xml rels_twice_xml)]
  = Ok [(Some (str "rId1"), Some (str "worksheets/sheet1.xml"))]
  /\ dict_get option_str_eqb
              [(Some (str "rId1"), Some (str "worksheets/sheet1.xml"))]
              (Some (str "rId1"))
     = last_relationship (children rels_twice_xml) (Some (str "rId1")).
Proof.
  split; [reflexivity|].
  exact (_loadRels_last_wins
           [(str "xl/_rels/workbook.xml.rels", Xml rels_twice_xml)]
           rels_twice_xml
           [(Some (str "rId1"), Some (str "worksheets/sheet1.xml"))]
           eq_refl eq_refl (Some (str "rId1"))).
Defined.

(* ------------------------------------------------------------------ *)
(** ** Cell references *)
(* ------------------------------------------------------------------ *)

Section CellReferences.
Variable int_of_str : pystr -> option Z.
Variable float_of_str : pystr -> option float.
Variable sharedStrings : list (option pystr).

Local Abbreviation load_cell' :=
  (load_cell int_of_str float_of_str sharedStrings).
Local Abbreviation value_of s :=
  (ValueFromString int_of_str float_of_str (Some s)).

Lemma find_v_inline_cell (ref s : pystr) :
  find (inline_cell ref s) v_tag = Some (Element v_tag [] (Some s) []).
Proof.
  unfold find, inline_cell. cbn [children List.find tag].
  now rewrite str_eqb_refl.
Qed.

Lemma load_cell_inline_cell (row : list value) (c0 : N) (rest s : pystr) :
  load_cell' row (inline_cell (c0 :: rest) s)
  = setitem row (ord c0 - ord 65%N) (value_of s).
Proof.
  unfold load_cell. rewrite find_v_inline_cell. reflexivity.
Qed.

Lemma replace_nth_twice {A : Type} (l : list A) (k : nat) (a b : A) :
  replace_nth (replace_nth l k a) k b = replace_nth l k b.
Proof.
  revert k; induction l as [|x l IH]; intros [|k]; simpl; try reflexivity.
  now rewrite IH.
Qed.

(** X4. Only the first character of a cell reference chooses the
    column: whatever follows it, the value is stored at the index the
    character's distance from [A] resolves to, and the load fails with
    an index error when that is outside the row; so of two cells whose
    references begin alike, [A1] and [AA1] say, the second overwrites
    the first. *)
Theorem load_cell_reads_first_character
        (row : list value) (c0 : N) (rest1 rest2 s1 s2 : pystr) (k : nat) :
  resolve (length row) (ord c0 - ord 65%N) = Some k ->
  load_cell' row (inline_cell (c0 :: rest1) s1)
  = Ok (replace_nth row k (value_of s1))
  /\ foldM load_cell' row [inline_cell (c0 :: rest1) s1;
                           inline_cell (c0 :: rest2) s2]
     = Ok (replace_nth row k (value_of s2))
  /\ forall c rest s,
       resolve (length row) (ord c - ord 65%N) = None ->
       load_cell' row (inline_cell (c :: rest) s) = Raise IndexError.
Proof.
  intros Hk. split; [|split].
  - now rewrite load_cell_inline_cell, setitem_resolve, Hk.
  - cbn [foldM]. rewrite load_cell_inline_cell, setitem_resolve, Hk.
    cbn [bind].
    rewrite load_cell_inline_cell, setitem_resolve, replace_nth_length, Hk.
    cbn [bind]. now rewrite replace_nth_twice.
  - intros c rest s Hc. now rewrite load_cell_inline_cell, setitem_resolve, Hc.
Qed.

Lemma CellRef_Ok (x y : nat) :
  (Z.of_nat x < 1114047)%Z ->
  CellRef x y = Ok (N.of_nat (65 + x) :: str_of_Z (Z.of_nat y + 1)).
Proof.
  intros Hx. unfold CellRef, chr, ord. change (Z.of_N 65) with 65%Z.
  destruct ((0 <=? 65 + Z.of_nat x) && (65 + Z.of_nat x <? 1114112))%Z eqn:E.
  - cbn [bind app]. do 2 f_equal. lia.
  - apply andb_false_iff in E as [E|E];
      [apply Z.leb_gt in E|apply Z.ltb_ge in E]; lia.
Qed.

(** X5. The reference [CellRef] writes for a column is read back by
    the reader to the same column: a cell element with that reference
    is stored at index [x] of its row.  [CellRef] itself fails, with
    the [ValueError] of [chr], from column 1114047 on. *)
Theorem CellRef_read_back (row : list value) (x y : nat) (s : pystr) :
  x < length row ->
  (Z.of_nat x < 1114047)%Z ->
  exists ref,
    CellRef x y = Ok ref
    /\ load_cell' row (inline_cell ref s) = Ok (replace_nth row x (value_of s))
    /\ forall x' y', (1114047 <= Z.of_nat x')%Z ->
                     CellRef x' y' = Raise ValueError.
Proof.
  intros Hx Hc. eexists. split; [now apply CellRef_Ok|]. split.
  - rewrite load_cell_inline_cell, setitem_resolve.
    unfold ord, resolve. rewrite nat_N_Z. change (Z.of_N 65) with 65%Z.
    destruct (Z.of_nat (65 + x) - 65 <? 0)%Z eqn:E1;
      [apply Z.ltb_lt in E1; lia|].
    destruct ((Z.of_nat (65 + x) - 65 <? 0)
              || (Z.of_nat (length row) <=? Z.of_nat (65 + x) - 65))%Z eqn:E2.
    + apply orb_true_iff in E2 as [E2|E2];
        [apply Z.ltb_lt in E2|apply Z.leb_le in E2]; lia.
    + do 2 f_equal. lia.
  - intros x' y' Hx'. unfold CellRef, chr, ord. change (Z.of_N 65) with 65%Z.
    destruct ((0 <=? 65 + Z.of_nat x') && (65 + Z.of_nat x' <? 1114112))%Z
      eqn:E; [|reflexivity].
    apply andb_true_iff in E as [_ E]. apply Z.ltb_lt in E. lia.
Qed.

(* ------------------------------------------------------------------ *)
(** ** The length of a row *)
(* ------------------------------------------------------------------ *)

Lemma load_cell_written (row row' : list value) (c_node : element) :
  load_cell' row c_node = Ok row' ->
  find c_node v_tag <> None ->
  exists k, written_slot (length row) c_node = Some k.
Proof.
  unfold load_cell, written_slot, attrib_item, attrib_get, dict_item.
  destruct (dict_get str_eqb (attrib c_node) (str "r")) as [ref|];
    [|discriminate]. cbn [bind].
  destruct ref as [|c0 ref]; [discriminate|].
  change (getitem (c0 :: ref) 0) with (Ok (A := N) c0). cbn [bind].
  destruct (find c_node v_tag) as [v_node|]; [|congruence].
  intros H _.
  assert (Hs : exists v, setitem row (ord c0 - ord 65%N) v = Ok row').
  { destruct (option_str_eqb _ _) in H; [|eauto].
    apply bind_Ok in H as (i & _ & H). apply bind_Ok in H as (s & _ & H).
    eauto. }
  destruct Hs as [v Hs]. rewrite setitem_resolve in Hs.
  destruct (resolve (length row) (ord c0 - ord 65%N)); [eauto|discriminate].
Qed.

Lemma load_cells_written (cells : list element) (row row' : list value) :
  foldM load_cell' row cells = Ok row' ->
  forall c, In c cells -> find c v_tag <> None ->
            exists k, written_slot (length row) c = Some k.
Proof.
  revert row; induction cells as [|c0 cells IH]; intros row H c Hin Hv;
    [destruct Hin|].
  cbn [foldM] in H. apply bind_Ok in H as (row1 & H1 & H).
  destruct Hin as [->|Hin].
  - eapply load_cell_written; eauto.
  - apply (load_cell_frame int_of_str float_of_str sharedStrings) in H1
      as [Hl _].
    rewrite <- Hl. eapply IH; eauto.
Qed.

(** X6. The row read from a row element is as long as the number after
    the colon of its [spans] attribute says (empty when that is not
    positive), however many cells it has; and every one of its cells
    that has a value lies within that length, a cell beyond it making
    the load fail instead. *)
Theorem load_row_length (row_node : element) (r : Z) (row : list value) :
  load_row int_of_str float_of_str sharedStrings row_node = Ok (r, row) ->
  exists spans len,
    attrib_get row_node (str "spans") = Some spans
    /\ int_of_str (slice_from spans (find_char 58%N spans + 1)) = Some len
    /\ length row = Z.to_nat len
    /\ forall c, In c (findall row_node c_tag) -> find c v_tag <> None ->
                 exists k, written_slot (length row) c = Some k
                           /\ k < length row.
Proof.
  unfold load_row. intros H.
  apply bind_Ok in H as (spans & Hs & H).
  apply bind_Ok in H as (len & Hlen & H).
  apply bind_Ok in H as (row1 & Hcells & H).
  apply bind_Ok in H as (r1 & _ & H). injection H as <- <-.
  exists spans, len.
  assert (Hl : length row1 = Z.to_nat len).
  { apply (load_cells_frame int_of_str float_of_str sharedStrings)
      in Hcells as [Hl _].
    rewrite Hl. unfold repeatZ. apply repeat_length. }
  split; [|split; [|split]].
  - unfold attrib_item, dict_item in Hs. unfold attrib_get.
    destruct (dict_get str_eqb (attrib row_node) (str "spans"));
      [now injection Hs as ->|discriminate].
  - unfold py_int in Hlen.
    destruct (int_of_str (slice_from spans (find_char 58%N spans + 1)));
      [now injection Hlen as ->|discriminate].
  - exact Hl.
  - intros c Hin Hv.
    destruct (load_cells_written _ _ _ Hcells c Hin Hv) as [k Hk].
    unfold repeatZ in Hk. rewrite repeat_length, <- Hl in Hk.
    exists k. split; [assumption|].
    unfold written_slot in Hk.
    destruct (find c v_tag); [|discriminate].
    destruct (attrib_get c (str "r")) as [[|c0 ref]|]; try discriminate.
    eapply resolve_lt; eauto.
Qed.
End CellReferences.

Lemma load_cell_reads_first_character_witness :
  load_cell ascii_int_of_str ascii_float_of_str [] [VNone; VNone]
            (inline_cell (str "AA1") (str "7"))
  = Ok [VInt 7; VNone]
  /\ foldM (load_cell ascii_int_of_str ascii_float_of_str []) [VNone; VNone]
           [inline_cell (str "A1") (str "42");
            inline_cell (str "AA1") (str "7")]
     = Ok [VInt 7; VNone]
  /\ load_cell ascii_int_of_str ascii_float_of_str [] [VNone; VNone]
               (inline_cell (str "C1") (str "7"))
     = Raise IndexError.
Proof.
  destruct (load_cell_reads_first_character
              ascii_int_of_str ascii_float_of_str [] [VNone; VNone]
              65%N (str "A1") (str "A1") (str "7") (str "7") 0 eq_refl)
    as (H1 & _ & H3).
  destruct (load_cell_reads_first_character
              ascii_int_of_str ascii_float_of_str [] [VNone; VNone]
              65%N (str "1") (str "A1") (str "42") (str "7") 0 eq_refl)
    as (_ & H2 & _).
  split; [exact H1|]. split; [exact H2|].
  exact (H3 67%N (str "1") (str "7") eq_refl).
Defined.

Lemma CellRef_read_back_witness :
  exists ref,
    CellRef 2 6 = Ok ref
    /\ ref = str "C7"
    /\ load_cell ascii_int_of_str ascii_float_of_str []
                 [VNone; VNone; VNone] (inline_cell ref (str "abc"))
       = Ok [VNone; VNone; VStr (str "abc")].
Proof.
  destruct (CellRef_read_back ascii_int_of_str ascii_float_of_str []
              [VNone; VNone; VNone] 2 6 (str "abc")
              ltac:(simpl; lia) ltac:(lia))
    as (ref & Href & Hload & _).
  exists ref. split; [exact Href|]. split; [|exact Hload].
  vm_compute in Href. now injection Href as <-.
Defined.

Lemma load_row_length_witness :
  exists spans len,
    attrib_get row_1 (str "spans") = Some spans
    /\ ascii_int_of_str (slice_from spans (find_char 58%N spans + 1)) = Some len
    /\ length [VInt 42; VNone; VStr (str "abc")] = Z.to_nat len.
Proof.
  destruct (load_row_length ascii_int_of_str ascii_float_of_str
              [Some (str "Quality"); Some (str "Source")]
              row_1 1%Z [VInt 42; VNone; VStr (str "abc")] eq_refl)
    as (spans & len & H1 & H2 & H3 & _).
  exists spans, len. auto.
Defined.

(* ------------------------------------------------------------------ *)
(** ** Row numbers below 1 *)
(* ------------------------------------------------------------------ *)

Lemma place_rows_stored (raw_rows : list (Z * list value)) (rows : grid) :
  (forall r, In r raw_rows -> resolve (length rows) (fst r - 1) <> None) ->
  exists rows',
    place_rows rows raw_rows = Ok rows'
    /\ length rows' = length rows
    /\ forall k, k < length rows ->
         nth_error rows' k =
           match last_stored raw_rows (length rows) k with
           | Some row => Some row
           | None => nth_error rows k
           end.
Proof.
  unfold place_rows. revert rows.
  induction raw_rows as [|r rest IH]; intros rows Hb; cbn [foldM last_stored].
  - exists rows. auto.
  - destruct (resolve (length rows) (fst r - 1)) as [j|] eqn:Ej;
      [|exfalso; apply (Hb r); [now left|assumption]].
    rewrite setitem_resolve, Ej. cbn [bind].
    set (rows1 := replace_nth rows j (snd r)).
    assert (Hlen : length rows1 = length rows) by apply replace_nth_length.
    destruct (IH rows1) as (rows' & Hp & Hl & Hn).
    { intros r' Hin. rewrite Hlen. apply Hb. now right. }
    exists rows'. split; [assumption|]. split; [congruence|].
    intros k Hk. rewrite Hn by lia. rewrite Hlen.
    destruct (last_stored rest (length rows) k); [reflexivity|].
    unfold rows1. rewrite nth_error_replace_nth by (eapply resolve_lt; eauto).
    rewrite (Nat.eqb_sym k j). destruct (j =? k); reflexivity.
Qed.

Lemma place_rows_unresolved (raw_rows : list (Z * list value)) (rows : grid) :
  (exists r, In r raw_rows /\ resolve (length rows) (fst r - 1) = None) ->
  place_rows rows raw_rows = Raise IndexError.
Proof.
  unfold place_rows. revert rows.
  induction raw_rows as [|r rest IH]; intros rows [r0 [Hin Hr0]];
    [destruct Hin|]. cbn [foldM]. rewrite setitem_resolve.
  destruct (resolve (length rows) (fst r - 1)) as [j|] eqn:Ej;
    [|reflexivity]. cbn [bind].
  destruct Hin as [->|Hin]; [congruence|].
  apply IH. exists r0. rewrite replace_nth_length. auto.
Qed.

(** X7. A declared row number [r] is used as the Python index
    [r - 1]: when the largest declared number is at least 1 and every
    number is above its negative, the grid has, at each index, the row
    of the last row element stored there, a row numbered 0 being
    stored at the last index and a negative one further up; when some
    number is not above the negative of the largest, or the largest is
    below 1, [loadSheetData] raises an index error. *)
Theorem loadSheetData_row_numbers_wrap
        (int_of_str : pystr -> option Z) (float_of_str : pystr -> option float)
        (wb : Workbook) (index : Z) (path : pystr) (root sd : element)
        (raw_rows : list (Z * list value)) (row_count : Z) :
  _sheetPath wb index = Ok path ->
  _loadXml (_archive wb) path = Ok root ->
  find root sheetData_tag = Some sd ->
  mapM (load_row int_of_str float_of_str (_sharedStrings wb))
       (findall sd row_tag) = Ok raw_rows ->
  py_max (map fst raw_rows) = Ok row_count ->
  ((1 <= row_count)%Z ->
   (forall r, In r raw_rows -> (- row_count < fst r)%Z) ->
   exists rows,
     loadSheetData int_of_str float_of_str wb index = Ok rows
     /\ Z.of_nat (length rows) = row_count
     /\ forall k, k < length rows ->
          nth_error rows k =
            Some (match last_stored raw_rows (length rows) k with
                  | Some row => row
                  | None => []
                  end))
  /\ ((row_count < 1)%Z
      \/ (exists r, In r raw_rows /\ (fst r <= - row_count)%Z) ->
      loadSheetData int_of_str float_of_str wb index = Raise IndexError).
Proof.
  intros Hp Hx Hf Hm Hmax.
  destruct (py_max_spec _ Hmax) as [Hin Hle].
  assert (Hload : loadSheetData int_of_str float_of_str wb index
                  = place_rows (repeatZ [] row_count) raw_rows).
  { unfold loadSheetData. rewrite Hp. cbn [bind]. rewrite Hx. cbn [bind].
    rewrite Hf, Hm. cbn [bind]. rewrite Hmax. reflexivity. }
  rewrite Hload. unfold repeatZ. split.
  - intros Hpos Hlow.
    destruct (place_rows_stored raw_rows (repeat [] (Z.to_nat row_count)))
      as (rows & Hplace & Hlen & Hnth).
    { intros r Hr. rewrite repeat_length. unfold resolve.
      specialize (Hlow r Hr). specialize (Hle (fst r) (in_map fst _ _ Hr)).
      destruct (fst r - 1 <? 0)%Z eqn:E1;
        match goal with |- context [if ?b then None else _] =>
                          destruct b eqn:E2 end; try discriminate;
        apply orb_true_iff in E2 as [E2|E2];
        [apply Z.ltb_lt in E2| apply Z.leb_le in E2
         |apply Z.ltb_lt in E2| apply Z.leb_le in E2];
        try apply Z.ltb_lt in E1; try apply Z.ltb_ge in E1; lia. }
    rewrite repeat_length in Hlen, Hnth.
    exists rows. split; [assumption|]. split; [lia|].
    intros k Hk. rewrite Hnth by lia. rewrite Hlen.
    destruct (last_stored raw_rows (Z.to_nat row_count) k); [reflexivity|].
    now rewrite nth_error_repeat by lia.
  - intros Hbad. apply place_rows_unresolved. rewrite repeat_length.
    assert (Hr : exists r, In r raw_rows
                           /\ ((row_count < 1)%Z \/ (fst r <= - row_count)%Z)).
    { destruct Hbad as [Hlt|[r [Hr Hlow]]]; [|eauto].
      apply in_map_iff in Hin as (r & Hfst & Hr). eauto. }
    destruct Hr as (r & Hr & Hcase). exists r. split; [assumption|].
    specialize (Hle (fst r) (in_map fst _ _ Hr)).
    unfold resolve.
    destruct (fst r - 1 <? 0)%Z eqn:E1;
      match goal with |- context [if ?b then None else _] =>
                        destruct b eqn:E2 end; try reflexivity;
      apply orb_false_iff in E2 as [E2 E3];
      apply Z.ltb_ge in E2; apply Z.leb_gt in E3;
      try apply Z.ltb_lt in E1; try apply Z.ltb_ge in E1; lia.
Qed.

Lemma loadSheetData_row_numbers_wrap_witness :
  loadSheetData ascii_int_of_str ascii_float_of_str
                (workbook_of sheet_row_zero) 0
  = Ok [[]; [VStr (str "zero")]]
  /\ loadSheetData ascii_int_of_str ascii_float_of_str
                   (workbook_of sheet_only_row_zero) 0
     = Raise IndexError.
Proof.
  split.
  - vm_compute. reflexivity.
  - apply (proj2 (loadSheetData_row_numbers_wrap
                    ascii_int_of_str ascii_float_of_str
                    (workbook_of sheet_only_row_zero) 0
                    (str "xl/worksheets/sheet1.xml") sheet_only_row_zero
                    (el "sheetData" [] None
                        [row_el "0" "1:1" [c_inline "A0" "zero"]])
                    [(0%Z, [VStr (str "zero")])] 0%Z
                    eq_refl eq_refl eq_refl eq_refl eq_refl)).
    left. lia.
Defined.

(* ================================================================== *)
(** * Further properties of the table extractor *)
(* ================================================================== *)

(* ------------------------------------------------------------------ *)
(** ** A row as long as the header column index *)
(* ------------------------------------------------------------------ *)

Lemma header_map_short_row (rows : grid) (hc : nat) :
  forall (n start i : nat) (m : dict value nat),
    start + n <= length rows ->
    start <= i < start + n ->
    length (row_at rows i) = hc ->
    foldM (fun header_to_row_map row_index =>
             row <- item rows row_index ;;
             if hc <=? length row
             then header_name <- item row hc ;;
                  if truthy header_name
                  then Ok (dict_set py_eq header_to_row_map header_name
                                    row_index)
                  else Ok header_to_row_map
             else Ok header_to_row_map)
          m (seq start n)
    = Raise IndexError.
Proof.
  induction n as [|n IH]; intros start i m Hlen Hi Hrow; [lia|].
  cbn [seq foldM]. rewrite (@item_row_at rows start) by lia. cbn [bind].
  destruct (Nat.eq_dec start i) as [->|Hne].
  - rewrite Hrow, Nat.leb_refl. unfold item.
    rewrite (proj2 (nth_error_None (row_at rows i) hc)) by lia.
    reflexivity.
  - assert (Hrest : forall m', foldM
             (fun header_to_row_map row_index =>
                row <- item rows row_index ;;
                if hc <=? length row
                then header_name <- item row hc ;;
                     if truthy header_name
                     then Ok (dict_set py_eq header_to_row_map header_name
                                       row_index)
                     else Ok header_to_row_map
                else Ok header_to_row_map)
             m' (seq (S start) n) = Raise IndexError)
      by (intros m'; apply (IH (S start) i); lia).
    destruct (hc <=? length (row_at rows start)); [|apply Hrest].
    unfold item at 1.
    destruct (nth_error (row_at rows start) hc) as [header_name|];
      [|reflexivity]. cbn [bind].
    destruct (truthy header_name); cbn [bind]; apply Hrest.
Qed.

(** X8. When a row above the header row has exactly as many cells as
    the index of the header column, a title in column A over labels in
    column B say, the extraction does not skip the row: it raises an
    index error. *)
Theorem short_row_above_header_raises (rows : grid) (hr hc i : nat) :
  find_header_row rows 0 = Some (S hr) ->
  find_header_column rows (seq 0 (S hr)) None = Ok (Some (S hc)) ->
  i < S hr ->
  length (row_at rows i) = S hc ->
  _loadBatchParameters_rows rows = Some (Raise IndexError).
Proof.
  intros Hhr Hhc Hi Hrow.
  pose proof (@find_header_row_lt _ _ _ Hhr) as Hlt.
  unfold _loadBatchParameters_rows, locate_table. rewrite Hhr.
  rewrite (@item_row_at rows (S hr)) by lia. cbn [bind]. rewrite Hhc.
  cbn [bind]. unfold build_header_to_row_map.
  rewrite (header_map_short_row rows (S hc) (S hr) 0 i) by (simpl; lia).
  reflexivity.
Qed.

Lemma short_row_above_header_raises_witness :
  _loadBatchParameters_rows grid_with_title = Some (Raise IndexError).
Proof.
  apply (short_row_above_header_raises grid_with_title 3 0 0);
    try reflexivity. lia.
Defined.

(* ------------------------------------------------------------------ *)
(** ** Scalar parameters *)
(* ------------------------------------------------------------------ *)

Lemma read_parameters_falsy (rows : grid) (c : nat) :
  forall (before after : dict value nat) (param : value) (row_index : nat)
         (acc : dict value value),
    (forall kv, In kv before ->
                snd kv < length rows
                /\ truthy (cell (row_at rows (snd kv)) c) = true) ->
    row_index < length rows ->
    truthy (cell (row_at rows row_index) c) = false ->
    foldM (fun parameters (kv : value * nat) =>
             let (param, row_index) := kv in
             row <- item rows row_index ;;
             let value := cell row c in
             if negb (truthy value)
             then ref <- CellRef c row_index ;;
                  Raise (Exception (str "Expected %s value in cell %s")
                                   [param; VStr ref])
             else Ok (dict_set py_eq parameters param value))
          acc (before ++ (param, row_index) :: after)
    = (ref <- CellRef c row_index ;;
       Raise (Exception (str "Expected %s value in cell %s")
                        [param; VStr ref])).
Proof.
  induction before as [|[p r] before IH];
    intros after param row_index acc Hb Hr Hf.
  - cbn [app foldM]. rewrite (@item_row_at rows row_index Hr). cbn [bind].
    rewrite Hf. cbn [negb]. destruct (CellRef c row_index); reflexivity.
  - cbn [app foldM]. destruct (Hb (p, r) (or_introl eq_refl)) as [Hr0 Ht0].
    cbn [snd] in Hr0, Ht0. rewrite (@item_row_at rows r Hr0). cbn [bind].
    rewrite Ht0. cbn [negb bind]. apply IH; try assumption.
    intros kv Hkv. apply Hb. now right.
Qed.

(** X9. The scalar cells of a group must be truthy: when the cell of a
    row-header row in the first column of the first group is empty or
    holds a zero, the extraction fails naming the label and the cell,
    although [columnValues] accepts the same zero in a data column. *)
Theorem zero_scalar_is_rejected
        (rows : grid) (t : table) (before after : dict value nat)
        (param : value) (row_index : nat) :
  locate_table rows = Ok t ->
  header_to_row_map t = before ++ (param, row_index) :: after ->
  (forall kv, In kv before ->
              snd kv < length rows
              /\ truthy (cell (row_at rows (snd kv)) (headerColumnIndex t + 1))
                 = true) ->
  row_index < length rows ->
  truthy (cell (row_at rows row_index) (headerColumnIndex t + 1)) = false ->
  headerColumnIndex t + 1 < length (network_name_row t) ->
  labelled t (headerColumnIndex t + 1) = true ->
  headerColumnIndex t + 1 <= 25 ->
  _loadBatchParameters_rows rows
  = Some (Raise (Exception
                   (str "Expected %s value in cell %s")
                   [param;
                    VStr (N.of_nat (65 + (headerColumnIndex t + 1))
                          :: str_of_Z (Z.of_nat row_index + 1))]))
  /\ truthy (VInt 0) = false
  /\ forall row c, c < length row -> cell row c = VInt 0 ->
                   cell_present row c = true.
Proof.
  intros Ht Hmap Hb Hr Hf Hn Hl Hc. split; [|split].
  - unfold _loadBatchParameters_rows. rewrite Ht.
    cbn [read_parameter_sets]. apply Nat.ltb_lt in Hn. rewrite Hn.
    unfold labelled in Hl. apply andb_true_iff in Hl as [Hl1 Hl2].
    rewrite Hl1, Hl2. cbn [andb].
    unfold read_parameters. rewrite Hmap.
    rewrite (read_parameters_falsy rows _ before after param row_index [])
      by assumption.
    now rewrite CellRef_letter.
  - reflexivity.
  - intros row c Hlt Hz. unfold cell_present. rewrite Hz.
    apply andb_true_iff. split; [now apply Nat.ltb_lt|reflexivity].
Qed.

Lemma zero_scalar_is_rejected_witness :
  _loadBatchParameters_rows grid_zero_threshold
  = Some (Raise (Exception (str "Expected %s value in cell %s")
                           [VStr (str "Network threshold"); VStr (str "C3")])).
Proof.
  apply (proj1 (zero_scalar_is_rejected
                  grid_zero_threshold (table_of grid_zero_threshold)
                  [(VStr NAME_PARAM, 0); (VStr DISPERSAL_PARAM, 1)] []
                  (VStr (str "Network threshold")) 2
                  eq_refl eq_refl
                  ltac:(intros kv [<-|[<-|[]]]; split; simpl; try lia;
                        reflexivity)
                  ltac:(simpl; lia) eq_refl ltac:(simpl; lia) eq_refl
                  ltac:(simpl; lia))).
Defined.

(* ------------------------------------------------------------------ *)
(** ** How many sets *)
(* ------------------------------------------------------------------ *)

Section SetCount.
Variable rows : grid.
Variable headerRow : list value.
Variable headerRowIndex : nat.
Variable header_to_row_map : dict value nat.
Variable name_row : list value.
Variable biotopeCodes : list value.

Lemma read_parameter_sets_count :
  forall (fuel cur : nat) (acc sets : list ParameterSet),
    read_parameter_sets rows headerRow headerRowIndex header_to_row_map
                        name_row biotopeCodes fuel cur acc
    = Some (Ok sets) ->
    length sets <= length acc + (length headerRow - cur).
Proof.
  induction fuel as [|fuel IH]; intros cur acc sets;
    cbn [read_parameter_sets]; [discriminate|].
  destruct ((cur <? length name_row) && (cur <? length headerRow)
            && truthy (cell headerRow cur)) eqn:Hc;
    [|intros [= <-]; lia].
  apply andb_true_iff in Hc as [Hc Ht]. apply andb_true_iff in Hc as [_ Hc].
  destruct (read_parameters _ _ _) as [parameters|]; [|discriminate].
  destruct (read_columns _ _ _ _ _ _ _ _) as [[[cols cur']|]|] eqn:E;
    try discriminate.
  destruct (foldM _ _ _); [|discriminate].
  intros H. apply IH in H. rewrite length_app in H. cbn [length] in H.
  apply read_columns_advances in E as [_ E].
  rewrite Hc, Ht in E. specialize (E eq_refl).
  apply Nat.ltb_lt in Hc. lia.
Qed.
End SetCount.

(** X10. The extraction from a grid always comes to an end, each turn
    of its loops moving at least one column to the right; and it
    returns at most one parameter set for each column of the header
    row to the right of the header column. *)
Theorem parameter_sets_bounded_by_columns (rows : grid) (t : table) :
  locate_table rows = Ok t ->
  exists r,
    _loadBatchParameters_rows rows = Some r
    /\ forall bp, r = Ok bp ->
         length (parameterSets bp)
         <= length (headerRow t) - (headerColumnIndex t + 1).
Proof.
  intros Ht. destruct (_loadBatchParameters_rows_finishes rows) as [r Hr].
  exists r. split; [assumption|]. intros bp ->.
  unfold _loadBatchParameters_rows in Hr. rewrite Ht in Hr.
  destruct (read_parameter_sets _ _ _ _ _ _ _ _ _) as [[sets|]|] eqn:E;
    try discriminate.
  injection Hr as <-. cbn [parameterSets].
  apply read_parameter_sets_count in E. simpl in E. lia.
Qed.

Lemma parameter_sets_bounded_by_columns_witness :
  exists r,
    _loadBatchParameters_rows grid_adjacent = Some r
    /\ forall bp, r = Ok bp -> length (parameterSets bp) <= 8 - (1 + 1).
Proof.
  exact (parameter_sets_bounded_by_columns grid_adjacent
           (table_of grid_adjacent) eq_refl).
Defined.

(** X11. In a grid whose table is located (the header row, the
    header column, the biotope codes and the required row labels were
    found): when the column right of the header column has no label in
    the header row, or the header row or the name row does not reach
    it, the extraction succeeds with the biotope codes and no
    parameter set at all. *)
Theorem table_without_groups_gives_no_sets (rows : grid) (t : table) :
  locate_table rows = Ok t ->
  table_ends t (headerColumnIndex t + 1) = true ->
  _loadBatchParameters_rows rows
  = Some (Ok (mkBatchParameters (table_codes t) [])).
Proof.
  intros Ht Hend. unfold _loadBatchParameters_rows. rewrite Ht.
  now rewrite read_parameter_sets_end.
Qed.

Lemma table_without_groups_gives_no_sets_witness :
  _loadBatchParameters_rows grid_no_groups
  = Some (Ok (mkBatchParameters [VInt 1; VInt 0] [])).
Proof.
  exact (table_without_groups_gives_no_sets grid_no_groups
           (table_of grid_no_groups) eq_refl eq_refl).
Defined.

(* ------------------------------------------------------------------ *)
(** ** Text keys *)
(* ------------------------------------------------------------------ *)

Lemma py_eq_str_l (s : pystr) (k : value) :
  py_eq (VStr s) k = true <-> k = VStr s.
Proof.
  destruct k as [|n|f|u]; simpl; try (split; [discriminate|congruence]).
  rewrite str_eqb_eq. split; congruence.
Qed.

Lemma py_eq_str_r (s : pystr) (k : value) :
  py_eq k (VStr s) = true <-> k = VStr s.
Proof.
  destruct k as [|n|f|u]; simpl; try (split; [discriminate|congruence]).
  rewrite str_eqb_eq. split; congruence.
Qed.

Lemma dict_get_str_In {V : Type} (d : dict value V) (n : pystr) (v : V) :
  dict_get py_eq d (VStr n) = Some v -> In (VStr n, v) d.
Proof.
  induction d as [|[k w] d IH]; simpl; [discriminate|].
  destruct (py_eq k (VStr n)) eqn:E.
  - apply py_eq_str_r in E. subst k. intros [= ->]. now left.
  - intros H. right. now apply IH.
Qed.

Lemma dict_get_str_key {V : Type} (d : dict value V) (n : pystr) :
  In (VStr n) (map fst d) -> exists v, dict_get py_eq d (VStr n) = Some v.
Proof.
  induction d as [|[k w] d IH]; simpl; [intros []|].
  destruct (py_eq k (VStr n)) eqn:E; [eauto|].
  intros [->|H]; [|now apply IH].
  rewrite (proj2 (py_eq_str_r n (VStr n)) eq_refl) in E. discriminate.
Qed.

Lemma dict_set_keys_str {V : Type} (d : dict value V) (k : value) (v : V)
      (n : pystr) :
  In (VStr n) (map fst d) \/ k = VStr n ->
  In (VStr n) (map fst (dict_set py_eq d k v)).
Proof.
  induction d as [|[k1 w] d IH]; simpl.
  - intros [[]| ->]. now left.
  - destruct (py_eq k1 k) eqn:E; simpl.
    + intros [H| ->]; [exact H|].
      apply py_eq_str_r in E. now left.
    + intros [[H|H]| ->]; [now left|right; apply IH; now left|].
      right. apply IH. now right.
Qed.

Lemma first_present_Some {V : Type} (d : dict value V) (names : list pystr)
      (v : V) :
  first_present d names = Some v ->
  exists n, In n names /\ dict_get py_eq d (VStr n) = Some v.
Proof.
  induction names as [|n names IH]; simpl; [discriminate|].
  destruct (dict_get py_eq d (VStr n)) as [w|] eqn:E.
  - intros [= <-]. exists n. auto.
  - intros H. destruct (IH H) as (m & Hm & Hg). exists m. auto.
Qed.

Lemma first_present_found {V : Type} (d : dict value V) (names : list pystr)
      (n : pystr) :
  In n names -> In (VStr n) (map fst d) ->
  exists v, first_present d names = Some v.
Proof.
  induction names as [|m names IH]; intros Hin Hk; [destruct Hin|]. simpl.
  destruct (dict_get py_eq d (VStr m)) as [w|] eqn:E; [eauto|].
  destruct Hin as [->|Hin]; [|now apply IH].
  destruct (dict_get_str_key d n Hk) as [v Hv]. congruence.
Qed.

Lemma parameter_loop_found (d : dict value value) (names : list pystr)
      (name : option pystr) (v : value) :
  Forall (fun kv => truthy (snd kv) = true) d ->
  first_present d names = Some v ->
  parameter_loop d names name = Ok v /\ truthy v = true.
Proof.
  intros Hd. revert name; induction names as [|n names IH]; intros name;
    simpl; [discriminate|].
  destruct (dict_get py_eq d (VStr n)) as [w|] eqn:E; [|apply IH].
  intros [= <-]. apply dict_get_str_In in E.
  rewrite Forall_forall in Hd. specialize (Hd _ E). simpl in Hd.
  destruct w; try discriminate; auto.
Qed.

Lemma column_loop_found (d : dict value (list value)) (names : list pystr)
      (name : option pystr) (c : list value) :
  first_present d names = Some c -> column_loop d names name = Ok c.
Proof.
  revert name; induction names as [|n names IH]; intros name; simpl;
    [discriminate|].
  destruct (dict_get py_eq d (VStr n)); [now intros [= <-]|apply IH].
Qed.

(* ------------------------------------------------------------------ *)
(** ** What a successful extraction has checked *)
(* ------------------------------------------------------------------ *)

Lemma read_parameters_truthy_keys (rows : grid) (c : nat) :
  forall (m : dict value nat) (acc params : dict value value),
    foldM (fun parameters (kv : value * nat) =>
             let (param, row_index) := kv in
             row <- item rows row_index ;;
             let value := cell row c in
             if negb (truthy value)
             then ref <- CellRef c row_index ;;
                  Raise (Exception (str "Expected %s value in cell %s")
                                   [param; VStr ref])
             else Ok (dict_set py_eq parameters param value))
          acc m = Ok params ->
    Forall (fun kv => truthy (snd kv) = true) acc ->
    Forall (fun kv => truthy (snd kv) = true) params
    /\ forall n, In (VStr n) (map fst acc) \/ In (VStr n) (map fst m) ->
                 In (VStr n) (map fst params).
Proof.
  induction m as [|[param row_index] m IH]; intros acc params H Hacc.
  - cbn [foldM] in H. injection H as <-. split; [assumption|].
    intros n [Hn|[]]. exact Hn.
  - cbn [foldM] in H. apply bind_Ok in H as (acc1 & H1 & H).
    apply bind_Ok in H1 as (row & _ & H1).
    destruct (truthy (cell row c)) eqn:Et; cbn [negb] in H1;
      [|destruct (CellRef c row_index); discriminate].
    injection H1 as <-.
    destruct (IH _ _ H) as [Ht Hk].
    { now apply (dict_set_Forall py_eq (fun v => truthy v = true)). }
    split; [assumption|]. intros n Hn. apply Hk.
    destruct Hn as [Hn|[Hn|Hn]]; [left|left|right; exact Hn];
      apply dict_set_keys_str; auto.
Qed.

Lemma check_row_headers_present (m : dict value nat)
      (l : list name_or_nameList) (u : unit) :
  foldM (fun _ p => check_row_header m p) tt l = Ok u ->
  forall p, In p l -> exists r, first_present m (names_of p) = Some r.
Proof.
  induction l as [|x l IH]; intros H p Hin; [destruct Hin|].
  cbn [foldM] in H. apply bind_Ok in H as ([] & Hx & H).
  destruct Hin as [->|Hin]; [|now apply IH].
  unfold check_row_header in Hx.
  destruct (first_present m (names_of p)) as [r|]; [eauto|].
  destruct (length (names_of p) =? 1); [|discriminate].
  destruct (item (names_of p) 0); discriminate.
Qed.

Lemma check_columns_found (parameters : dict value value)
      (cols : dict value (list value)) (l : list name_or_nameList) (u : unit) :
  foldM (fun _ c => check_column parameters cols c) tt l = Ok u ->
  forall c, In c l -> exists col, first_present cols (names_of c) = Some col.
Proof.
  induction l as [|x l IH]; intros H c Hin; [destruct Hin|].
  cbn [foldM] in H. apply bind_Ok in H as ([] & Hx & H).
  destruct Hin as [->|Hin]; [|now apply IH].
  unfold check_column in Hx.
  destruct (first_present cols (names_of c)) as [col|]; [eauto|].
  destruct (length (names_of c) =? 1).
  - destruct (item (names_of c) 0); [|discriminate]. cbn [bind] in Hx.
    destruct (dict_item py_eq parameters (VStr NAME_PARAM)); discriminate.
  - destruct (dict_item py_eq parameters (VStr NAME_PARAM)); discriminate.
Qed.

Section EachSet.
Variable rows : grid.
Variable headerRow : list value.
Variable headerRowIndex : nat.
Variable header_to_row_map : dict value nat.
Variable name_row : list value.
Variable biotopeCodes : list value.
Variable P : ParameterSet -> Prop.

Hypothesis P_of_turn :
  forall (cur cur' fuel : nat) (parameters : dict value value)
         (cols : dict value (list value)) (u : unit),
    read_parameters rows header_to_row_map cur = Ok parameters ->
    read_columns rows headerRow headerRowIndex name_row biotopeCodes
                 fuel cur [] = Some (Ok (cols, cur')) ->
    foldM (fun _ c => check_column parameters cols c) tt COLUMNS = Ok u ->
    P (mkParameterSet parameters cols).

Lemma read_parameter_sets_each :
  forall (fuel cur : nat) (acc sets : list ParameterSet),
    read_parameter_sets rows headerRow headerRowIndex header_to_row_map
                        name_row biotopeCodes fuel cur acc
    = Some (Ok sets) ->
    Forall P acc -> Forall P sets.
Proof.
  induction fuel as [|fuel IH]; intros cur acc sets;
    cbn [read_parameter_sets]; [discriminate|].
  destruct (_ && _); [|now intros [= <-]].
  destruct (read_parameters _ _ _) as [parameters|] eqn:Ep; [|discriminate].
  destruct (read_columns _ _ _ _ _ _ _ _) as [[[cols cur']|]|] eqn:Ec;
    try discriminate.
  destruct (foldM _ _ _) as [u|] eqn:Ek; [|discriminate].
  intros H Hacc. eapply IH; [exact H|].
  apply Forall_app. split; [assumption|].
  constructor; [|constructor]. eapply P_of_turn; eauto.
Qed.
End EachSet.

Lemma locate_table_parts (rows : grid) (t : table) :
  locate_table rows = Ok t ->
  build_header_to_row_map rows (headerRowIndex t) (headerColumnIndex t)
  = Ok (header_to_row_map t)
  /\ (forall p, In p PARAMS ->
                exists r, first_present (header_to_row_map t) (names_of p)
                          = Some r).
Proof.
  unfold locate_table.
  destruct (find_header_row rows 0) as [[|hr]|]; try discriminate.
  intros H. apply bind_Ok in H as (hrow & _ & H).
  apply bind_Ok in H as ([[|hc]|] & _ & H); try discriminate.
  apply bind_Ok in H as (m & Hm & H).
  apply bind_Ok in H as (code_column & _ & H).
  apply bind_Ok in H as (codes & _ & H).
  apply bind_Ok in H as (u & Hu & H).
  apply bind_Ok in H as (name_row_index & _ & H).
  apply bind_Ok in H as (name_row & _ & H).
  injection H as <-. cbn [headerRowIndex headerColumnIndex header_to_row_map].
  split; [exact Hm|]. eapply check_row_headers_present; eauto.
Qed.

(** X12. Every parameter set of a successful extraction answers the
    lookups [processAlgorithm] makes: [parameter] returns a truthy
    value for the name, the dispersal distance and the threshold, the
    last under either of its labels; [column] returns a list as long
    as the codes for quality, source and friction; and
    [parameters['Network name']] is there.  The failing branch of the
    two methods is never reached on such a set. *)
Theorem extracted_sets_answer_lookups (rows : grid) (bp : BatchParameters) :
  _loadBatchParameters_rows rows = Some (Ok bp) ->
  Forall (answers_lookups (biotopeCodes bp)) (parameterSets bp).
Proof.
  unfold _loadBatchParameters_rows.
  destruct (locate_table rows) as [t|] eqn:Ht; [|discriminate].
  destruct (read_parameter_sets _ _ _ _ _ _ _ _ _) as [[sets|]|] eqn:E;
    try discriminate.
  intros [= <-]. cbn [biotopeCodes parameterSets].
  destruct (locate_table_parts rows t Ht) as [_ Hparams].
  eapply read_parameter_sets_each; [|exact E|constructor].
  intros cur cur' fuel params cols u Hp Hc Hk.
  unfold read_parameters in Hp.
  apply read_parameters_truthy_keys in Hp as [Htruthy Hkeys];
    [|constructor].
  assert (Hfind : forall p, In p PARAMS ->
            exists v, first_present params (names_of p) = Some v).
  { intros p Hin. destruct (Hparams p Hin) as [r Hr].
    apply first_present_Some in Hr as (n & Hn & Hg).
    apply dict_get_str_In in Hg.
    apply (first_present_found params (names_of p) n Hn).
    apply Hkeys. right. apply in_map_iff. exists (VStr n, r). auto. }
  split; [|split].
  - intros p Hin. destruct (Hfind p Hin) as [v Hv]. exists v.
    unfold parameter. cbn [parameters].
    now apply parameter_loop_found.
  - intros c Hin.
    destruct (check_columns_found params cols COLUMNS u Hk c Hin)
      as [col Hcol].
    exists col. unfold column. cbn [columns].
    split; [now apply column_loop_found|].
    apply first_present_Some in Hcol as (n & _ & Hg).
    apply dict_get_str_In in Hg.
    pose proof (read_columns_sized _ _ _ _ _ _ _ _ _ _ Hc
                  (Forall_nil _)) as Hs.
    rewrite Forall_forall in Hs. exact (Hs _ Hg).
  - destruct (Hfind (Name NAME_PARAM) (or_introl eq_refl)) as [v Hv].
    cbn [names_of first_present] in Hv. unfold dict_item. cbn [parameters].
    destruct (dict_get py_eq params (VStr NAME_PARAM)) as [w|]; [eauto|].
    discriminate.
Qed.

Lemma extracted_sets_answer_lookups_witness :
  Forall (answers_lookups [VInt 1; VInt 0]) [set_A; set_B].
Proof.
  exact (extracted_sets_answer_lookups grid_adjacent
           (mkBatchParameters [VInt 1; VInt 0] [set_A; set_B])
           ltac:(vm_compute; reflexivity)).
Defined.

(* ------------------------------------------------------------------ *)
(** ** Labels of the header column *)
(* ------------------------------------------------------------------ *)

Lemma header_map_keys (rows : grid) (hc : nat) (n : pystr) :
  forall (k start : nat) (acc m : dict value nat),
    foldM (fun header_to_row_map row_index =>
             row <- item rows row_index ;;
             if hc <=? length row
             then header_name <- item row hc ;;
                  if truthy header_name
                  then Ok (dict_set py_eq header_to_row_map header_name
                                    row_index)
                  else Ok header_to_row_map
             else Ok header_to_row_map)
          acc (seq start k) = Ok m ->
    n <> [] ->
    In (VStr n) (map fst acc)
    \/ (exists i, start <= i < start + k
                  /\ cell (row_at rows i) hc = VStr n) ->
    In (VStr n) (map fst m).
Proof.
  induction k as [|k IH]; intros start acc m H Hn Hin.
  - cbn [seq foldM] in H. injection H as <-.
    destruct Hin as [Hin|(i & Hi & _)]; [assumption|lia].
  - cbn [seq foldM] in H. apply bind_Ok in H as (acc1 & H1 & H).
    apply (IH _ _ _ H Hn).
    apply bind_Ok in H1 as (row & Hrow & H1).
    assert (Erow : row = row_at rows start).
    { unfold item in Hrow. unfold row_at.
      destruct (nth_error rows start) as [r|] eqn:E; [|discriminate].
      injection Hrow as <-. symmetry. now apply nth_error_nth. }
    subst row.
    destruct Hin as [Hin|(i & Hi & Hcell)].
    + left. destruct (hc <=? length (row_at rows start));
        [|now injection H1 as <-].
      apply bind_Ok in H1 as (header_name & _ & H1).
      destruct (truthy header_name); injection H1 as <-; [|assumption].
      apply dict_set_keys_str. now left.
    + destruct (Nat.eq_dec i start) as [->|Hne];
        [|right; exists i; split; [lia|assumption]].
      left.
      assert (Hlt : hc < length (row_at rows start)).
      { destruct (Nat.lt_ge_cases hc (length (row_at rows start)))
          as [Hlt|Hge]; [assumption|].
        unfold cell in Hcell. rewrite nth_overflow in Hcell by assumption.
        discriminate. }
      destruct (Nat.leb_spec hc (length (row_at rows start))); [|lia].
      apply bind_Ok in H1 as (header_name & Hh & H1).
      assert (Eh : header_name = VStr n).
      { unfold item in Hh. unfold cell in Hcell.
        destruct (nth_error (row_at rows start) hc) as [x|] eqn:E;
          [|discriminate].
        injection Hh as <-. rewrite <- Hcell. symmetry.
        now apply nth_error_nth. }
      subst header_name. destruct n as [|c n]; [congruence|].
      cbn [truthy] in H1. injection H1 as <-.
      apply dict_set_keys_str. now right.
Qed.

(** X13. Every text label that stands in the header column above the
    header row is a parameter of every set the extraction returns, with
    a truthy value: a labelled row beyond the three required ones must
    have a value in the first column of every group as well. *)
Theorem every_label_is_a_parameter
        (rows : grid) (t : table) (bp : BatchParameters) (i : nat)
        (n : pystr) :
  locate_table rows = Ok t ->
  _loadBatchParameters_rows rows = Some (Ok bp) ->
  i < headerRowIndex t ->
  cell (row_at rows i) (headerColumnIndex t) = VStr n ->
  n <> [] ->
  forall ps, In ps (parameterSets bp) ->
             exists v, dict_get py_eq (parameters ps) (VStr n) = Some v
                       /\ truthy v = true.
Proof.
  intros Ht H Hi Hcell Hn.
  destruct (locate_table_parts rows t Ht) as [Hmap _].
  assert (Hkey : In (VStr n) (map fst (header_to_row_map t))).
  { unfold build_header_to_row_map in Hmap.
    apply (header_map_keys rows _ n _ _ _ _ Hmap Hn).
    right. exists i. split; [lia|assumption]. }
  unfold _loadBatchParameters_rows in H. rewrite Ht in H.
  destruct (read_parameter_sets _ _ _ _ _ _ _ _ _) as [[sets|]|] eqn:E;
    try discriminate.
  injection H as <-. cbn [parameterSets]. apply Forall_forall.
  eapply read_parameter_sets_each; [|exact E|constructor].
  intros cur cur' fuel params cols u Hp _ _. cbn [parameters].
  unfold read_parameters in Hp.
  apply read_parameters_truthy_keys in Hp as [Htruthy Hkeys];
    [|constructor].
  destruct (dict_get_str_key params n (Hkeys n (or_intror Hkey))) as [v Hv].
  exists v. split; [assumption|].
  apply dict_get_str_In in Hv. rewrite Forall_forall in Htruthy.
  exact (Htruthy _ Hv).
Qed.

(** A fourth labelled row without a value stops the extraction. *)
Lemma every_label_is_a_parameter_witness :
  (forall ps, In ps [set_A; set_B] ->
              exists v, dict_get py_eq (parameters ps)
                                 (VStr (str "Network threshold")) = Some v
                        /\ truthy v = true)
  /\ _loadBatchParameters_rows grid_with_note
     = Some (Raise (Exception (str "Expected %s value in cell %s")
                              [VStr (str "Comment"); VStr (str "C4")])).
Proof.
  split; [|reflexivity].
  exact (every_label_is_a_parameter grid_adjacent (table_of grid_adjacent)
           (mkBatchParameters [VInt 1; VInt 0] [set_A; set_B]) 2
           (str "Network threshold") eq_refl
           ltac:(vm_compute; reflexivity) ltac:(simpl; lia) eq_refl
           ltac:(discriminate)).
Defined.

(* ================================================================== *)
(** * Properties of [_getColumnValues] *)
(* ================================================================== *)

Lemma getitem_of_nat {A : Type} (l : list A) (k : nat) (d : A) :
  k < length l -> getitem l (Z.of_nat k) = Ok (nth k l d).
Proof.
  intros Hk. unfold getitem.
  destruct (Z.ltb_spec (Z.of_nat k) 0); [lia|].
  destruct (Z.ltb_spec (Z.of_nat k) 0); [lia|].
  destruct (Z.leb_spec (Z.of_nat (length l)) (Z.of_nat k)); [lia|].
  cbn [orb]. rewrite Nat2Z.id.
  destruct (nth_error l k) as [a|] eqn:E.
  - now rewrite (nth_error_nth _ _ _ E).
  - apply nth_error_None in E. lia.
Qed.

Lemma item_cell (row : list value) (c : nat) :
  c < length row -> item row c = Ok (cell row c).
Proof.
  intros Hc. unfold item, cell.
  destruct (nth_error row c) as [a|] eqn:E.
  - now rewrite (nth_error_nth _ _ _ E).
  - apply nth_error_None in E. lia.
Qed.

Lemma item_short (row : list value) (c : nat) :
  length row <= c -> item row c = Raise IndexError.
Proof.
  intros Hc. unfold item.
  now rewrite (proj2 (nth_error_None row c) Hc).
Qed.

Lemma index_from_absent (row : list value) (x : value) (i : nat) :
  contains row x = false -> index_from row x i = None.
Proof.
  revert i; induction row as [|e row IH]; intros i; simpl; [reflexivity|].
  destruct (py_eq e x); simpl; [discriminate|]. apply IH.
Qed.

Lemma mapM_map {A B : Type} (f : A -> result B) (g : A -> B) (l : list A) :
  (forall x, In x l -> f x = Ok (g x)) -> mapM f l = Ok (map g l).
Proof.
  induction l as [|a l IH]; intros H; simpl; [reflexivity|].
  rewrite (H a (or_introl eq_refl)). cbn [bind].
  rewrite IH by (intros x Hx; apply H; now right). reflexivity.
Qed.

Lemma mapM_fails {A B : Type} (f : A -> result B) (e : exn) (l : list A) :
  (forall x, In x l -> (exists b, f x = Ok b) \/ f x = Raise e) ->
  (exists x, In x l /\ f x = Raise e) ->
  mapM f l = Raise e.
Proof.
  induction l as [|a l IH]; intros Hall (x & Hx & Hf); [destruct Hx|].
  simpl. destruct (Hall a (or_introl eq_refl)) as [[b Hb]|Hb]; rewrite Hb;
    [|reflexivity].
  cbn [bind]. rewrite IH; [reflexivity| |].
  - intros y Hy. apply Hall. now right.
  - destruct Hx as [->|Hx]; [congruence|]. now exists x.
Qed.

(** The row read for index [i] of the comprehension. *)
Lemma row_below_header (rows : grid) (h i : nat) :
  S h + i < length rows ->
  getitem rows (Z.of_nat i + Z.of_nat h + 1) = Ok (row_at rows (S h + i)).
Proof.
  intros H.
  replace (Z.of_nat i + Z.of_nat h + 1)%Z with (Z.of_nat (S h + i)) by lia.
  now apply getitem_of_nat.
Qed.

Lemma range_below_header (rows : grid) (h : nat) :
  range (Z.of_nat (length rows) - Z.of_nat h - 1)
  = map Z.of_nat (seq 0 (length rows - S h)).
Proof.
  unfold range. do 2 f_equal. lia.
Qed.

Lemma mapM_of_nat {B : Type} (f : Z -> result B) (l : list nat) :
  mapM f (map Z.of_nat l) = mapM (fun i => f (Z.of_nat i)) l.
Proof.
  induction l as [|a l IH]; simpl; [reflexivity|]. now rewrite IH.
Qed.

Lemma _getColumnValues_found (rows : grid) (name : value) (h c : nat) :
  h < length rows ->
  index_from (row_at rows h) name 0 = Some c ->
  _getColumnValues rows name (Z.of_nat h)
  = mapM (fun i => row <- getitem rows (Z.of_nat i + Z.of_nat h + 1) ;;
                   item row c)
         (seq 0 (length rows - S h)).
Proof.
  intros Hh Hc. unfold _getColumnValues.
  rewrite (getitem_of_nat rows h [] Hh). cbn [bind].
  fold (row_at rows h). rewrite Hc, range_below_header.
  apply mapM_of_nat.
Qed.

(** X14.  When the name is in the header row and every row below the
    header reaches its column, [_getColumnValues] returns the cells of
    that column, one for each row below the header down to the last row
    of the sheet, empty cells included. *)
Theorem _getColumnValues_reads_the_column
        (rows : grid) (name : value) (h c : nat) :
  h < length rows ->
  index_from (row_at rows h) name 0 = Some c ->
  (forall i, S h + i < length rows -> c < length (row_at rows (S h + i))) ->
  _getColumnValues rows name (Z.of_nat h)
  = Ok (column_cells rows c (S h) (length rows - S h)).
Proof.
  intros Hh Hc Hrows. rewrite (_getColumnValues_found rows name h c Hh Hc).
  unfold column_cells. apply mapM_map.
  intros i Hi. apply in_seq in Hi.
  rewrite row_below_header by lia. cbn [bind].
  apply item_cell. apply Hrows. lia.
Qed.

(** X15.  A name that no cell of the header row equals is reported as
    a column that was not found. *)
Theorem _getColumnValues_unknown_column
        (rows : grid) (name : value) (h : nat) :
  h < length rows ->
  contains (row_at rows h) name = false ->
  _getColumnValues rows name (Z.of_nat h)
  = Raise (Exception (str "Column '%s' not found") [name]).
Proof.
  intros Hh Hc. unfold _getColumnValues.
  rewrite (getitem_of_nat rows h [] Hh). cbn [bind].
  fold (row_at rows h). now rewrite index_from_absent.
Qed.

(** X16.  A row below the header that ends before the column makes
    [_getColumnValues] fail with [IndexError]: it does not check the
    length of a row before it reads the cell. *)
Theorem _getColumnValues_short_row
        (rows : grid) (name : value) (h c i : nat) :
  h < length rows ->
  index_from (row_at rows h) name 0 = Some c ->
  S h + i < length rows ->
  length (row_at rows (S h + i)) <= c ->
  _getColumnValues rows name (Z.of_nat h) = Raise IndexError.
Proof.
  intros Hh Hc Hi Hshort. rewrite (_getColumnValues_found rows name h c Hh Hc).
  apply mapM_fails.
  - intros j Hj. apply in_seq in Hj.
    rewrite row_below_header by lia. cbn [bind].
    destruct (Nat.lt_ge_cases c (length (row_at rows (S h + j)))) as [H|H].
    + left. eexists. now apply item_cell.
    + right. now apply item_short.
  - exists i. split; [apply in_seq; lia|].
    rewrite row_below_header by lia. cbn [bind]. now apply item_short.
Qed.

Lemma columnValues_loop_Ok (rows : grid) (c first : nat) (start n : nat)
      (values values' : list value) :
  foldM (columnValues_body rows c first) values (seq start n) = Ok values' ->
  values' = values ++ map (fun i => cell (row_at rows (first + i)) c)
                          (seq start n)
  /\ forall i, start <= i < start + n ->
               first + i < length rows /\ c < length (row_at rows (first + i)).
Proof.
  revert start values; induction n as [|n IH]; intros start values; simpl.
  - intros [= <-]. rewrite app_nil_r. split; [reflexivity|lia].
  - intros H. apply bind_Ok in H as (v1 & H1 & H).
    apply IH in H as [-> Hrest].
    unfold columnValues_body in H1. apply bind_Ok in H1 as (row & Hrow & H1).
    assert (Hlt : first + start < length rows).
    { unfold item in Hrow. apply nth_error_Some. destruct (nth_error _ _);
        [discriminate|discriminate]. }
    rewrite (item_row_at _ Hlt) in Hrow. injection Hrow as <-.
    destruct (Nat.leb_spec (length (row_at rows (first + start))) c) as [Hs|Hs].
    + cbn [orb] in H1. destruct (CellRef c (first + start)); discriminate.
    + cbn [orb] in H1. destruct (_ && _) in H1.
      * destruct (CellRef c (first + start)); discriminate.
      * injection H1 as <-. rewrite <- app_assoc. split; [reflexivity|].
        intros i Hi. destruct (Nat.eq_dec i start) as [->|Hne]; [now split|].
        apply Hrest. lia.
Qed.

(** X17.  On the rows below a header, whatever [columnValues] returns
    for the column of a name, [_getColumnValues] returns for the name:
    the second reads the same cells and checks less. *)
Theorem _getColumnValues_agrees_with_columnValues
        (rows : grid) (name : value) (h c : nat) (values : list value) :
  h < length rows ->
  index_from (row_at rows h) name 0 = Some c ->
  columnValues rows c (S h) (length rows - S h) = Ok values ->
  _getColumnValues rows name (Z.of_nat h) = Ok values.
Proof.
  intros Hh Hc H. unfold columnValues in H.
  apply columnValues_loop_Ok in H as [-> Hrows]. cbn [app].
  rewrite (_getColumnValues_found rows name h c Hh Hc).
  apply mapM_map. intros i Hi. apply in_seq in Hi.
  rewrite row_below_header by lia. cbn [bind].
  apply item_cell. apply Hrows. lia.
Qed.

(** The quality column of a table with a blank cell in it. *)
Lemma _getColumnValues_reads_the_column_witness :
  _getColumnValues grid_blank_quality (VStr (str "Quality")) 4
  = Ok [VInt 1; VNone; VInt 0].
Proof.
  apply (_getColumnValues_reads_the_column grid_blank_quality
           (VStr (str "Quality")) 4 2).
  - simpl; lia.
  - reflexivity.
  - intros i Hi. simpl in Hi.
    destruct i as [|[|[|i]]]; simpl; lia.
Defined.

Lemma _getColumnValues_unknown_column_witness :
  _getColumnValues grid_corridor (VStr (str "Width")) 4
  = Raise (Exception (str "Column '%s' not found") [VStr (str "Width")]).
Proof.
  apply (_getColumnValues_unknown_column grid_corridor (VStr (str "Width")) 4).
  - simpl; lia.
  - reflexivity.
Defined.

Lemma _getColumnValues_short_row_witness :
  _getColumnValues grid_short_row (VStr (str "Quality")) 0 = Raise IndexError.
Proof.
  apply (_getColumnValues_short_row grid_short_row (VStr (str "Quality")) 0 2 1).
  - simpl; lia.
  - reflexivity.
  - simpl; lia.
  - simpl; lia.
Defined.

Lemma _getColumnValues_agrees_with_columnValues_witness :
  _getColumnValues grid_corridor (VStr (str "Friction")) 4
  = Ok [VFloat float_1; VFloat float_5; VInt 0; VFloat float_2].
Proof.
  apply (_getColumnValues_agrees_with_columnValues grid_corridor
           (VStr (str "Friction")) 4 4).
  - simpl; lia.
  - reflexivity.
  - reflexivity.
Defined.


(* ================================================================== *)
(** * Properties of the raster formulas *)
(* ================================================================== *)

Lemma and_then_Done {A B : Type} (o : outcome A) (k : A -> outcome B) (b : B) :
  and_then o k = Done b -> exists a, o = Done a /\ k a = Done b.
Proof.
  destruct o as [a| |]; simpl; intros H; try discriminate. now exists a.
Qed.

Lemma at_index_nth {A : Type} (l : list A) (i : nat) (d : A) :
  i < length l -> at_index l i = Done (nth i l d).
Proof.
  intros Hi. unfold at_index.
  destruct (nth_error l i) as [a|] eqn:E.
  - now rewrite (nth_error_nth _ _ _ E).
  - apply nth_error_None in E. lia.
Qed.

Lemma comprehension_shift {A : Type} (cond : nat -> outcome bool)
      (elem : nat -> outcome A) (l : list nat) :
  comprehension cond elem (map S l)
  = comprehension (fun i => cond (S i)) (fun i => elem (S i)) l.
Proof.
  induction l as [|i l IH]; simpl; [reflexivity|]. now rewrite IH.
Qed.

Lemma comprehension_none {A : Type} (cond : nat -> outcome bool)
      (elem : nat -> outcome A) (l : list nat) :
  (forall i, In i l -> cond i = Done false) ->
  comprehension cond elem l = Done [].
Proof.
  induction l as [|i l IH]; intros H; simpl; [reflexivity|].
  rewrite (H i (or_introl eq_refl)). simpl.
  apply IH. intros j Hj. apply H. now right.
Qed.

Lemma comprehension_conditions {A : Type} (cond : nat -> outcome bool)
      (elem : nat -> outcome A) (l : list nat) (xs : list A) :
  comprehension cond elem l = Done xs ->
  forall i, In i l -> exists b, cond i = Done b.
Proof.
  revert xs; induction l as [|j l IH]; intros xs H i Hi; [destruct Hi|].
  simpl in H. apply and_then_Done in H as (b & Hb & H).
  destruct Hi as [->|Hi]; [now exists b|].
  destruct b.
  - apply and_then_Done in H as (x & _ & H).
    apply and_then_Done in H as (xs' & H & _). exact (IH _ H i Hi).
  - exact (IH _ H i Hi).
Qed.

Lemma number_position (values : list value) :
  Exists (fun v => number v = false) values ->
  exists i, i < length values /\ gt_zero (nth i values VNone) = Fails TypeError.
Proof.
  induction 1 as [v values Hv|v values _ (i & Hi & H)].
  - exists 0. split; [simpl; lia|]. destruct v; try discriminate; reflexivity.
  - exists (S i). split; [simpl; lia|exact H].
Qed.

Lemma condition_on_text (values : list value) :
  Exists (fun v => number v = false) values ->
  exists i, In i (seq 0 (length values))
            /\ (v <~ at_index values i ;; gt_zero v) = Fails TypeError.
Proof.
  intros H. destruct (number_position values H) as (i & Hi & Hf).
  exists i. split; [apply in_seq; lia|].
  now rewrite (at_index_nth values i VNone Hi).
Qed.

Lemma for_each_codes (codes : list Z) :
  for_each (fun code => d <~ format_d code ;; Done (str "A==" ++ d))
           (map VInt codes)
  = if forallb within_limit codes
    then Done (map (fun c => str "A==" ++ str_of_Z c) codes)
    else Fails ValueError.
Proof.
  induction codes as [|c codes IH]; [reflexivity|].
  cbn [map for_each forallb format_d]. unfold format_int.
  destruct (within_limit c); [|reflexivity].
  cbn [and_then andb]. rewrite IH.
  destruct (forallb within_limit codes); reflexivity.
Qed.

Lemma reproduction_biotope_codes_cons (c v : value) (codes values : list value) :
  reproduction_biotope_codes (c :: codes) (v :: values)
  = if py_eq v (VInt 1)
    then rs <~ reproduction_biotope_codes codes values ;; Done (c :: rs)
    else reproduction_biotope_codes codes values.
Proof.
  unfold reproduction_biotope_codes.
  cbn [length seq comprehension at_index nth_error and_then].
  rewrite <- seq_shift, comprehension_shift. reflexivity.
Qed.

Lemma reproduction_biotope_codes_of_codes (codes : list Z) (values : list value) :
  length values <= length codes ->
  reproduction_biotope_codes (map VInt codes) values
  = Done (map VInt (source_codes codes values)).
Proof.
  revert codes; induction values as [|v values IH]; intros codes Hlen.
  - destruct codes; reflexivity.
  - destruct codes as [|c codes]; [simpl in Hlen; lia|].
    cbn [map]. rewrite reproduction_biotope_codes_cons.
    rewrite IH by (simpl in Hlen; lia).
    unfold source_codes. cbn [combine filter snd].
    destruct (py_eq v (VInt 1)); reflexivity.
Qed.

Lemma quality_terms_cons (c v : value) (codes values : list value) :
  quality_terms (c :: codes) (v :: values)
  = (b <~ gt_zero v ;;
     if b : bool
     then x <~ (cd <~ format_d c ;; q <~ format_d v ;;
                Done (str "(A==" ++ cd ++ str ")*" ++ q)) ;;
          ts <~ quality_terms codes values ;; Done (x :: ts)
     else quality_terms codes values).
Proof.
  unfold quality_terms.
  cbn [length seq comprehension at_index nth_error and_then].
  rewrite <- seq_shift, comprehension_shift. reflexivity.
Qed.

Lemma friction_terms_cons (c v : value) (codes values : list value) :
  friction_terms (c :: codes) (v :: values)
  = (b <~ gt_zero v ;;
     if b : bool
     then x <~ (cd <~ format_d c ;; q <~ format_f v ;;
                Done (str "(A==" ++ cd ++ str ")*" ++ q)) ;;
          ts <~ friction_terms codes values ;; Done (x :: ts)
     else friction_terms codes values).
Proof.
  unfold friction_terms.
  cbn [length seq comprehension at_index nth_error and_then].
  rewrite <- seq_shift, comprehension_shift. reflexivity.
Qed.

Lemma quality_terms_of_integers (codes values : list Z) :
  length values <= length codes ->
  quality_terms (map VInt codes) (map VInt values)
  = if forallb (fun cv => within_limit (fst cv) && within_limit (snd cv))
               (positive_rows codes values)
    then Done (map (fun cv => str "(A==" ++ str_of_Z (fst cv) ++ str ")*"
                              ++ str_of_Z (snd cv))
                   (positive_rows codes values))
    else Fails ValueError.
Proof.
  revert codes; induction values as [|v values IH]; intros codes Hlen.
  - destruct codes; reflexivity.
  - destruct codes as [|c codes]; [simpl in Hlen; lia|].
    cbn [map]. rewrite quality_terms_cons.
    rewrite IH by (simpl in Hlen; lia).
    unfold positive_rows. cbn [combine filter snd gt_zero and_then format_d].
    destruct (0 <? v)%Z; [|reflexivity].
    cbn [forallb fst snd map]. unfold format_int.
    destruct (within_limit c); [|reflexivity].
    destruct (within_limit v); [|reflexivity].
    cbn [and_then andb].
    destruct (forallb _ _); reflexivity.
Qed.

Lemma friction_terms_of_floats (codes : list Z) (values : list float) :
  length values <= length codes ->
  friction_terms (map VInt codes) (map VFloat values)
  = if forallb (fun cv => within_limit (fst cv))
               (positive_float_rows codes values)
    then Done (map (fun cv => str "(A==" ++ str_of_Z (fst cv) ++ str ")*"
                              ++ format_f_float (snd cv))
                   (positive_float_rows codes values))
    else Fails ValueError.
Proof.
  revert codes; induction values as [|v values IH]; intros codes Hlen.
  - destruct codes; reflexivity.
  - destruct codes as [|c codes]; [simpl in Hlen; lia|].
    cbn [map]. rewrite friction_terms_cons.
    rewrite IH by (simpl in Hlen; lia).
    unfold positive_float_rows.
    cbn [combine filter snd gt_zero and_then format_d format_f].
    destruct (SFltb (S754_zero false) v); [|reflexivity].
    cbn [forallb fst snd map]. unfold format_int.
    destruct (within_limit c); [|reflexivity].
    cbn [and_then andb].
    destruct (forallb _ _); reflexivity.
Qed.

(** X18.  When no source value equals 1 the source formula is
    [(())*1], a pair of empty brackets, and the codes are not read. *)
Theorem source_formula_without_sources (codes values : list value) :
  Forall (fun v => py_eq v (VInt 1) = false) values ->
  source_formula codes values = Done (str "(())*1").
Proof.
  intros H. unfold source_formula, reproduction_biotope_codes.
  rewrite comprehension_none; [reflexivity|].
  intros i Hi. apply in_seq in Hi.
  rewrite (at_index_nth values i VNone) by lia. cbn [and_then]. f_equal.
  rewrite Forall_forall in H. apply H. apply nth_In. lia.
Qed.

(** X19.  With integer codes, at least as many as there are source
    values: when the code of every row whose source value equals 1 has
    no more digits than the interpreter writes, the source formula is
    one comparison [A==code] for each of these rows, in the order of
    the rows, joined by [)+(] inside [((] and [))*1]; when one of
    these codes has more digits, building the formula raises
    [ValueError]. *)
Theorem source_formula_of_codes (codes : list Z) (values : list value) :
  length values <= length codes ->
  source_formula (map VInt codes) values
  = if forallb within_limit (source_codes codes values)
    then Done (str "(("
               ++ join (str ")+(")
                       (map (fun c => str "A==" ++ str_of_Z c)
                            (source_codes codes values))
               ++ str "))*1")
    else Fails ValueError.
Proof.
  intros Hlen. unfold source_formula.
  rewrite reproduction_biotope_codes_of_codes by assumption.
  cbn [and_then]. rewrite for_each_codes.
  destruct (forallb within_limit (source_codes codes values)); reflexivity.
Qed.


(** X21.  A quality strictly between 0 and 1 passes the test
    [> 0] and is then written by [%d] as 0: its row is in the formula
    with the factor 0.  (A code with more digits than the interpreter
    writes makes the term raise [ValueError] instead.) *)
Theorem quality_formula_drops_fraction
        (c : Z) (m : positive) (e : Z) (codes values : list value)
        (terms : list pystr) :
  (Z.pos m < 2 ^ (- e))%Z ->
  quality_terms codes values = Done terms ->
  quality_formula (VInt c :: codes) (VFloat (S754_finite false m e) :: values)
  = if within_limit c
    then Done (join (str "+")
                    ((str "(A==" ++ str_of_Z c ++ str ")*0") :: terms))
    else Fails ValueError.
Proof.
  intros Hm Ht. unfold quality_formula.
  rewrite quality_terms_cons, Ht.
  assert (He : (e < 0)%Z).
  { destruct (Z.ltb_spec e 0) as [|He]; [assumption|].
    assert (2 ^ (- e) <= 1)%Z; [|lia].
    destruct (Z.eq_dec e 0) as [->|]; [simpl; lia|].
    rewrite Z.pow_neg_r by lia. lia. }
  assert (H0 : Z.shiftl (Z.pos m) e = 0%Z).
  { rewrite Z.shiftl_div_pow2 by lia. apply Z.div_small. lia. }
  cbn [gt_zero and_then format_d int_of_float].
  rewrite H0. unfold format_int.
  destruct (within_limit c); reflexivity.
Qed.

(** X22.  A quality column with a cell that holds text or nothing
    never gives a quality formula. *)
Theorem quality_formula_rejects_text (codes values : list value) :
  Exists (fun v => number v = false) values ->
  forall formula, quality_formula codes values <> Done formula.
Proof.
  intros H formula Hf. unfold quality_formula in Hf.
  apply and_then_Done in Hf as (terms & Ht & _).
  destruct (condition_on_text values H) as (i & Hi & Hc).
  destruct (comprehension_conditions _ _ _ _ Ht i Hi) as [b Hb].
  congruence.
Qed.

(** X23.  With integer codes and integer qualities, at least as many
    codes as qualities: when in every row whose quality is above zero
    the code and the quality have no more digits than the interpreter
    writes, the quality formula is one term [(A==code)*quality] for
    each of these rows, in the order of the rows, joined by [+]; when
    one of these numbers has more digits, building the formula raises
    [ValueError]. *)
Theorem quality_formula_of_integers (codes values : list Z) :
  length values <= length codes ->
  quality_formula (map VInt codes) (map VInt values)
  = if forallb (fun cv => within_limit (fst cv) && within_limit (snd cv))
               (positive_rows codes values)
    then Done (join (str "+")
                    (map (fun cv => str "(A==" ++ str_of_Z (fst cv)
                                    ++ str ")*" ++ str_of_Z (snd cv))
                         (positive_rows codes values)))
    else Fails ValueError.
Proof.
  intros Hlen. unfold quality_formula.
  rewrite quality_terms_of_integers by assumption.
  destruct (forallb _ _); reflexivity.
Qed.

(** X24.  A friction column with a cell that holds text or nothing
    never gives a friction formula. *)
Theorem friction_formula_rejects_text (codes values : list value) :
  Exists (fun v => number v = false) values ->
  forall formula, friction_formula codes values <> Done formula.
Proof.
  intros H formula Hf. unfold friction_formula in Hf.
  apply and_then_Done in Hf as (terms & Ht & _).
  destruct (condition_on_text values H) as (i & Hi & Hc).
  destruct (comprehension_conditions _ _ _ _ Ht i Hi) as [b Hb].
  congruence.
Qed.

(** X25.  With integer codes and float frictions, at least as many
    codes as frictions: when the code of every row whose friction is
    above zero has no more digits than the interpreter writes, the
    friction formula is one term for each of these rows, the friction
    written with six decimals, joined by [+]; when one of these codes
    has more digits, building the formula raises [ValueError]. *)
Theorem friction_formula_of_floats (codes : list Z) (values : list float) :
  length values <= length codes ->
  friction_formula (map VInt codes) (map VFloat values)
  = if forallb (fun cv => within_limit (fst cv))
               (positive_float_rows codes values)
    then Done (join (str "+")
                    (map (fun cv => str "(A==" ++ str_of_Z (fst cv)
                                    ++ str ")*" ++ format_f_float (snd cv))
                         (positive_float_rows codes values)))
    else Fails ValueError.
Proof.
  intros Hlen. unfold friction_formula.
  rewrite friction_terms_of_floats by assumption.
  destruct (forallb _ _); reflexivity.
Qed.

(** X26.  A friction above zero and below half a millionth passes the
    test [> 0] and is then written by [%f] as [0.000000]: its row is
    in the formula with the factor zero.  (A code with more digits
    than the interpreter writes makes the term raise [ValueError]
    instead.) *)
Theorem friction_formula_rounds_to_zero
        (c : Z) (m : positive) (e : Z) (codes values : list value)
        (terms : list pystr) :
  (Z.pos m * 2000000 < 2 ^ (- e))%Z ->
  friction_terms codes values = Done terms ->
  friction_formula (VInt c :: codes) (VFloat (S754_finite false m e) :: values)
  = if within_limit c
    then Done (join (str "+")
                    ((str "(A==" ++ str_of_Z c ++ str ")*0.000000") :: terms))
    else Fails ValueError.
Proof.
  intros Hm Ht. unfold friction_formula.
  rewrite friction_terms_cons, Ht.
  assert (He : (e < 0)%Z).
  { destruct (Z.ltb_spec e 0) as [|He]; [assumption|].
    assert (2 ^ (- e) <= 1)%Z; [|lia].
    destruct (Z.eq_dec e 0) as [->|]; [simpl; lia|].
    rewrite Z.pow_neg_r by lia. lia. }
  assert (H0 : millionths m e = 0%Z).
  { unfold millionths. destruct (Z.leb_spec 0 e); [lia|].
    rewrite Z.shiftl_1_l.
    rewrite (Z.div_small (Z.pos m * 1000000)) by lia.
    rewrite (Z.mod_small (Z.pos m * 1000000)) by lia.
    destruct (Z.compare_spec (2 * (Z.pos m * 1000000)) (2 ^ (- e)));
      [lia|reflexivity|lia]. }
  cbn [gt_zero and_then format_d format_f format_f_float].
  rewrite H0. unfold format_int.
  destruct (within_limit c); reflexivity.
Qed.

(** Text and zeros in the source column: the rows are no sources. *)
Lemma source_formula_without_sources_witness :
  source_formula [] [VStr (str "1"); VInt 0; VNone] = Done (str "(())*1").
Proof.
  apply (source_formula_without_sources [] [VStr (str "1"); VInt 0; VNone]).
  repeat constructor.
Defined.

(** The source column of the Corridor table; 1.0 counts as 1. *)
Lemma source_formula_of_codes_witness :
  source_formula [VInt 1; VInt 2; VInt 0; VInt 4]
                 [VInt 1; VInt 0; VInt 0; VFloat float_1]
  = Done (str "((A==1)+(A==4))*1").
Proof.
  exact (eq_trans
           (source_formula_of_codes [1; 2; 0; 4]%Z
              [VInt 1; VInt 0; VInt 0; VFloat float_1] ltac:(simpl; lia))
           eq_refl).
Defined.


(** Quality 0.5 for code 7. *)
Lemma quality_formula_drops_fraction_witness :
  quality_formula [VInt 7; VInt 4]
                  [VFloat (S754_finite false 4503599627370496 (-53)); VInt 3]
  = Done (str "(A==7)*0+(A==4)*3").
Proof.
  exact (eq_trans
           (quality_formula_drops_fraction 7 4503599627370496 (-53)
              [VInt 4] [VInt 3] [str "(A==4)*3"]
              ltac:(vm_compute; reflexivity) eq_refl)
           eq_refl).
Defined.

Lemma quality_formula_rejects_text_witness :
  quality_formula [VInt 1; VInt 2] [VInt 1; VStr (str "high")]
  = Fails TypeError
  /\ quality_formula [VInt 1; VInt 2] [VInt 1; VStr (str "high")]
     <> Done (str "(A==1)*1").
Proof.
  split; [reflexivity|].
  apply (quality_formula_rejects_text [VInt 1; VInt 2]
           [VInt 1; VStr (str "high")]).
  apply Exists_cons_tl, Exists_cons_hd. reflexivity.
Defined.

(** The quality column of the Corridor table. *)
Lemma quality_formula_of_integers_witness :
  quality_formula [VInt 1; VInt 2; VInt 0; VInt 4]
                  [VInt 1; VInt 2; VInt 0; VInt 3]
  = Done (str "(A==1)*1+(A==2)*2+(A==4)*3").
Proof.
  exact (eq_trans
           (quality_formula_of_integers [1; 2; 0; 4]%Z [1; 2; 0; 3]%Z
              ltac:(simpl; lia))
           eq_refl).
Defined.

Lemma friction_formula_rejects_text_witness :
  friction_formula [VInt 1; VInt 2] [VFloat float_2; VNone]
  = Fails TypeError
  /\ friction_formula [VInt 1; VInt 2] [VFloat float_2; VNone]
     <> Done (str "(A==1)*2.000000").
Proof.
  split; [reflexivity|].
  apply (friction_formula_rejects_text [VInt 1; VInt 2]
           [VFloat float_2; VNone]).
  apply Exists_cons_tl, Exists_cons_hd. reflexivity.
Defined.

(** Frictions 1.0, 0.05 and 3.5. *)
Lemma friction_formula_of_floats_witness :
  friction_formula [VInt 1; VInt 2; VInt 4]
                   [VFloat float_1; VFloat float_0_05; VFloat float_3_5]
  = Done (str "(A==1)*1.000000+(A==2)*0.050000+(A==4)*3.500000").
Proof.
  exact (eq_trans
           (friction_formula_of_floats [1; 2; 4]%Z
              [float_1; float_0_05; float_3_5] ltac:(simpl; lia))
           eq_refl).
Defined.

(** Friction [2^-22], a little above 0.0000002. *)
Lemma friction_formula_rounds_to_zero_witness :
  friction_formula [VInt 3; VInt 4]
                   [VFloat (S754_finite false 4503599627370496 (-74));
                    VFloat float_2]
  = Done (str "(A==3)*0.000000+(A==4)*2.000000").
Proof.
  exact (eq_trans
           (friction_formula_rounds_to_zero 3 4503599627370496 (-74)
              [VInt 4] [VFloat float_2] [str "(A==4)*2.000000"]
              ltac:(vm_compute; reflexivity) eq_refl)
           eq_refl).
Defined.

